(** * Genesys Cloud provider: architect datatables and the station data source

    A shallow embedding of
    [genesyscloud/resource_genesyscloud_architect_datatable.go] and
    [genesyscloud/data_source_genesyscloud_station.go].

    Conventions of the embedding.
    - A Go pointer that may be nil is an [option]; a nil slice is [[]].
    - A Go map is a [gmap]; the order in which [range] visits it is an
      explicit argument of the code that iterates.
    - A function that may dereference nil returns an [Outcome]: it either
      [Returns] a value or [Panics].
    - A vendor API error is represented by its [Error()] text, the only
      thing the handlers do with it (they format it with [%s]).
    - The answers of the remote API are inputs of the handlers: one answer
      per call, in call order. *)

From Stdlib Require Import ZArith String Ascii List Lia.
From stdpp Require Import base option gmap strings list sorting.

Local Open Scope string_scope.
Local Open Scope Z_scope.
Local Open Scope list_scope.
Local Open Scope stdpp_scope.

(** ** Outcomes, errors and diagnostics *)

Inductive Outcome (A : Type) : Type :=
| Returns (a : A)
| Panics.
Arguments Returns {A} a.
Arguments Panics {A}.

(** Sequencing: a panic ends the function. *)
#[global] Instance Outcome_bind : MBind Outcome := fun A B k o =>
  match o with
  | Returns a => k a
  | Panics => Panics
  end.

(** [*p] for a pointer [p]: a nil pointer panics. *)
Definition deref {A} (p : option A) : Outcome A :=
  match p with
  | Some a => Returns a
  | None => Panics
  end.

(** [strconv.ErrSyntax] and [strconv.ErrRange]. *)
Inductive NumErrKind : Type := ErrSyntax | ErrRange.

(** The errors this code creates or receives: [fmt.Errorf]/[errors.New]
    values, identified by their text, [*strconv.NumError], and the retry
    helper's timeout. *)
Inductive error : Type :=
| errorString (s : string)
| NumError (Func Num : string) (Err : NumErrKind)
| TimeoutError (timeout : Z).

(** A [diag.Diagnostic] of severity Error; its summary is the text of the
    given error. [diag.Diagnostics] is a slice of them, nil when empty. *)
Inductive Diagnostic : Type :=
| DiagError (summary : error).

Definition Diagnostics := list Diagnostic.

(** [diag.Errorf(format, args...)], after formatting. *)
Definition diag_Errorf (msg : string) : Diagnostics := [DiagError (errorString msg)].

(** [diag.FromErr(err)]. *)
Definition diag_FromErr (err : option error) : Diagnostics :=
  match err with
  | Some e => [DiagError e]
  | None => []
  end.

(** ** strconv *)

(** [strconv.ParseBool]. *)
Definition ParseBool (str : string) : bool + error :=
  if existsb (String.eqb str) ["1"; "t"; "T"; "TRUE"; "true"; "True"] then inl true
  else if existsb (String.eqb str) ["0"; "f"; "F"; "FALSE"; "false"; "False"] then inl false
  else inr (NumError "ParseBool" str ErrSyntax).

Definition digitOf (c : ascii) : option Z :=
  let n := Z.of_nat (nat_of_ascii c) in
  if (48 <=? n) && (n <=? 57) then Some (n - 48) else None.

(** The digit loop of [strconv.ParseUint(s, 10, 64)]: a character that is
    no decimal digit is a syntax error, a value past [2^64 - 1] a range
    error, whichever comes first from the left. *)
Fixpoint parseDigits (s : string) (n : Z) : Z + NumErrKind :=
  match s with
  | EmptyString => inl n
  | String c s' =>
      match digitOf c with
      | None => inr ErrSyntax
      | Some d =>
          let n1 := n * 10 + d in
          if 2 ^ 64 <=? n1 then inr ErrRange else parseDigits s' n1
      end
  end.

(** [strconv.Atoi] for a 64-bit [int]: an optional sign, then at least one
    decimal digit, the value within [-2^63, 2^63 - 1]. *)
Definition Atoi (s : string) : Z + error :=
  let '(neg, body) :=
    match s with
    | String "-" s' => (true, s')
    | String "+" s' => (false, s')
    | _ => (false, s)
    end in
  match body with
  | EmptyString => inr (NumError "Atoi" s ErrSyntax)
  | _ =>
      match parseDigits body 0 with
      | inr k => inr (NumError "Atoi" s k)
      | inl un =>
          if neg then
            if 2 ^ 63 <? un then inr (NumError "Atoi" s ErrRange) else inl (- un)
          else
            if 2 ^ 63 <=? un then inr (NumError "Atoi" s ErrRange) else inl un
      end
  end.

(** ** Resource data *)

(** One element of the [properties] list, a [map[string]interface{}] whose
    values are all strings (every field of [datatableProperty] has
    [schema.TypeString]). *)
Abbreviation propMap := (gmap string string).

(** [*schema.ResourceData] for the two schemas of these files: the id and
    the attributes [name], [division_id], [description], [properties].
    An attribute that is unset reads as its zero value. [d_properties] is
    the list that [d.Get("properties")] answers for a configuration and
    the list last handed to [d.Set("properties", ...)] after a read; of a
    configuration, [d.Get] answers every element with all four fields of
    the element schema, one that is not set as the empty string
    ([asGetReturns] below). *)
Record ResourceData : Type := mkResourceData {
  d_Id : string;
  d_name : string;
  d_division_id : string;
  d_description : option string;
  d_properties : option (list propMap)
}.

Definition SetId (id : string) (d : ResourceData) : ResourceData :=
  mkResourceData id (d_name d) (d_division_id d) (d_description d) (d_properties d).

Definition Set_name (v : string) (d : ResourceData) : ResourceData :=
  mkResourceData (d_Id d) v (d_division_id d) (d_description d) (d_properties d).

Definition Set_division_id (v : string) (d : ResourceData) : ResourceData :=
  mkResourceData (d_Id d) (d_name d) v (d_description d) (d_properties d).

Definition Set_description (v : option string) (d : ResourceData) : ResourceData :=
  mkResourceData (d_Id d) (d_name d) (d_division_id d) v (d_properties d).

Definition Set_properties (v : option (list propMap)) (d : ResourceData) : ResourceData :=
  mkResourceData (d_Id d) (d_name d) (d_division_id d) (d_description d) v.

(** [d.Get("description").(string)]. *)
Definition Get_description (d : ResourceData) : string := default "" (d_description d).

(** ** The retry helper *)

(** [*resource.RetryError]: [resource.RetryableError(err)] or
    [resource.NonRetryableError(err)]; nil is [None]. *)
Inductive RetryError : Type :=
| RetryableError (err : error)
| NonRetryableError (err : error).

(** [time.Duration], in nanoseconds. *)
Definition Duration := Z.
Definition Second : Duration := 1000000000.

(** What a retried handler leaves behind: the resource data, the
    diagnostics, and how many times the retried function was called. *)
Record RetryRun : Type := mkRetryRun {
  run_data : ResourceData;
  run_diags : Diagnostics;
  run_attempts : nat
}.

(** Modelled from the spec: how the retry loop ends once the deadline has
    passed, with the last error seen or, when no call was made, with a
    timeout error. *)
Definition timedOut (timeout : Duration) (d : ResourceData) (lastErr : option error)
    (n : nat) : RetryRun :=
  mkRetryRun d
    (diag_FromErr (Some (default (TimeoutError timeout) lastErr))) n.

(** Modelled from the spec: [withRetries], the bounded-retry wrapper reused
    across handlers, is not among the files embedded here. The spec calls
    it a timed retry-until-success/timeout loop with no cancellation beyond
    the retry deadline. [method d r] is one call of the retried function
    when the remote API answers [r]; [calls] lists, for each attempt the
    loop would make, the time since the start at which it would begin and
    the API's answer. An attempt is made only before the deadline; a nil
    result ends the loop with no diagnostics, a non-retryable error ends it
    with that error, a retryable error lets the loop go on, and the
    deadline ends it with the last error seen. *)
Fixpoint retryLoop {R : Type} (timeout : Duration)
    (method : ResourceData -> R -> Outcome (ResourceData * option RetryError))
    (d : ResourceData) (lastErr : option error) (n : nat)
    (calls : list (Duration * R)) : Outcome RetryRun :=
  match calls with
  | [] => Returns (timedOut timeout d lastErr n)
  | (t, r) :: rest =>
      if timeout <=? t then Returns (timedOut timeout d lastErr n)
      else
        match method d r with
        | Panics => Panics
        | Returns (d', None) => Returns (mkRetryRun d' [] (S n))
        | Returns (d', Some (NonRetryableError e)) =>
            Returns (mkRetryRun d' (diag_FromErr (Some e)) (S n))
        | Returns (d', Some (RetryableError e)) =>
            retryLoop timeout method d' (Some e) (S n) rest
        end
  end.

(** Modelled from the spec: [withRetries] starts the loop with no error
    seen and no call made. *)
Definition withRetries {R : Type} (timeout : Duration)
    (method : ResourceData -> R -> Outcome (ResourceData * option RetryError))
    (d : ResourceData) (calls : list (Duration * R)) : Outcome RetryRun :=
  retryLoop timeout method d None 0%nat calls.

(** Modelled from the spec: [withRetriesForRead] is not among the files
    embedded here either; the spec knows one bounded-retry wrapper, so it
    is the same loop. *)
Definition withRetriesForRead {R : Type} (timeout : Duration)
    (method : ResourceData -> R -> Outcome (ResourceData * option RetryError))
    (d : ResourceData) (calls : list (Duration * R)) : Outcome RetryRun :=
  withRetries timeout method d calls.

(** [*platformclientv2.APIResponse], as far as the handlers read it. *)
Record APIResponse : Type := mkAPIResponse {
  StatusCode : Z
}.

(** Modelled from the spec: [isStatus404] is not among the files embedded
    here; the spec speaks of errors retried on transient 404s, so it holds
    of a response whose HTTP status is 404. *)
Definition isStatus404 (resp : option APIResponse) : bool :=
  match resp with
  | Some r => StatusCode r =? 404
  | None => false
  end.

(** ** data_source_genesyscloud_station.go *)

Record Station : Type := mkStation {
  station_Id : option string
}.

Record Stationentitylisting : Type := mkStationentitylisting {
  Entities : option (list Station)
}.

(** What [stationsAPI.GetStations] returns: the listing, whose [Entities]
    the handler reads without a check of the listing itself, and the error
    (the response is not looked at). *)
Record GetStationsResult : Type := mkGetStationsResult {
  gs_stations : Stationentitylisting;
  gs_getErr : option string
}.

(** The function [dataSourceStationRead] hands to [withRetries]. *)
Definition stationAttempt (d : ResourceData) (r : GetStationsResult)
    : Outcome (ResourceData * option RetryError) :=
  match gs_getErr r with
  | Some getErr =>
      Returns (d, Some (NonRetryableError
                          (errorString ("Error requesting station " +:+ getErr))))
  | None =>
      match Entities (gs_stations r) with
      | None | Some [] =>
          Returns (d, Some (RetryableError (errorString "No stations found")))
      | Some (first :: _) =>
          id ← deref (station_Id first);
          Returns (SetId id d, None)
      end
  end.

Definition dataSourceStationRead (d : ResourceData)
    (calls : list (Duration * GetStationsResult)) : Outcome RetryRun :=
  withRetries (15 * Second) stationAttempt d calls.

(** ** sort.SliceStable *)

(** [sort.SliceStable(s, less)] sorts [s] by [less] and keeps equal
    elements in their original order. Such a sort has one possible result
    (lemma [SliceStable_unique] below), computed here by insertion: an
    element goes in front of the first one that is not less than it. *)
Fixpoint insertStable {A : Type} (less : A -> A -> bool) (x : A) (l : list A) : list A :=
  match l with
  | [] => [x]
  | y :: l' => if less y x then y :: insertStable less x l' else x :: l
  end.

Definition SliceStable {A : Type} (less : A -> A -> bool) (l : list A) : list A :=
  foldr (insertStable less) [] l.

(** ** deleteArchitectDatatable *)

(** What [archAPI.DeleteFlowsDatatable] returns. *)
Record DeleteResult : Type := mkDeleteResult {
  del_err : option string
}.

(** What [archAPI.GetFlowsDatatable] returns, without the datatable, which
    the delete handler does not look at. *)
Record PollResult : Type := mkPollResult {
  poll_resp : option APIResponse;
  poll_err : option string
}.

(** The function [deleteArchitectDatatable] hands to [withRetries]. *)
Definition deleteAttempt (name : string) (d : ResourceData) (r : PollResult)
    : Outcome (ResourceData * option RetryError) :=
  match poll_err r with
  | Some err =>
      if isStatus404 (poll_resp r) then Returns (d, None)
      else Returns (d, Some (NonRetryableError
             (errorString ("Error deleting datatable row " +:+ name +:+ ": " +:+ err))))
  | None =>
      Returns (d, Some (RetryableError
             (errorString ("Datatable row " +:+ name +:+ " still exists"))))
  end.

Definition deleteArchitectDatatable (d : ResourceData) (del : DeleteResult)
    (calls : list (Duration * PollResult)) : Outcome RetryRun :=
  let name := d_name d in
  match del_err del with
  | Some err =>
      Returns (mkRetryRun d
        (diag_Errorf ("Failed to delete datatable " +:+ name +:+ ": " +:+ err)) 0)
  | None => withRetries (30 * Second) (deleteAttempt name) d calls
  end.

(** ** resource_genesyscloud_architect_datatable.go *)

Section Datatables.

(** Go's [float64], [strconv.ParseFloat(s, 64)] and the package's
    [interfaceToString] helper are taken as given. *)
Variable float64 : Type.
Variable ParseFloat : string -> float64 + error.

(** The dynamic values an [interface{}] holds in this file. *)
Inductive GoValue : Type :=
| VBool (b : bool)
| VString (s : string)
| VInt (n : Z)
| VFloat (f : float64).

Variable interfaceToString : GoValue -> string.

Record Datatableproperty : Type := mkDatatableproperty {
  Id : option string;
  VarType : option string;
  Title : option string;
  Default : option GoValue;
  DisplayOrder : option Z
}.

Record Jsonschemadocument : Type := mkJsonschemadocument {
  js_Schema : option string;
  js_VarType : option string;
  js_Required : option (list string);
  js_Properties : option (gmap string Datatableproperty);
  js_AdditionalProperties : option GoValue
}.

Record Writabledivision : Type := mkWritabledivision {
  div_Id : option string
}.

Record Datatable : Type := mkDatatable {
  dt_Id : option string;
  dt_Name : option string;
  dt_Description : option string;
  dt_Division : option Writabledivision;
  dt_Schema : option Jsonschemadocument
}.

(** *** buildSdkDatatableProperties *)

(** The [switch propType] that converts a non-empty default: the converted
    value and the error of the conversion, or [None] in the [default:]
    case (a type that is none of the four). *)
Definition convertDefault (propType def : string) : option (GoValue + error) :=
  if String.eqb propType "boolean" then
    Some (match ParseBool def with inl b => inl (VBool b) | inr e => inr e end)
  else if String.eqb propType "string" then
    Some (inl (VString def))
  else if String.eqb propType "integer" then
    Some (match Atoi def with inl n => inl (VInt n) | inr e => inr e end)
  else if String.eqb propType "number" then
    Some (match ParseFloat def with inl f => inl (VFloat f) | inr e => inr e end)
  else None.

(** The body of the loop over [properties], for the element at index [i]:
    the key and value to store in [sdkProps], or the diagnostics the
    function returns with. A missing [name] or [type] fails the type
    assertion [.(string)]. *)
Definition buildSdkDatatableProperty (i : nat) (property : propMap)
    : Outcome ((string * Datatableproperty) + Diagnostics) :=
  propName ← deref (property !! "name");
  propType ← deref (property !! "type");
  let propId := "/properties/" +:+ propName in
  let orderNum := Z.of_nat i in
  let title := property !! "title" in
  match property !! "default" with
  | Some def =>
      if String.eqb def "" then
        Returns (inl (propName,
          mkDatatableproperty (Some propId) (Some propType) title None (Some orderNum)))
      else
        match convertDefault propType def with
        | None =>
            Returns (inr (diag_Errorf ("Invalid type " +:+ propType +:+
                                       " for Datatable property " +:+ propName)))
        | Some (inr err) => Returns (inr (diag_FromErr (Some err)))
        | Some (inl defaultVal) =>
            Returns (inl (propName,
              mkDatatableproperty (Some propId) (Some propType) title
                (Some defaultVal) (Some orderNum)))
        end
  | None =>
      Returns (inl (propName,
        mkDatatableproperty (Some propId) (Some propType) title None (Some orderNum)))
  end.

(** [for i, property := range properties], from index [i] on, with the
    map built so far. *)
Fixpoint buildSdkDatatablePropertiesFrom (i : nat) (properties : list propMap)
    (sdkProps : gmap string Datatableproperty)
    : Outcome (option (gmap string Datatableproperty) * Diagnostics) :=
  match properties with
  | [] => Returns (Some sdkProps, [])
  | property :: rest =>
      r ← buildSdkDatatableProperty i property;
      match r with
      | inr diags => Returns (None, diags)
      | inl (propName, sdkProp) =>
          buildSdkDatatablePropertiesFrom (S i) rest (<[propName := sdkProp]> sdkProps)
      end
  end.

Definition buildSdkDatatableProperties (d : ResourceData)
    : Outcome (option (gmap string Datatableproperty) * Diagnostics) :=
  match d_properties d with
  | Some properties => buildSdkDatatablePropertiesFrom 0 properties ∅
  | None => Returns (None, [])
  end.

(** *** buildSdkDatatableSchema *)

Definition buildSdkDatatableSchema (d : ResourceData)
    : Outcome (option Jsonschemadocument * Diagnostics) :=
  let schemaType := "http://json-schema.org/draft-04/schema#" in
  let jsonType := "object" in
  let additionalProperties := VBool false in
  r ← buildSdkDatatableProperties d;
  let '(properties, err) := r in
  match err with
  | _ :: _ => Returns (None, err)
  | [] =>
      Returns (Some (mkJsonschemadocument (Some schemaType) (Some jsonType)
                       (Some ["key"]) properties (Some additionalProperties)), [])
  end.


(** *** flattenDatatableProperties *)

Abbreviation kv := (string * Datatableproperty)%type.

(** The loop body's [if v.DisplayOrder == nil { v.DisplayOrder = &defaultOrder }]. *)
Definition withDefaultOrder (v : Datatableproperty) : Datatableproperty :=
  match DisplayOrder v with
  | None => mkDatatableproperty (Id v) (VarType v) (Title v) (Default v) (Some 0)
  | Some _ => v
  end.

(** [*propKV.Value.DisplayOrder]; never nil once [withDefaultOrder] ran. *)
Definition displayOrder (propKV : kv) : Z := default 0 (DisplayOrder propKV.2).

(** The [less] function given to [sort.SliceStable]. *)
Definition lessDisplayOrder (a b : kv) : bool := displayOrder a <? displayOrder b.

(** The body of the last loop: one element of the configuration list. *)
Definition flattenProperty (propKV : kv) : propMap :=
  let m0 : propMap := {["name" := propKV.1]} in
  let m1 := match VarType propKV.2 with Some t => <["type" := t]> m0 | None => m0 end in
  let m2 := match Title propKV.2 with Some t => <["title" := t]> m1 | None => m1 end in
  match Default propKV.2 with
  | Some v => <["default" := interfaceToString v]> m2
  | None => m2
  end.

Section Range.

(** The order in which [for k, v := range properties] visits the map. Go
    leaves it unspecified; it visits every entry once ([MapRange]). *)
Variable mapRange : gmap string Datatableproperty -> list kv.

(** [propList] after the first loop. *)
Definition propListOf (properties : gmap string Datatableproperty) : list kv :=
  (fun p : kv => (p.1, withDefaultOrder p.2)) <$> mapRange properties.

(** [propList] after [sort.SliceStable]. *)
Definition sortedPropList (properties : gmap string Datatableproperty) : list kv :=
  SliceStable lessDisplayOrder (propListOf properties).

Definition flattenDatatableProperties (properties : gmap string Datatableproperty)
    : list propMap :=
  flattenProperty <$> sortedPropList properties.

(** *** readArchitectDatatable *)

(** What [sdkGetArchitectDatatable] and [sdkPutOrPostArchitectDatatable]
    return. *)
Record DatatableResult : Type := mkDatatableResult {
  res_datatable : option Datatable;
  res_resp : option APIResponse;
  res_err : option string
}.

(** The function [readArchitectDatatable] hands to [withRetriesForRead]. *)
Definition readAttempt (d : ResourceData) (r : DatatableResult)
    : Outcome (ResourceData * option RetryError) :=
  match res_err r with
  | Some getErr =>
      let err := errorString ("Failed to read datatable " +:+ d_Id d +:+ ": " +:+ getErr) in
      if isStatus404 (res_resp r) then Returns (d, Some (RetryableError err))
      else Returns (d, Some (NonRetryableError err))
  | None =>
      datatable ← deref (res_datatable r);
      name ← deref (dt_Name datatable);
      let d := Set_name name d in
      division ← deref (dt_Division datatable);
      divisionId ← deref (div_Id division);
      let d := Set_division_id divisionId d in
      let d := Set_description (dt_Description datatable) d in
      let d :=
        match dt_Schema datatable with
        | Some schema =>
            match js_Properties schema with
            | Some properties =>
                Set_properties (Some (flattenDatatableProperties properties)) d
            | None => Set_properties None d
            end
        | None => Set_properties None d
        end in
      Returns (d, None)
  end.

Definition readArchitectDatatable (d : ResourceData)
    (calls : list (Duration * DatatableResult)) : Outcome RetryRun :=
  withRetriesForRead (30 * Second) readAttempt d calls.

(** *** createArchitectDatatable and updateArchitectDatatable *)

(** The request body both handlers assemble. *)
Definition datatableBody (id : option string) (d : ResourceData)
    (schema : option Jsonschemadocument) : Datatable :=
  let name := d_name d in
  let divisionID := d_division_id d in
  let description := Get_description d in
  mkDatatable id (Some name)
    (if String.eqb description "" then None else Some description)
    (if String.eqb divisionID "" then None else Some (mkWritabledivision (Some divisionID)))
    schema.

(** [post body] is the API's answer to the POST of [body]; [calls] are its
    answers to the GETs of the read that follows. *)
Definition createArchitectDatatable (d : ResourceData)
    (post : Datatable -> DatatableResult)
    (calls : list (Duration * DatatableResult)) : Outcome RetryRun :=
  let name := d_name d in
  r ← buildSdkDatatableSchema d;
  let '(schema, diagErr) := r in
  match diagErr with
  | _ :: _ => Returns (mkRetryRun d diagErr 0)
  | [] =>
      let res := post (datatableBody None d schema) in
      match res_err res with
      | Some err =>
          Returns (mkRetryRun d
            (diag_Errorf ("Failed to create datatable " +:+ name +:+ ": " +:+ err)) 0)
      | None =>
          table ← deref (res_datatable res);
          id ← deref (dt_Id table);
          readArchitectDatatable (SetId id d) calls
      end
  end.

(** [put body] is the API's answer to the PUT of [body]. The five seconds
    the handler sleeps before it reads change no result. *)
Definition updateArchitectDatatable (d : ResourceData)
    (put : Datatable -> DatatableResult)
    (calls : list (Duration * DatatableResult)) : Outcome RetryRun :=
  let id := d_Id d in
  let name := d_name d in
  r ← buildSdkDatatableSchema d;
  let '(schema, diagErr) := r in
  match diagErr with
  | _ :: _ => Returns (mkRetryRun d diagErr 0)
  | [] =>
      let res := put (datatableBody (Some id) d schema) in
      match res_err res with
      | Some err =>
          Returns (mkRetryRun d
            (diag_Errorf ("Failed to update datatable " +:+ name +:+ ": " +:+ err)) 0)
      | None => readArchitectDatatable d calls
      end
  end.

End Range.

End Datatables.

Arguments VBool {float64} b.
Arguments VString {float64} s.
Arguments VInt {float64} n.
Arguments VFloat {float64} f.

Arguments mkDatatableproperty {float64} Id VarType Title Default DisplayOrder.
Arguments Id {float64} d.
Arguments VarType {float64} d.
Arguments Title {float64} d.
Arguments Default {float64} d.
Arguments DisplayOrder {float64} d.
Arguments mkJsonschemadocument {float64} _ _ _ _ _.
Arguments js_Schema {float64} j.
Arguments js_VarType {float64} j.
Arguments js_Required {float64} j.
Arguments js_Properties {float64} j.
Arguments js_AdditionalProperties {float64} j.
Arguments mkDatatable {float64} _ _ _ _ _.
Arguments dt_Id {float64} d.
Arguments dt_Name {float64} d.
Arguments dt_Description {float64} d.
Arguments dt_Division {float64} d.
Arguments dt_Schema {float64} d.
Arguments mkDatatableResult {float64} _ _ _.
Arguments res_datatable {float64} d.
Arguments res_resp {float64} d.
Arguments res_err {float64} d.
Arguments convertDefault {float64} ParseFloat propType def.
Arguments buildSdkDatatableProperty {float64} ParseFloat i property.
Arguments buildSdkDatatablePropertiesFrom {float64} ParseFloat i properties sdkProps.
Arguments buildSdkDatatableProperties {float64} ParseFloat d.
Arguments buildSdkDatatableSchema {float64} ParseFloat d.
Arguments withDefaultOrder {float64} v.
Arguments displayOrder {float64} propKV.
Arguments lessDisplayOrder {float64} a b.
Arguments flattenProperty {float64} interfaceToString propKV.
Arguments propListOf {float64} mapRange properties.
Arguments sortedPropList {float64} mapRange properties.
Arguments flattenDatatableProperties {float64} interfaceToString mapRange properties.
Arguments readAttempt {float64} interfaceToString mapRange d r.
Arguments readArchitectDatatable {float64} interfaceToString mapRange d calls.
Arguments datatableBody {float64} id d schema.
Arguments createArchitectDatatable {float64} ParseFloat interfaceToString mapRange d post calls.
Arguments updateArchitectDatatable {float64} ParseFloat interfaceToString mapRange d put calls.

(** What Go promises of [range] over a map: every entry is visited once,
    in some order. *)
Definition MapRange {V : Type} (mapRange : gmap string V -> list (string * V)) : Prop :=
  forall m, mapRange m ≡ₚ map_to_list m.

(** ** getAllArchitectDatatables *)

(** [ResourceMeta], of which this function sets the name. *)
Record ResourceMeta : Type := mkResourceMeta {
  meta_Name : string
}.

(** An entity of a page of datatables, as far as it is read. *)
Record TableEntity : Type := mkTableEntity {
  table_Id : option string;
  table_Name : option string
}.

(** What [archAPI.GetFlowsDatatables] returns for one page: the
    [Entities] of the listing and the error. *)
Record PageResult : Type := mkPageResult {
  page_Entities : option (list TableEntity);
  page_getErr : option string
}.

(** [for _, table := range *tables.Entities], with the map so far. *)
Fixpoint addTables (entities : list TableEntity) (resources : gmap string ResourceMeta)
    : Outcome (gmap string ResourceMeta) :=
  match entities with
  | [] => Returns resources
  | table :: rest =>
      id ← deref (table_Id table);
      name ← deref (table_Name table);
      addTables rest (<[id := mkResourceMeta name]> resources)
  end.

(** [for pageNum := ...; ; pageNum++], from page [pageNum] on with the map
    so far. [getPage n] is the API's answer to the request for page [n].
    The loop has no bound of its own, so the embedding takes the number of
    requests it may make; [None] says that they did not suffice. *)
Fixpoint getAllArchitectDatatablesFrom (fuel : nat) (getPage : nat -> PageResult)
    (pageNum : nat) (resources : gmap string ResourceMeta)
    : option (Outcome (option (gmap string ResourceMeta) * Diagnostics)) :=
  match fuel with
  | O => None
  | S fuel' =>
      let tables := getPage pageNum in
      match page_getErr tables with
      | Some getErr =>
          Some (Returns (None, diag_Errorf ("Failed to get page of datatables: " +:+ getErr)))
      | None =>
          match page_Entities tables with
          | None | Some [] => Some (Returns (Some resources, []))
          | Some entities =>
              match addTables entities resources with
              | Panics => Some Panics
              | Returns resources' =>
                  getAllArchitectDatatablesFrom fuel' getPage (S pageNum) resources'
              end
          end
      end
  end.

Definition getAllArchitectDatatables (fuel : nat) (getPage : nat -> PageResult)
    : option (Outcome (option (gmap string ResourceMeta) * Diagnostics)) :=
  getAllArchitectDatatablesFrom fuel getPage 1 ∅.

(** ** sdkPutOrPostArchitectDatatable and sdkGetArchitectDatatable *)

(** [platformclientv2.Configuration], as far as it is read. *)
Record Configuration : Type := mkConfiguration {
  BasePath : string;
  AccessToken : string;
  DefaultHeader : gmap string string
}.

(** The [*platformclientv2.APIResponse] that [CallAPI] returns, with the
    fields these two functions read; [cr_Error] says whether [Error] is
    not nil. *)
Record CallResponse : Type := mkCallResponse {
  cr_StatusCode : Z;
  cr_Error : bool;
  cr_ErrorMessage : string;
  cr_RawBody : string
}.

(** The same response as the handlers read it. *)
Definition apiResponseOf (response : CallResponse) : APIResponse :=
  mkAPIResponse (cr_StatusCode response).

Section Sdk.

(** [json.Unmarshal] into a [*Datatable] (the pointer it leaves and its
    error) and the client's [ParameterToString] are taken as given, and so
    is the order in which [range] visits the default headers. *)
Variable float64 : Type.
Variable Unmarshal : string -> option (Datatable float64) * option string.
Variable ParameterToString : string -> string.
Variable headerRange : gmap string string -> list (string * string).

(** What [apiClient.CallAPI] is called with (the form parameters, file
    name and file bytes are always empty). *)
Record Request : Type := mkRequest {
  req_path : string;
  req_method : string;
  req_body : option (Datatable float64);
  req_headerParams : gmap string string;
  req_queryParams : option (gmap string string)
}.

(** [for key := range DefaultHeader { headerParams[key] = DefaultHeader[key] }]. *)
Definition addDefaultHeaders (defaultHeader headerParams : gmap string string)
    : gmap string string :=
  foldl (fun acc kv => <[kv.1 := kv.2]> acc) headerParams (headerRange defaultHeader).

(** What both functions do with the answer of [CallAPI]. *)
Definition finishCall (answer : option CallResponse * option string)
    : Outcome (option (Datatable float64) * option CallResponse * option string) :=
  let '(response, err) := answer in
  match err with
  | Some e => Returns (None, response, Some e)
  | None =>
      resp ← deref response;
      if cr_Error resp then Returns (None, response, Some (cr_ErrorMessage resp))
      else
        let '(successPayload, err) := Unmarshal (cr_RawBody resp) in
        Returns (successPayload, response, err)
  end.

(** The request [sdkPutOrPostArchitectDatatable] makes. *)
Definition putOrPostRequest (method : string) (body : option (Datatable float64))
    (api : Configuration) : Outcome Request :=
  let path := BasePath api +:+ "/api/v2/flows/datatables" in
  path ← (if String.eqb method "PUT" then
            b ← deref body;
            Returns (match dt_Id b with
                     | Some id => path +:+ "/" +:+ id
                     | None => path
                     end)
          else Returns path);
  let headerParams := addDefaultHeaders (DefaultHeader api) ∅ in
  let headerParams := <["Authorization" := "Bearer " +:+ AccessToken api]> headerParams in
  let headerParams := <["Content-Type" := "application/json"]> headerParams in
  let headerParams := <["Accept" := "application/json"]> headerParams in
  Returns (mkRequest path method body headerParams None).

Definition sdkPutOrPostArchitectDatatable (method : string)
    (body : option (Datatable float64)) (api : Configuration)
    (CallAPI : Request -> option CallResponse * option string)
    : Outcome (option (Datatable float64) * option CallResponse * option string) :=
  request ← putOrPostRequest method body api;
  finishCall (CallAPI request).

(** The request [sdkGetArchitectDatatable] makes. *)
Definition getRequest (datatableId expand : string) (api : Configuration) : Request :=
  let path := BasePath api +:+ "/api/v2/flows/datatables/" +:+ datatableId in
  let headerParams : gmap string string :=
    if String.eqb (AccessToken api) "" then ∅
    else {["Authorization" := "Bearer " +:+ AccessToken api]} in
  let headerParams := addDefaultHeaders (DefaultHeader api) headerParams in
  let queryParams : gmap string string := {["expand" := ParameterToString expand]} in
  let headerParams := <["Content-Type" := "application/json"]> headerParams in
  let headerParams := <["Accept" := "application/json"]> headerParams in
  mkRequest path "GET" None headerParams (Some queryParams).

Definition sdkGetArchitectDatatable (datatableId expand : string) (api : Configuration)
    (CallAPI : Request -> option CallResponse * option string)
    : Outcome (option (Datatable float64) * option CallResponse * option string) :=
  finishCall (CallAPI (getRequest datatableId expand api)).

(** What the handlers receive from these two functions. *)
Definition resultOf (r : option (Datatable float64) * option CallResponse * option string)
    : DatatableResult float64 :=
  mkDatatableResult r.1.1 (apiResponseOf <$> r.1.2) r.2.

(** The function [readArchitectDatatable] retries, with the call it
    makes. *)
Definition readAttemptCall (interfaceToString : GoValue float64 -> string)
    (mapRange : gmap string (Datatableproperty float64)
                -> list (string * Datatableproperty float64))
    (api : Configuration) (CallAPI : Request -> option CallResponse * option string)
    (d : ResourceData) : Outcome (ResourceData * option RetryError) :=
  r ← sdkGetArchitectDatatable (d_Id d) "schema" api CallAPI;
  readAttempt interfaceToString mapRange d (resultOf r).

End Sdk.

Arguments mkRequest {float64} _ _ _ _ _.
Arguments req_path {float64} r.
Arguments req_method {float64} r.
Arguments req_body {float64} r.
Arguments req_headerParams {float64} r.
Arguments req_queryParams {float64} r.
Arguments finishCall {float64} Unmarshal answer.
Arguments putOrPostRequest {float64} headerRange method body api.
Arguments sdkPutOrPostArchitectDatatable {float64} Unmarshal headerRange method body api CallAPI.
Arguments getRequest {float64} ParameterToString headerRange datatableId expand api.
Arguments sdkGetArchitectDatatable {float64} Unmarshal ParameterToString headerRange
  datatableId expand api CallAPI.
Arguments resultOf {float64} r.
Arguments readAttemptCall {float64} Unmarshal ParameterToString headerRange
  interfaceToString mapRange api CallAPI d.

(** * Properties *)

(** ** The stable sort *)

Section StableSort.

Context {A : Type} (key : A -> Z).

Definition lessKey (a b : A) : bool := key a <? key b.
Definition leKey (a b : A) : Prop := key a <= key b.

#[local] Instance leKey_trans : Transitive leKey.
Proof. unfold leKey. intros x y z ? ?. lia. Qed.

Lemma insertStable_Permutation x l : insertStable lessKey x l ≡ₚ x :: l.
Proof.
  induction l as [|y l IH]; simpl; [done|].
  destruct (lessKey y x); [|done].
  rewrite IH. apply Permutation_swap.
Qed.

Lemma SliceStable_Permutation l : SliceStable lessKey l ≡ₚ l.
Proof.
  induction l as [|x l IH]; simpl; [done|].
  unfold SliceStable in *. simpl.
  rewrite insertStable_Permutation. by f_equiv.
Qed.

Lemma insertStable_HdRel a x l :
  leKey a x -> HdRel leKey a l -> HdRel leKey a (insertStable lessKey x l).
Proof.
  intros Hax Hal. destruct l as [|y l]; simpl; [by constructor|].
  destruct (lessKey y x); constructor; [by inversion Hal | done].
Qed.

Lemma insertStable_Sorted x l :
  Sorted leKey l -> Sorted leKey (insertStable lessKey x l).
Proof.
  induction 1 as [|y l Hs IH Hhd]; simpl; [by repeat constructor|].
  destruct (lessKey y x) eqn:Hlt.
  - constructor; [done|].
    apply insertStable_HdRel; [|done].
    unfold lessKey in Hlt. unfold leKey. lia.
  - constructor; [by constructor|]. constructor.
    unfold lessKey in Hlt. unfold leKey. lia.
Qed.

Lemma SliceStable_Sorted l : Sorted leKey (SliceStable lessKey l).
Proof.
  induction l as [|x l IH]; [constructor|].
  apply insertStable_Sorted, IH.
Qed.

Lemma insertStable_filter k x l :
  filter (fun y => key y = k) (insertStable lessKey x l)
  = filter (fun y => key y = k) (x :: l).
Proof.
  induction l as [|y l IH]; simpl; [done|].
  destruct (lessKey y x) eqn:Hlt; [|done].
  unfold lessKey in Hlt.
  rewrite !filter_cons. rewrite filter_cons in IH.
  destruct (decide (key y = k)) as [Hy|Hy], (decide (key x = k)) as [Hx|Hx];
    try (rewrite IH; done); try lia.
Qed.

(** Elements with the same key keep their order. *)
Lemma SliceStable_stable k l :
  filter (fun y => key y = k) (SliceStable lessKey l) = filter (fun y => key y = k) l.
Proof.
  induction l as [|x l IH]; [done|].
  change (SliceStable lessKey (x :: l)) with (insertStable lessKey x (SliceStable lessKey l)).
  rewrite insertStable_filter.
  rewrite !filter_cons, IH. done.
Qed.

(** A sorted list is determined by its sublists of equal keys: whatever
    stable sorting algorithm [sort.SliceStable] runs, its result is the
    one computed here. *)
Lemma stable_sorted_unique l1 l2 :
  Sorted leKey l1 -> Sorted leKey l2 ->
  (forall k, filter (fun y => key y = k) l1 = filter (fun y => key y = k) l2) ->
  l1 = l2.
Proof.
  intros H1 H2. apply Sorted_StronglySorted in H1, H2; [|apply _..].
  revert l2 H2. induction H1 as [|x l1 Hs1 IH Hx]; intros l2 H2 Hf.
  - destruct l2 as [|y l2]; [done|].
    specialize (Hf (key y)). rewrite filter_nil, filter_cons in Hf.
    by destruct (decide (key y = key y)).
  - destruct H2 as [|y l2 Hs2 Hy].
    { specialize (Hf (key x)). rewrite filter_nil, filter_cons in Hf.
      by destruct (decide (key x = key x)). }
    assert (key x = key y) as Hk.
    { destruct (decide (key x = key y)) as [|Hne]; [done|exfalso].
      pose proof (Hf (key x)) as Fx. pose proof (Hf (key y)) as Fy.
      rewrite !filter_cons in Fx, Fy.
      destruct (decide (key x = key x)) as [_|]; [|done].
      destruct (decide (key y = key y)) as [_|]; [|done].
      destruct (decide (key y = key x)) as [|_]; [congruence|].
      destruct (decide (key x = key y)) as [|_]; [congruence|].
      assert (x ∈ l2) as Hxl2.
      { eapply (list_elem_of_filter (fun y => key y = key x)).
        rewrite <- Fx. left. }
      assert (y ∈ l1) as Hyl1.
      { eapply (list_elem_of_filter (fun z => key z = key y)).
        rewrite Fy. left. }
      rewrite Forall_forall in Hx, Hy.
      pose proof (Hx _ Hyl1). pose proof (Hy _ Hxl2). unfold leKey in *. lia. }
    pose proof (Hf (key x)) as Fx. rewrite !filter_cons in Fx.
    destruct (decide (key x = key x)) as [_|]; [|done].
    destruct (decide (key y = key x)) as [_|]; [|congruence].
    injection Fx as -> Fx. f_equal. apply IH; [done|].
    intros k. specialize (Hf k). rewrite !filter_cons in Hf.
    destruct (decide (key y = k)); [by injection Hf|done].
Qed.

Lemma SliceStable_unique l l' :
  Sorted leKey l' ->
  (forall k, filter (fun y => key y = k) l' = filter (fun y => key y = k) l) ->
  l' = SliceStable lessKey l.
Proof.
  intros Hs Hf. apply stable_sorted_unique; [done|apply SliceStable_Sorted|].
  intros k. by rewrite Hf, SliceStable_stable.
Qed.

(** With pairwise distinct keys the result does not depend on the order of
    the input. *)
Lemma SliceStable_perm_distinct l1 l2 :
  l1 ≡ₚ l2 -> NoDup (key <$> l1) ->
  SliceStable lessKey l1 = SliceStable lessKey l2.
Proof.
  intros Hp Hnd.
  apply (Sorted_unique_strong leKey); try apply SliceStable_Sorted.
  - intros x1 x2 Hx1 Hx2 H12 H21.
    rewrite SliceStable_Permutation in Hx1.
    rewrite SliceStable_Permutation, <- Hp in Hx2.
    assert (key x1 = key x2) as Hk by (unfold leKey in *; lia).
    clear H12 H21 Hp. induction l1 as [|a l1 IH]; [by apply elem_of_nil in Hx1|].
    rewrite fmap_cons in Hnd. apply NoDup_cons in Hnd as [Ha Hnd].
    apply elem_of_cons in Hx1 as [->|Hx1], Hx2 as [->|Hx2]; auto.
    + exfalso. apply Ha. rewrite Hk. by apply list_elem_of_fmap_2.
    + exfalso. apply Ha. rewrite <- Hk. by apply list_elem_of_fmap_2.
  - by rewrite !SliceStable_Permutation.
Qed.

End StableSort.

(** ** The retry loop *)

Section Retry.

Context {R : Type} (timeout : Duration)
  (method : ResourceData -> R -> Outcome (ResourceData * option RetryError)).

(** An attempt that ends the loop: nil or a non-retryable error. *)
Lemma retryLoop_success d d' last n t r rest :
  t < timeout -> method d r = Returns (d', None) ->
  retryLoop timeout method d last n ((t, r) :: rest) = Returns (mkRetryRun d' [] (S n)).
Proof.
  intros Ht Hm. simpl. destruct (Z.leb_spec timeout t); [lia|]. by rewrite Hm.
Qed.

Lemma retryLoop_nonretryable d d' e last n t r rest :
  t < timeout -> method d r = Returns (d', Some (NonRetryableError e)) ->
  retryLoop timeout method d last n ((t, r) :: rest)
  = Returns (mkRetryRun d' [DiagError e] (S n)).
Proof.
  intros Ht Hm. simpl. destruct (Z.leb_spec timeout t); [lia|]. by rewrite Hm.
Qed.

Lemma retryLoop_retryable d d' e last n t r rest :
  t < timeout -> method d r = Returns (d', Some (RetryableError e)) ->
  retryLoop timeout method d last n ((t, r) :: rest)
  = retryLoop timeout method d' (Some e) (S n) rest.
Proof.
  intros Ht Hm. simpl. destruct (Z.leb_spec timeout t); [lia|]. by rewrite Hm.
Qed.

Lemma retryLoop_panics d last n t r rest :
  t < timeout -> method d r = Panics ->
  retryLoop timeout method d last n ((t, r) :: rest) = Panics.
Proof.
  intros Ht Hm. simpl. destruct (Z.leb_spec timeout t); [lia|]. by rewrite Hm.
Qed.

(** No attempt is made once the deadline has passed. *)
Lemma retryLoop_deadline d last n t r rest :
  timeout <= t ->
  retryLoop timeout method d last n ((t, r) :: rest) = Returns (timedOut timeout d last n).
Proof. intros Ht. simpl. by destruct (Z.leb_spec timeout t); [|lia]. Qed.

(** The last error of a run of retryable attempts. *)
Definition lastError (errOf : R -> error) (last : option error) (pre : list (Duration * R))
    : option error :=
  match reverse pre with
  | c :: _ => Some (errOf c.2)
  | [] => last
  end.

Lemma lastError_cons errOf last c pre :
  lastError errOf (Some (errOf c.2)) pre = lastError errOf last (c :: pre).
Proof.
  unfold lastError. rewrite reverse_cons.
  destruct (reverse pre) as [|c' l]; simpl; done.
Qed.

(** A run of attempts before the deadline that all ask for a retry and
    leave the data alone is skipped; each one counts as a call. *)
Lemma retryLoop_retry_prefix (errOf : R -> error) d pre :
  Forall (fun c => c.1 < timeout /\
                   method d c.2 = Returns (d, Some (RetryableError (errOf c.2)))) pre ->
  forall last n rest,
  retryLoop timeout method d last n (pre ++ rest)
  = retryLoop timeout method d (lastError errOf last pre) (n + length pre) rest.
Proof.
  induction 1 as [|[t r] pre [Ht Hm] _ IH]; intros last n rest.
  - simpl. f_equal. lia.
  - simpl in Ht, Hm. rewrite <- app_comm_cons.
    rewrite (retryLoop_retryable _ _ _ _ _ _ _ _ Ht Hm), IH.
    rewrite (lastError_cons errOf last (t, r)). f_equal. simpl. lia.
Qed.

(** The call counter only grows. *)
Lemma retryLoop_attempts_ge calls : forall d last n run,
  retryLoop timeout method d last n calls = Returns run -> (n <= run_attempts run)%nat.
Proof.
  induction calls as [|[t r] calls IH]; intros d last n run; simpl.
  - intros [= <-]. simpl. lia.
  - destruct (timeout <=? t); [intros [= <-]; simpl; lia|].
    destruct (method d r) as [[d' [[e|e]|]]|]; try done.
    + intros H%IH. lia.
    + intros [= <-]. simpl. lia.
    + intros [= <-]. simpl. lia.
Qed.

(** A run that ends without diagnostics saw, before the deadline, an
    attempt that returned nil, after attempts that all asked for a retry. *)
Lemma retryLoop_no_diags calls : forall d last n run,
  retryLoop timeout method d last n calls = Returns run ->
  run_diags run = [] ->
  exists pre t r rest d0 d1,
    calls = pre ++ (t, r) :: rest /\ t < timeout /\
    method d0 r = Returns (d1, None) /\
    Forall (fun c => c.1 < timeout /\
                     exists da db e, method da c.2 = Returns (db, Some (RetryableError e))) pre.
Proof.
  induction calls as [|[t r] calls IH]; intros d last n run; simpl.
  - intros [= <-]. simpl. by destruct last.
  - destruct (Z.leb_spec timeout t) as [|Ht]; [intros [= <-]; simpl; by destruct last|].
    destruct (method d r) as [[d' [[e|e]|]]|] eqn:Hm; try done.
    + intros Hrun Hd. destruct (IH _ _ _ _ Hrun Hd) as (pre & t' & r' & rest & d0 & d1 & -> & ? & ? & Hpre).
      exists ((t, r) :: pre), t', r', rest, d0, d1. repeat split; try done.
      constructor; [|done]. split; [done|]. by exists d, d', e.
    + intros [= <-]. simpl. done.
    + intros _ _. exists [], t, r, calls, d, d'. repeat split; try done.
Qed.

End Retry.

Lemma retryLoop_next_attempt {R : Type} (timeout : Duration)
    (method : ResourceData -> R -> Outcome (ResourceData * option RetryError))
    d last n t r rest run :
  t < timeout ->
  retryLoop timeout method d last n ((t, r) :: rest) = Returns run ->
  (S n <= run_attempts run)%nat.
Proof.
  intros Ht. simpl. destruct (Z.leb_spec timeout t); [lia|].
  destruct (method d r) as [[d' [[e|e]|]]|]; try done.
  - apply retryLoop_attempts_ge.
  - intros [= <-]. simpl. lia.
  - intros [= <-]. simpl. lia.
Qed.

Lemma lastError_const {R : Type} (e : error) (last : option error) (pre : list (Duration * R)) :
  lastError (fun _ => e) last pre = match pre with [] => last | _ => Some e end.
Proof.
  unfold lastError. destruct pre as [|c pre]; [done|].
  rewrite reverse_cons. by destruct (reverse pre).
Qed.

(** The deadline has passed for whatever the loop would try next. *)
Definition pastDeadline {R : Type} (timeout : Duration) (rest : list (Duration * R)) : Prop :=
  match rest with
  | [] => True
  | (t, _) :: _ => timeout <= t
  end.

Lemma retryLoop_pastDeadline {R : Type} (timeout : Duration)
    (method : ResourceData -> R -> Outcome (ResourceData * option RetryError))
    d last n rest :
  pastDeadline timeout rest ->
  retryLoop timeout method d last n rest = Returns (timedOut timeout d last n).
Proof.
  destruct rest as [|[t r] rest]; [done|]. apply retryLoop_deadline.
Qed.

(** ** The station data source *)

(** The API answered without error and listed no station. *)
Definition noStations (r : GetStationsResult) : Prop :=
  gs_getErr r = None /\
  (Entities (gs_stations r) = None \/ Entities (gs_stations r) = Some []).

Lemma stationAttempt_noStations d r :
  noStations r ->
  stationAttempt d r = Returns (d, Some (RetryableError (errorString "No stations found"))).
Proof. intros [He [Hn|Hn]]; unfold stationAttempt; by rewrite He, Hn. Qed.

(** C5, amended. [dataSourceStationRead] is a retry loop with a deadline
    of 15 seconds. After any number of attempts, made before the deadline,
    to which the API listed no station (nil or empty [Entities]): an answer
    with at least one station, whose first entity has an id, ends the
    handler with no diagnostics and that id set, and nothing more is asked;
    an error of [GetStations] ends it at once with that error and no
    retry; and once the deadline has passed no attempt is made and the
    handler fails. *)
Theorem dataSourceStationRead_retries (d : ResourceData)
    (pre : list (Duration * GetStationsResult)) :
  Forall (fun c => c.1 < 15 * Second /\ noStations c.2) pre ->
  (forall t r rest first others id,
      t < 15 * Second -> gs_getErr r = None ->
      Entities (gs_stations r) = Some (first :: others) ->
      station_Id first = Some id ->
      dataSourceStationRead d (pre ++ (t, r) :: rest)
      = Returns (mkRetryRun (SetId id d) [] (S (length pre))))
  /\ (forall t r rest getErr,
      t < 15 * Second -> gs_getErr r = Some getErr ->
      dataSourceStationRead d (pre ++ (t, r) :: rest)
      = Returns (mkRetryRun d
          [DiagError (errorString ("Error requesting station " +:+ getErr))]
          (S (length pre))))
  /\ (forall t r rest,
      t < 15 * Second -> noStations r ->
      dataSourceStationRead d (pre ++ (t, r) :: rest)
      = retryLoop (15 * Second) stationAttempt d
          (Some (errorString "No stations found")) (S (length pre)) rest)
  /\ (forall rest,
      pastDeadline (15 * Second) rest ->
      dataSourceStationRead d (pre ++ rest)
      = Returns (mkRetryRun d
          [DiagError (match pre with
                      | [] => TimeoutError (15 * Second)
                      | _ => errorString "No stations found"
                      end)]
          (length pre))).
Proof.
  intros Hpre.
  assert (forall rest,
    dataSourceStationRead d (pre ++ rest)
    = retryLoop (15 * Second) stationAttempt d
        (match pre with [] => None | _ => Some (errorString "No stations found") end)
        (length pre) rest) as Hskip.
  { intros rest. unfold dataSourceStationRead, withRetries.
    rewrite (retryLoop_retry_prefix _ _ (fun _ => errorString "No stations found")).
    - by rewrite lastError_const.
    - eapply Forall_impl; [exact Hpre|]. intros c [? ?]. split; [done|].
      by apply stationAttempt_noStations. }
  repeat split.
  - intros t r rest first others id Ht He Hent Hid. rewrite Hskip.
    apply retryLoop_success; [done|].
    unfold stationAttempt. rewrite He, Hent. simpl. by rewrite Hid.
  - intros t r rest getErr Ht He. rewrite Hskip.
    apply retryLoop_nonretryable; [done|].
    unfold stationAttempt. by rewrite He.
  - intros t r rest Ht Hno. rewrite Hskip.
    apply retryLoop_retryable; [done|]. by apply stationAttempt_noStations.
  - intros rest Hpast. rewrite Hskip, retryLoop_pastDeadline by done.
    unfold timedOut. by destruct pre.
Qed.

(** ** Deleting a datatable *)

Lemma deleteAttempt_exists name d r :
  poll_err r = None ->
  deleteAttempt name d r
  = Returns (d, Some (RetryableError
      (errorString ("Datatable row " +:+ name +:+ " still exists")))).
Proof. intros He. unfold deleteAttempt. by rewrite He. Qed.

Lemma deleteAttempt_nil name d d' r :
  deleteAttempt name d r = Returns (d', None) ->
  is_Some (poll_err r) /\ isStatus404 (poll_resp r) = true.
Proof.
  unfold deleteAttempt. destruct (poll_err r) as [e|]; [|done].
  destruct (isStatus404 (poll_resp r)); [|done]. eauto.
Qed.

Lemma deleteAttempt_retry name d d' e r :
  deleteAttempt name d r = Returns (d', Some (RetryableError e)) -> poll_err r = None.
Proof.
  unfold deleteAttempt. destruct (poll_err r) as [e'|]; [|done].
  by destruct (isStatus404 (poll_resp r)).
Qed.

(** C6. After a DELETE without error, [deleteArchitectDatatable] polls the
    GET with a deadline of 30 seconds. While the GET succeeds (the
    datatable still exists) it keeps polling; the first GET that fails
    ends the handler, with success when the status is 404 and with a
    non-retryable error otherwise. It never reports success while the
    datatable still exists: a run without diagnostics has seen, before the
    deadline, a GET that failed with 404, and a deadline that passes while
    the GET still succeeds is an error. *)
Theorem deleteArchitectDatatable_polls (d : ResourceData) (del : DeleteResult) :
  del_err del = None ->
  (forall pre t r rest e,
      Forall (fun c => c.1 < 30 * Second /\ poll_err c.2 = None) pre ->
      t < 30 * Second -> poll_err r = Some e ->
      deleteArchitectDatatable d del (pre ++ (t, r) :: rest)
      = if isStatus404 (poll_resp r)
        then Returns (mkRetryRun d [] (S (length pre)))
        else Returns (mkRetryRun d
               [DiagError (errorString
                  ("Error deleting datatable row " +:+ d_name d +:+ ": " +:+ e))]
               (S (length pre))))
  /\ (forall calls run,
      deleteArchitectDatatable d del calls = Returns run ->
      run_diags run = [] ->
      exists pre t r rest,
        calls = pre ++ (t, r) :: rest /\ t < 30 * Second /\
        is_Some (poll_err r) /\ isStatus404 (poll_resp r) = true /\
        Forall (fun c => c.1 < 30 * Second /\ poll_err c.2 = None) pre)
  /\ (forall pre rest,
      Forall (fun c => c.1 < 30 * Second /\ poll_err c.2 = None) pre ->
      pastDeadline (30 * Second) rest ->
      deleteArchitectDatatable d del (pre ++ rest)
      = Returns (mkRetryRun d
          [DiagError (match pre with
                      | [] => TimeoutError (30 * Second)
                      | _ => errorString ("Datatable row " +:+ d_name d +:+ " still exists")
                      end)]
          (length pre))).
Proof.
  intros Hdel.
  assert (forall pre rest,
    Forall (fun c => c.1 < 30 * Second /\ poll_err c.2 = None) pre ->
    deleteArchitectDatatable d del (pre ++ rest)
    = retryLoop (30 * Second) (deleteAttempt (d_name d)) d
        (match pre with
         | [] => None
         | _ => Some (errorString ("Datatable row " +:+ d_name d +:+ " still exists"))
         end)
        (length pre) rest) as Hskip.
  { intros pre rest Hpre. unfold deleteArchitectDatatable, withRetries. rewrite Hdel.
    rewrite (retryLoop_retry_prefix _ _
               (fun _ => errorString ("Datatable row " +:+ d_name d +:+ " still exists"))).
    - by rewrite lastError_const.
    - eapply Forall_impl; [exact Hpre|]. intros c [? ?]. split; [done|].
      by apply deleteAttempt_exists. }
  repeat split.
  - intros pre t r rest e Hpre Ht He. rewrite Hskip by done.
    destruct (isStatus404 (poll_resp r)) eqn:H404.
    + apply retryLoop_success; [done|]. unfold deleteAttempt. by rewrite He, H404.
    + apply retryLoop_nonretryable; [done|]. unfold deleteAttempt. by rewrite He, H404.
  - intros calls run Hrun Hd. unfold deleteArchitectDatatable, withRetries in Hrun.
    rewrite Hdel in Hrun.
    destruct (retryLoop_no_diags _ _ _ _ _ _ _ Hrun Hd)
      as (pre & t & r & rest & d0 & d1 & -> & Ht & Hm & Hpre).
    apply deleteAttempt_nil in Hm as [? ?].
    exists pre, t, r, rest. repeat split; try done.
    eapply Forall_impl; [exact Hpre|]. intros c [? (da & db & e & Hc)]. split; [done|].
    by eapply deleteAttempt_retry.
  - intros pre rest Hpre Hpast. rewrite Hskip, retryLoop_pastDeadline by done.
    unfold timedOut. by destruct pre.
Qed.

(** ** Reading a datatable *)

Section Reading.

Context {float64 : Type} (interfaceToString : GoValue float64 -> string)
  (mapRange : gmap string (Datatableproperty float64)
              -> list (string * Datatableproperty float64)).

(** The text of the error [readArchitectDatatable] makes of a failed GET. *)
Definition readError (d : ResourceData) (getErr : string) : error :=
  errorString ("Failed to read datatable " +:+ d_Id d +:+ ": " +:+ getErr).

(** The GET failed with status 404. *)
Definition notFound (r : DatatableResult float64) : Prop :=
  is_Some (res_err r) /\ isStatus404 (res_resp r) = true.

(** The resource data after a read of [datatable]. *)
Definition readData (d : ResourceData) (datatable : Datatable float64)
    (name divisionId : string) : ResourceData :=
  Set_properties
    (schema ← dt_Schema datatable;
     properties ← js_Properties schema;
     Some (flattenDatatableProperties interfaceToString mapRange properties))
    (Set_description (dt_Description datatable)
       (Set_division_id divisionId (Set_name name d))).

(** One of the pointers a successful read dereferences is nil: the
    datatable itself, its [Name], its [Division] or the division's [Id]. *)
Definition readDerefsNil (r : DatatableResult float64) : Prop :=
  match res_datatable r with
  | None => True
  | Some datatable =>
      dt_Name datatable = None \/
      match dt_Division datatable with
      | None => True
      | Some division => div_Id division = None
      end
  end.

Lemma readAttempt_failed d r getErr :
  res_err r = Some getErr ->
  readAttempt interfaceToString mapRange d r
  = Returns (d, Some (if isStatus404 (res_resp r)
                      then RetryableError (readError d getErr)
                      else NonRetryableError (readError d getErr))).
Proof.
  intros He. unfold readAttempt. rewrite He.
  by destruct (isStatus404 (res_resp r)).
Qed.

Lemma readAttempt_read d r datatable name division divisionId :
  res_err r = None -> res_datatable r = Some datatable ->
  dt_Name datatable = Some name -> dt_Division datatable = Some division ->
  div_Id division = Some divisionId ->
  readAttempt interfaceToString mapRange d r
  = Returns (readData d datatable name divisionId, None).
Proof.
  intros He Hd Hn Hv Hi. unfold readAttempt, readData.
  rewrite He, Hd. simpl. rewrite Hn. simpl. rewrite Hv. simpl. rewrite Hi. simpl.
  destruct (dt_Schema datatable) as [schema|]; [|done]. simpl.
  by destruct (js_Properties schema).
Qed.

Lemma readAttempt_panics d r :
  res_err r = None ->
  readAttempt interfaceToString mapRange d r = Panics <-> readDerefsNil r.
Proof.
  intros He. unfold readDerefsNil.
  destruct (res_datatable r) as [datatable|] eqn:Hd.
  - destruct (dt_Name datatable) as [name|] eqn:Hn.
    + destruct (dt_Division datatable) as [division|] eqn:Hv.
      * destruct (div_Id division) as [divisionId|] eqn:Hi.
        -- rewrite (readAttempt_read _ _ _ _ _ _ He Hd Hn Hv Hi).
           split; [done|]. by intros [|].
        -- unfold readAttempt. rewrite He, Hd. simpl. rewrite Hn. simpl.
           rewrite Hv. simpl. rewrite Hi. simpl. split; auto.
      * unfold readAttempt. rewrite He, Hd. simpl. rewrite Hn. simpl.
        rewrite Hv. simpl. split; auto.
    + unfold readAttempt. rewrite He, Hd. simpl. rewrite Hn. simpl. split; auto.
  - unfold readAttempt. rewrite He, Hd. simpl. split; auto.
Qed.

(** A read attempt that does not panic on a successful GET returns nil. *)
Lemma readAttempt_succeeded d r :
  res_err r = None ->
  readAttempt interfaceToString mapRange d r = Panics \/
  exists d', readAttempt interfaceToString mapRange d r = Returns (d', None).
Proof.
  intros He. unfold readAttempt. rewrite He.
  destruct (res_datatable r) as [datatable|]; simpl; [|by left].
  destruct (dt_Name datatable) as [name|]; simpl; [|by left].
  destruct (dt_Division datatable) as [division|]; simpl; [|by left].
  destruct (div_Id division) as [divisionId|]; simpl; [|by left].
  right. eauto.
Qed.

(** C3, amended. [readArchitectDatatable] polls the GET with a deadline of
    30 seconds. After any number of GETs, made before the deadline, that
    failed with status 404: a GET that fails with 404 is retried (the loop
    goes on to the next attempt, which is made when the deadline allows
    it); a GET that fails with any other status ends the handler with a
    non-retryable error and no further GET; and a GET that succeeds with a
    datatable whose [Name], [Division] and division [Id] are not nil
    returns no error: the closure sets the fields it read and returns nil,
    and the handler ends without diagnostics and without a further GET. *)
Theorem readArchitectDatatable_retries_on_404 (d : ResourceData)
    (pre : list (Duration * DatatableResult float64)) :
  Forall (fun c => c.1 < 30 * Second /\ notFound c.2) pre ->
  forall t r rest, t < 30 * Second ->
  match res_err r with
  | Some getErr =>
      if isStatus404 (res_resp r) then
        readArchitectDatatable interfaceToString mapRange d (pre ++ (t, r) :: rest)
        = retryLoop (30 * Second) (readAttempt interfaceToString mapRange) d
            (Some (readError d getErr)) (S (length pre)) rest
        /\ (forall t' r' rest' run,
              rest = (t', r') :: rest' -> t' < 30 * Second ->
              readArchitectDatatable interfaceToString mapRange d (pre ++ (t, r) :: rest)
              = Returns run ->
              (S (S (length pre)) <= run_attempts run)%nat)
      else
        readArchitectDatatable interfaceToString mapRange d (pre ++ (t, r) :: rest)
        = Returns (mkRetryRun d [DiagError (readError d getErr)] (S (length pre)))
  | None =>
      forall datatable name division divisionId,
        res_datatable r = Some datatable -> dt_Name datatable = Some name ->
        dt_Division datatable = Some division ->
        div_Id division = Some divisionId ->
        readAttempt interfaceToString mapRange d r
        = Returns (readData d datatable name divisionId, None)
        /\ exists d',
           readArchitectDatatable interfaceToString mapRange d (pre ++ (t, r) :: rest)
           = Returns (mkRetryRun d' [] (S (length pre)))
  end.
Proof.
  intros Hpre t r rest Ht.
  assert (forall rest0,
    readArchitectDatatable interfaceToString mapRange d (pre ++ rest0)
    = retryLoop (30 * Second) (readAttempt interfaceToString mapRange) d
        (lastError (fun r0 => readError d (default "" (res_err r0))) None pre)
        (length pre) rest0) as Hskip.
  { intros rest0. unfold readArchitectDatatable, withRetriesForRead, withRetries.
    rewrite (retryLoop_retry_prefix _ _ (fun r0 => readError d (default "" (res_err r0)))); [done|].
    eapply Forall_impl; [exact Hpre|]. intros c [? [[e He] H404]]. split; [done|].
    rewrite (readAttempt_failed _ _ _ He), H404, He. done. }
  rewrite !Hskip.
  destruct (res_err r) as [getErr|] eqn:He.
  - pose proof (readAttempt_failed d r getErr He) as Hm.
    destruct (isStatus404 (res_resp r)).
    + rewrite (retryLoop_retryable _ _ _ _ _ _ _ _ _ _ Ht Hm). split; [done|].
      intros t' r' rest' run -> Ht'. apply retryLoop_next_attempt. done.
    + by rewrite (retryLoop_nonretryable _ _ _ _ _ _ _ _ _ _ Ht Hm).
  - intros datatable name division divisionId Hd Hn Hv Hi.
    pose proof (readAttempt_read d r _ _ _ _ He Hd Hn Hv Hi) as Hm.
    split; [done|]. eexists. by apply retryLoop_success.
Qed.

End Reading.

(** C9. On a successful GET, [readArchitectDatatable] panics exactly when
    the datatable, its [Name], its [Division] or the division's [Id] is
    nil; a nil [Description], [Schema] or [Properties] is handled. On a
    successful [GetStations], [dataSourceStationRead] panics exactly when
    the first entity listed has a nil [Id]. Neither panics on a failed
    call. Both panics are reachable: a datatable with a name and no
    division, and a station without an id. *)
Theorem nil_dereferences {float64 : Type} (interfaceToString : GoValue float64 -> string)
    (mapRange : gmap string (Datatableproperty float64)
                -> list (string * Datatableproperty float64)) :
  (forall d r,
      readAttempt interfaceToString mapRange d r = Panics
      <-> res_err r = None /\ readDerefsNil r)
  /\ (forall d r datatable name division divisionId,
      res_err r = None -> res_datatable r = Some datatable ->
      dt_Name datatable = Some name -> dt_Division datatable = Some division ->
      div_Id division = Some divisionId ->
      readAttempt interfaceToString mapRange d r
      = Returns (readData interfaceToString mapRange d datatable name divisionId, None))
  /\ (forall d r,
      stationAttempt d r = Panics
      <-> gs_getErr r = None /\
          exists first others,
            Entities (gs_stations r) = Some (first :: others) /\ station_Id first = None)
  /\ (forall d name,
      readArchitectDatatable interfaceToString mapRange d
        [(0, mkDatatableResult
               (Some (mkDatatable None (Some name) None None None)) None None)]
      = Panics)
  /\ (forall d,
      dataSourceStationRead d
        [(0, mkGetStationsResult (mkStationentitylisting (Some [mkStation None])) None)]
      = Panics).
Proof.
  split; [|split; [|split; [|split]]].
  - intros d r. destruct (res_err r) as [e|] eqn:He.
    + rewrite (readAttempt_failed _ _ _ _ _ He). split; [done|]. by intros [? _].
    + rewrite (readAttempt_panics _ _ _ _ He). split; [done|]. by intros [_ ?].
  - intros. eapply readAttempt_read; eassumption.
  - intros d r. unfold stationAttempt. destruct (gs_getErr r) as [e|].
    { split; [done|]. by intros [? _]. }
    destruct (Entities (gs_stations r)) as [[|first others]|].
    + split; [done|]. by intros [_ (? & ? & ? & _)].
    + simpl. destruct (station_Id first) eqn:Hid; simpl.
      * split; [done|]. intros [_ (f & o & [= <- <-] & Hf)]. congruence.
      * split; [|done]. intros _. split; [done|]. by exists first, others.
    + split; [done|]. by intros [_ (? & ? & ? & _)].
  - intros d name. reflexivity.
  - intros d. reflexivity.
Qed.

(** ** Building the payload *)

Section Building.

Context {float64 : Type} (ParseFloat : string -> float64 + error).

(** The element has the two required fields, so the type assertions on
    them hold. *)
Definition hasNameAndType (p : propMap) : Prop :=
  is_Some (p !! "name") /\ is_Some (p !! "type").

(** The element has a non-empty default that its declared type does not
    parse. *)
Definition defaultFails (p : propMap) : Prop :=
  exists ty def e,
    p !! "type" = Some ty /\ p !! "default" = Some def /\ def <> "" /\
    convertDefault ParseFloat ty def = Some (inr e).

(** The element's default, when it has one that is not empty, converts. *)
Definition defaultConverts (p : propMap) : Prop :=
  forall ty def,
    p !! "type" = Some ty -> p !! "default" = Some def -> def <> "" ->
    exists v, convertDefault ParseFloat ty def = Some (inl v).

(** The SDK property built for the element at index [i]. *)
Definition sdkProperty (name ty : string) (title : option string)
    (defaultVal : option (GoValue float64)) (i : nat) : string * Datatableproperty float64 :=
  (name, mkDatatableproperty (Some ("/properties/" +:+ name)) (Some ty) title
           defaultVal (Some (Z.of_nat i))).

Lemma eqb_empty_false (def : string) : def <> "" -> String.eqb def "" = false.
Proof. intros H. by apply String.eqb_neq. Qed.

Lemma buildSdkDatatableProperty_default i p name ty def :
  p !! "name" = Some name -> p !! "type" = Some ty ->
  p !! "default" = Some def -> def <> "" ->
  buildSdkDatatableProperty ParseFloat i p
  = Returns (match convertDefault ParseFloat ty def with
             | None => inr (diag_Errorf ("Invalid type " +:+ ty +:+
                                         " for Datatable property " +:+ name))
             | Some (inr err) => inr [DiagError err]
             | Some (inl v) => inl (sdkProperty name ty (p !! "title") (Some v) i)
             end).
Proof.
  intros Hn Ht Hd Hne. unfold buildSdkDatatableProperty.
  rewrite Hn, Ht, Hd. simpl. rewrite (eqb_empty_false _ Hne).
  by destruct (convertDefault ParseFloat ty def) as [[v|e]|].
Qed.

Lemma buildSdkDatatableProperty_omitted i p name ty :
  p !! "name" = Some name -> p !! "type" = Some ty ->
  p !! "default" = None \/ p !! "default" = Some "" ->
  buildSdkDatatableProperty ParseFloat i p
  = Returns (inl (sdkProperty name ty (p !! "title") None i)).
Proof.
  intros Hn Ht [Hd|Hd]; unfold buildSdkDatatableProperty;
    rewrite Hn, Ht, Hd; reflexivity.
Qed.

(** The diagnostics the loop body returns with are never nil. *)
Lemma buildSdkDatatableProperty_diags i p diags :
  buildSdkDatatableProperty ParseFloat i p = Returns (inr diags) -> diags <> [].
Proof.
  unfold buildSdkDatatableProperty.
  destruct (p !! "name") as [name|]; [simpl|done].
  destruct (p !! "type") as [ty|]; [simpl|done].
  destruct (p !! "default") as [def|]; [|done].
  destruct (String.eqb def ""); [done|].
  destruct (convertDefault ParseFloat ty def) as [[v|e]|]; [done|..];
    by intros [= <-].
Qed.

Lemma buildSdkDatatableProperty_returns i p :
  hasNameAndType p -> exists r, buildSdkDatatableProperty ParseFloat i p = Returns r.
Proof.
  intros [[name Hn] [ty Ht]]. unfold buildSdkDatatableProperty.
  rewrite Hn, Ht. simpl.
  destruct (p !! "default") as [def|]; [|eauto].
  destruct (String.eqb def ""); [eauto|].
  destruct (convertDefault ParseFloat ty def) as [[v|e]|]; eauto.
Qed.

Lemma buildSdkDatatablePropertiesFrom_fails props : forall i sdkProps,
  Forall hasNameAndType props -> Exists defaultFails props ->
  exists diags, diags <> [] /\
    buildSdkDatatablePropertiesFrom ParseFloat i props sdkProps = Returns (None, diags).
Proof.
  induction props as [|p props IH]; intros i sdkProps Hwf Hex.
  { by apply Exists_nil in Hex. }
  apply Forall_cons in Hwf as [Hp Hwf]. simpl.
  destruct (buildSdkDatatableProperty_returns i p Hp) as [[[name prop]|diags] Hr];
    rewrite Hr; simpl.
  - apply Exists_cons in Hex as [Hfail|Hex]; [|by apply IH].
    destruct Hfail as (ty & def & e & Ht & Hd & Hne & Hc).
    destruct Hp as [[name' Hn] _].
    rewrite (buildSdkDatatableProperty_default _ _ _ _ _ Hn Ht Hd Hne), Hc in Hr.
    done.
  - exists diags. split; [|done]. by eapply buildSdkDatatableProperty_diags.
Qed.

End Building.

Section Schema.

Context {float64 : Type} (ParseFloat : string -> float64 + error).

(** The element's contribution to the map, for an element that converts. *)
Definition builtEntry (i : nat) (p : propMap) : string * Datatableproperty float64 :=
  let ty := default "" (p !! "type") in
  sdkProperty (default "" (p !! "name")) ty (p !! "title")
    (def ← p !! "default";
     if String.eqb def "" then None
     else match convertDefault ParseFloat ty def with
          | Some (inl v) => Some v
          | _ => None
          end)
    i.

Fixpoint builtEntries (i : nat) (props : list propMap)
    : list (string * Datatableproperty float64) :=
  match props with
  | [] => []
  | p :: rest => builtEntry i p :: builtEntries (S i) rest
  end.

Lemma buildSdkDatatableProperty_converts i p :
  hasNameAndType p -> defaultConverts ParseFloat p ->
  buildSdkDatatableProperty ParseFloat i p = Returns (inl (builtEntry i p)).
Proof.
  intros [[name Hn] [ty Ht]] Hc. unfold builtEntry. rewrite Hn, Ht. simpl.
  destruct (p !! "default") as [def|] eqn:Hd; simpl.
  - destruct (String.eqb_spec def "") as [->|Hne].
    + apply buildSdkDatatableProperty_omitted; auto.
    + rewrite (buildSdkDatatableProperty_default _ _ _ _ _ _ Hn Ht Hd Hne).
      destruct (Hc ty def Ht Hd Hne) as [v ->]. done.
  - apply buildSdkDatatableProperty_omitted; auto.
Qed.

(** Without a panic and without a conversion error the loop stores every
    element under its name, a later one over an earlier one of the same
    name. *)
Lemma buildSdkDatatablePropertiesFrom_converts props : forall i sdkProps,
  Forall hasNameAndType props -> Forall (defaultConverts ParseFloat) props ->
  buildSdkDatatablePropertiesFrom ParseFloat i props sdkProps
  = Returns (Some (foldl (fun m e => <[e.1 := e.2]> m) sdkProps (builtEntries i props)), []).
Proof.
  induction props as [|p props IH]; intros i sdkProps Hwf Hcv; [done|].
  apply Forall_cons in Hwf as [Hp Hwf]. apply Forall_cons in Hcv as [Hc Hcv].
  simpl. rewrite (buildSdkDatatableProperty_converts i p Hp Hc). simpl.
  destruct (builtEntry i p) as [name prop] eqn:He. by rewrite IH.
Qed.

(** C8. Whatever the configuration, a JSON schema document that
    [buildSdkDatatableSchema] returns has [$schema]
    [http://json-schema.org/draft-04/schema#], type [object], required
    exactly [["key"]] and additionalProperties [false], and its properties
    are what [buildSdkDatatableProperties] returned; no document is
    returned only with diagnostics. The function returns such a document
    for every list whose elements have a name, a type and a default that
    converts, whether or not one of them is named [key]: the names are
    never looked at. *)
Theorem schema_document (d : ResourceData) :
  match buildSdkDatatableSchema ParseFloat d with
  | Returns (Some doc, diags) =>
      diags = [] /\
      js_Schema doc = Some "http://json-schema.org/draft-04/schema#" /\
      js_VarType doc = Some "object" /\
      js_Required doc = Some ["key"] /\
      js_AdditionalProperties doc = Some (VBool false) /\
      buildSdkDatatableProperties ParseFloat d = Returns (js_Properties doc, [])
  | Returns (None, diags) =>
      diags <> [] /\ exists m, buildSdkDatatableProperties ParseFloat d = Returns (m, diags)
  | Panics => buildSdkDatatableProperties ParseFloat d = Panics
  end
  /\ (forall props,
      d_properties d = Some props ->
      Forall hasNameAndType props -> Forall (defaultConverts ParseFloat) props ->
      exists properties,
        buildSdkDatatableSchema ParseFloat d
        = Returns (Some (mkJsonschemadocument
                           (Some "http://json-schema.org/draft-04/schema#")
                           (Some "object") (Some ["key"]) (Some properties)
                           (Some (VBool false))), [])).
Proof.
  split.
  - unfold buildSdkDatatableSchema.
    destruct (buildSdkDatatableProperties ParseFloat d) as [[properties [|dg diags]]|];
      simpl; [by repeat split| |done].
    split; [done|]. by exists properties.
  - intros props Hd Hwf Hcv. unfold buildSdkDatatableSchema, buildSdkDatatableProperties.
    rewrite Hd, (buildSdkDatatablePropertiesFrom_converts _ _ _ Hwf Hcv). simpl. eauto.
Qed.

End Schema.

(** ** Flattening the payload *)

Lemma filter_fmap_comm {A B : Type} (f : A -> B) (P : B -> Prop)
    `{!forall y, Decision (P y)} (l : list A) :
  filter P (f <$> l) = f <$> filter (fun x => P (f x)) l.
Proof.
  induction l as [|x l IH]; [done|].
  rewrite fmap_cons, !filter_cons, IH. by destruct (decide (P (f x))).
Qed.

Lemma filter_ext_in {A : Type} (P Q : A -> Prop)
    `{!forall x, Decision (P x)} `{!forall x, Decision (Q x)} (l : list A) :
  Forall (fun x => P x <-> Q x) l -> filter P l = filter Q l.
Proof.
  induction 1 as [|x l Hx _ IH]; [done|].
  rewrite !filter_cons, IH.
  destruct (decide (P x)), (decide (Q x)); tauto.
Qed.

Lemma Sorted_impl_in {A : Type} (R R' : relation A) (P : A -> Prop) (l : list A) :
  (forall x y, P x -> P y -> R x y -> R' x y) ->
  Forall P l -> Sorted R l -> Sorted R' l.
Proof.
  intros HR HP Hs. induction Hs as [|x l Hs IH Hhd]; [constructor|].
  apply Forall_cons in HP as [Hx HP]. constructor; [by apply IH|].
  destruct Hhd as [|y l' Hxy]; constructor.
  apply Forall_cons in HP as [Hy _]. by apply HR.
Qed.

Lemma Sorted_fmap_inv {A B : Type} (f : A -> B) (R : relation B) (l : list A) :
  Sorted R (f <$> l) -> Sorted (fun a b => R (f a) (f b)) l.
Proof.
  induction l as [|x l IH]; [constructor|].
  rewrite fmap_cons. intros Hs. apply Sorted_inv in Hs as [Hs Hhd].
  constructor; [by apply IH|].
  destruct l as [|y l]; constructor. by inversion Hhd.
Qed.

Section Flattening.

Context {float64 : Type} (interfaceToString : GoValue float64 -> string).

Abbreviation Props := (gmap string (Datatableproperty float64)).
Abbreviation KV := (string * Datatableproperty float64)%type.

(** The display order of the property stored under [name], a nil
    [DisplayOrder] counting as 0. *)
Definition orderOf (m : Props) (name : string) : Z :=
  default 0 (v ← m !! name; DisplayOrder v).

Lemma displayOrder_withDefaultOrder (p : KV) :
  displayOrder (p.1, withDefaultOrder p.2) = displayOrder p.
Proof.
  unfold displayOrder, withDefaultOrder. simpl.
  destruct (DisplayOrder p.2) eqn:Ho; simpl; [|done]. by rewrite Ho.
Qed.

Lemma flattenProperty_name (p : KV) :
  flattenProperty interfaceToString p !! "name" = Some p.1.
Proof.
  unfold flattenProperty.
  destruct (VarType p.2), (Title p.2), (Default p.2);
    repeat (rewrite lookup_insert_ne by done); apply lookup_singleton_eq.
Qed.

Section OneRange.

Context (mapRange : Props -> list KV) (Hrange : MapRange mapRange) (m : Props).

Lemma propListOf_fst : (propListOf mapRange m).*1 = (mapRange m).*1.
Proof. unfold propListOf. rewrite <- list_fmap_compose. done. Qed.

Lemma propListOf_displayOrder :
  displayOrder <$> propListOf mapRange m = displayOrder <$> mapRange m.
Proof.
  unfold propListOf. rewrite <- list_fmap_compose. apply list_fmap_ext.
  intros _ p _. apply displayOrder_withDefaultOrder.
Qed.

Lemma mapRange_lookup : Forall (fun p => m !! p.1 = Some p.2) (mapRange m).
Proof.
  rewrite (Hrange m). apply Forall_forall. intros [k v].
  by rewrite elem_of_map_to_list.
Qed.

(** Every element of [propList] is an entry of the map with its display
    order defaulted. *)
Lemma propListOf_lookup :
  Forall (fun p => exists v, m !! p.1 = Some v /\ p.2 = withDefaultOrder v)
    (propListOf mapRange m).
Proof.
  unfold propListOf. apply Forall_fmap. eapply Forall_impl; [apply mapRange_lookup|].
  intros [k v] Hkv. simpl in *. by exists v.
Qed.

(** The sort never meets a nil [DisplayOrder]. *)
Lemma propListOf_DisplayOrder :
  Forall (fun p => DisplayOrder p.2 = Some (displayOrder p)) (propListOf mapRange m).
Proof.
  unfold propListOf. apply Forall_fmap, Forall_forall. intros [k v] _.
  unfold displayOrder, withDefaultOrder. simpl.
  destruct (DisplayOrder v) eqn:Ho; simpl; [|done]. by rewrite Ho.
Qed.

Lemma propListOf_orderOf :
  Forall (fun p => displayOrder p = orderOf m p.1) (propListOf mapRange m).
Proof.
  eapply Forall_impl; [apply propListOf_lookup|].
  intros [k v'] (v & Hv & Hv'). simpl in *. subst v'. unfold orderOf. rewrite Hv.
  apply (displayOrder_withDefaultOrder (k, v)).
Qed.

Lemma sortedPropList_Permutation :
  sortedPropList mapRange m ≡ₚ propListOf mapRange m.
Proof. apply (SliceStable_Permutation displayOrder). Qed.

Lemma sortedPropList_orderOf :
  Forall (fun p => displayOrder p = orderOf m p.1) (sortedPropList mapRange m).
Proof. rewrite sortedPropList_Permutation. apply propListOf_orderOf. Qed.

Lemma flattenDatatableProperties_length :
  length (flattenDatatableProperties interfaceToString mapRange m) = size m.
Proof.
  unfold flattenDatatableProperties. rewrite length_fmap.
  rewrite sortedPropList_Permutation. unfold propListOf.
  rewrite length_fmap, (Hrange m). apply length_map_to_list.
Qed.

(** C2. For every map and every order in which [range] visits it,
    [flattenDatatableProperties] returns one element per key of the map
    (the element made of that key and its property), in non-decreasing
    display order, a nil [DisplayOrder] counting as 0; keys of equal
    display order stand in the order in which [range] visited them. *)
Theorem flatten_sorted_stable :
  exists names : list string,
    Forall2 (fun pm name => exists v, m !! name = Some v /\
               pm = flattenProperty interfaceToString (name, withDefaultOrder v))
      (flattenDatatableProperties interfaceToString mapRange m) names
    /\ (fun pm : propMap => pm !! "name")
         <$> flattenDatatableProperties interfaceToString mapRange m = Some <$> names
    /\ names ≡ₚ (map_to_list m).*1
    /\ NoDup names
    /\ length (flattenDatatableProperties interfaceToString mapRange m) = size m
    /\ Sorted (fun a b => orderOf m a <= orderOf m b) names
    /\ (forall k, filter (fun n => orderOf m n = k) names
                  = filter (fun n => orderOf m n = k) (mapRange m).*1).
Proof.
  exists (sortedPropList mapRange m).*1.
  assert ((sortedPropList mapRange m).*1 ≡ₚ (map_to_list m).*1) as Hperm.
  { rewrite sortedPropList_Permutation, propListOf_fst. by rewrite (Hrange m). }
  split; [|split; [|split; [|split; [|split; [|split]]]]].
  - unfold flattenDatatableProperties. apply Forall2_fmap, Forall_Forall2_diag.
    pose proof propListOf_lookup as Hl. rewrite <- sortedPropList_Permutation in Hl.
    eapply Forall_impl; [exact Hl|].
    intros [k v'] (v & Hv & Hv'). simpl in *. subst v'. by exists v.
  - unfold flattenDatatableProperties. rewrite <- !list_fmap_compose.
    apply list_fmap_ext. intros _ p _. apply flattenProperty_name.
  - done.
  - rewrite Hperm. apply NoDup_fst_map_to_list.
  - apply flattenDatatableProperties_length.
  - apply (Sorted_fmap fst (fun a b : KV => orderOf m a.1 <= orderOf m b.1)); [done|].
    eapply Sorted_impl_in; [|apply sortedPropList_orderOf|
                             apply (SliceStable_Sorted displayOrder)].
    intros x y Hx Hy. unfold leKey. by rewrite Hx, Hy.
  - intros k. rewrite <- propListOf_fst, !filter_fmap_comm. f_equal.
    rewrite (filter_ext_in _ (fun p : KV => displayOrder p = k) (sortedPropList mapRange m)).
    + rewrite (filter_ext_in _ (fun p : KV => displayOrder p = k) (propListOf mapRange m)).
      * apply (SliceStable_stable displayOrder).
      * eapply Forall_impl; [apply propListOf_orderOf|]. simpl. intros p ->. done.
    + eapply Forall_impl; [apply sortedPropList_orderOf|]. simpl. intros p ->. done.
Qed.

End OneRange.

(** C10, amended. When the display orders of the map's properties, a nil
    one counting as 0, are pairwise distinct, [flattenDatatableProperties]
    returns the same list whatever the order in which [range] visits the
    map. *)
Theorem flatten_deterministic (mapRange1 mapRange2 : Props -> list KV) (m : Props) :
  MapRange mapRange1 -> MapRange mapRange2 ->
  NoDup (displayOrder <$> map_to_list m) ->
  flattenDatatableProperties interfaceToString mapRange1 m
  = flattenDatatableProperties interfaceToString mapRange2 m.
Proof.
  intros H1 H2 Hnd. unfold flattenDatatableProperties, sortedPropList. f_equal.
  apply (SliceStable_perm_distinct displayOrder).
  - unfold propListOf. by rewrite (H1 m), (H2 m).
  - rewrite propListOf_displayOrder. by rewrite (H1 m).
Qed.

End Flattening.

(** ** The element schema *)

(** The fields of [datatableProperty] and the values its [type] admits. *)
Definition schemaKeys : gset string := {["name"; "type"; "title"; "default"]}.
Definition propertyTypes : list string := ["boolean"; "string"; "integer"; "number"].

Lemma Sorted_seq_Z i n : Sorted Z.le (Z.of_nat <$> seq i n).
Proof.
  revert i. induction n as [|n IH]; intros i; simpl; [constructor|].
  constructor; [apply IH|]. destruct n; simpl; constructor. lia.
Qed.

Lemma foldl_insert_list_to_map {V : Type} (l : list (string * V)) :
  foldl (fun (m : gmap string V) e => <[e.1 := e.2]> m) ∅ l = list_to_map (reverse l).
Proof.
  assert (forall acc, foldl (fun (m : gmap string V) e => <[e.1 := e.2]> m) acc l
                      = foldr (fun e m => <[e.1 := e.2]> m) acc (reverse l)) as H.
  { induction l as [|e l IH]; intros acc; [done|].
    rewrite reverse_cons, foldr_app. simpl. apply IH. }
  apply H.
Qed.

(** ** How the handlers report an API error *)

Section Reporting.

Context {float64 : Type} (ParseFloat : string -> float64 + error)
  (interfaceToString : GoValue float64 -> string)
  (mapRange : gmap string (Datatableproperty float64)
              -> list (string * Datatableproperty float64)).

(** C4, amended. An error of a vendor API call is reported by the
    datatable handlers as one error diagnostic whose summary is a text of
    the handler, naming the datatable, followed by the error's text
    unchanged: the POST of create, the PUT of update, the DELETE and the
    polling GET of delete (unless its status is 404, which is success),
    and the GET of read (with status 404 the same text is the retryable
    error the retried function returns). *)
Theorem api_errors_reported (d : ResourceData) :
  (forall post calls schema err,
      buildSdkDatatableSchema ParseFloat d = Returns (schema, []) ->
      res_err (post (datatableBody None d schema)) = Some err ->
      createArchitectDatatable ParseFloat interfaceToString mapRange d post calls
      = Returns (mkRetryRun d
          [DiagError (errorString
             ("Failed to create datatable " +:+ d_name d +:+ ": " +:+ err))] 0))
  /\ (forall put calls schema err,
      buildSdkDatatableSchema ParseFloat d = Returns (schema, []) ->
      res_err (put (datatableBody (Some (d_Id d)) d schema)) = Some err ->
      updateArchitectDatatable ParseFloat interfaceToString mapRange d put calls
      = Returns (mkRetryRun d
          [DiagError (errorString
             ("Failed to update datatable " +:+ d_name d +:+ ": " +:+ err))] 0))
  /\ (forall del calls err,
      del_err del = Some err ->
      deleteArchitectDatatable d del calls
      = Returns (mkRetryRun d
          [DiagError (errorString
             ("Failed to delete datatable " +:+ d_name d +:+ ": " +:+ err))] 0))
  /\ (forall del t r rest err,
      del_err del = None -> t < 30 * Second ->
      poll_err r = Some err -> isStatus404 (poll_resp r) = false ->
      deleteArchitectDatatable d del ((t, r) :: rest)
      = Returns (mkRetryRun d
          [DiagError (errorString
             ("Error deleting datatable row " +:+ d_name d +:+ ": " +:+ err))] 1))
  /\ (forall t r rest err,
      t < 30 * Second -> res_err r = Some err -> isStatus404 (res_resp r) = false ->
      readArchitectDatatable interfaceToString mapRange d ((t, r) :: rest)
      = Returns (mkRetryRun d
          [DiagError (errorString
             ("Failed to read datatable " +:+ d_Id d +:+ ": " +:+ err))] 1))
  /\ (forall r err,
      res_err r = Some err ->
      readAttempt interfaceToString mapRange d r
      = Returns (d, Some ((if isStatus404 (res_resp r)
                           then RetryableError else NonRetryableError)
                            (errorString
                               ("Failed to read datatable " +:+ d_Id d +:+ ": " +:+ err)))))
  /\ (forall r err,
      poll_err r = Some err -> isStatus404 (poll_resp r) = false ->
      deleteAttempt (d_name d) d r
      = Returns (d, Some (NonRetryableError
                            (errorString
                               ("Error deleting datatable row " +:+ d_name d +:+ ": " +:+ err))))).
Proof.
  split; [|split; [|split; [|split; [|split; [|split]]]]].
  - intros post calls schema err Hb He. unfold createArchitectDatatable.
    rewrite Hb. simpl. by rewrite He.
  - intros put calls schema err Hb He. unfold updateArchitectDatatable.
    rewrite Hb. simpl. by rewrite He.
  - intros del calls err He. unfold deleteArchitectDatatable. by rewrite He.
  - intros del t r rest err Hdel Ht He H404.
    unfold deleteArchitectDatatable, withRetries. rewrite Hdel.
    apply retryLoop_nonretryable; [done|]. unfold deleteAttempt. by rewrite He, H404.
  - intros t r rest err Ht He H404.
    unfold readArchitectDatatable, withRetriesForRead, withRetries.
    apply retryLoop_nonretryable; [done|].
    by rewrite (readAttempt_failed _ _ _ _ _ He), H404.
  - intros r err He. rewrite (readAttempt_failed _ _ _ _ _ He).
    by destruct (isStatus404 (res_resp r)).
  - intros r err He H404. unfold deleteAttempt. by rewrite He, H404.
Qed.

End Reporting.

(** * The claims as first stated, and where they fail *)

(** C3 as stated: a GET that succeeds, made before the deadline, ends the
    read without an error. *)
Definition readReturnsNoErrorOnSuccess {float64 : Type}
    (interfaceToString : GoValue float64 -> string)
    (mapRange : gmap string (Datatableproperty float64)
                -> list (string * Datatableproperty float64)) : Prop :=
  forall d t (r : DatatableResult float64) rest,
    t < 30 * Second -> res_err r = None ->
    exists run,
      readArchitectDatatable interfaceToString mapRange d ((t, r) :: rest)
      = Returns run /\
      run_diags run = [].

(** C4 as stated: the diagnostics of create carry the POST's error itself. *)
Definition createReportsErrorUnchanged {float64 : Type}
    (ParseFloat : string -> float64 + error)
    (interfaceToString : GoValue float64 -> string)
    (mapRange : gmap string (Datatableproperty float64)
                -> list (string * Datatableproperty float64)) : Prop :=
  forall d post calls schema err,
    buildSdkDatatableSchema ParseFloat d = Returns (schema, []) ->
    res_err (post (datatableBody None d schema)) = Some err ->
    exists run,
      createArchitectDatatable ParseFloat interfaceToString mapRange d post calls
      = Returns run /\
      run_diags run = [DiagError (errorString err)].

(** C10 as stated: pairwise distinct [DisplayOrder] fields make the result
    independent of the order of [range]. *)
Definition deterministicOnDistinctFields {float64 : Type}
    (interfaceToString : GoValue float64 -> string) : Prop :=
  forall (mapRange1 mapRange2 : gmap string (Datatableproperty float64)
                                -> list (string * Datatableproperty float64)) m,
    MapRange mapRange1 -> MapRange mapRange2 ->
    NoDup ((fun p : string * Datatableproperty float64 => DisplayOrder p.2)
             <$> map_to_list m) ->
    flattenDatatableProperties interfaceToString mapRange1 m
    = flattenDatatableProperties interfaceToString mapRange2 m.

(** The list read from a map of one property. *)
Lemma flattenDatatableProperties_singleton {float64 : Type}
    (interfaceToString : GoValue float64 -> string) mapRange k v :
  MapRange mapRange ->
  flattenDatatableProperties interfaceToString mapRange {[k := v]}
  = [flattenProperty interfaceToString (k, withDefaultOrder v)].
Proof.
  intros Hrange. unfold flattenDatatableProperties, sortedPropList, propListOf.
  pose proof (Hrange {[k := v]}) as Hp. rewrite map_to_list_singleton in Hp.
  apply Permutation_singleton_r in Hp. by rewrite Hp.
Qed.

(** C5 as stated fails when the first station listed carries no id: the
    handler does not succeed, it panics. *)
Lemma station_without_id_counterexample :
  let r := mkGetStationsResult (mkStationentitylisting (Some [mkStation None])) None in
  gs_getErr r = None /\
  Entities (gs_stations r) = Some [mkStation None] /\
  dataSourceStationRead (mkResourceData "" "desk" "" None None) [(0, r)] = Panics.
Proof. repeat split. Qed.

(** C3 as stated fails when the GET succeeds with a datatable that has no
    division: the handler returns nothing, it panics on the nil pointer. *)
Lemma read_without_division_counterexample :
  ~ exists (float64 : Type) (interfaceToString : GoValue float64 -> string) mapRange,
      readReturnsNoErrorOnSuccess interfaceToString mapRange.
Proof.
  intros (float64 & interfaceToString & mapRange & Hclaim).
  destruct (Hclaim (mkResourceData "id1" "t" "" None None) 0
              (mkDatatableResult
                 (Some (mkDatatable (Some "id1") (Some "t") None None None))
                 (Some (mkAPIResponse 200)) None)
              [] eq_refl eq_refl) as (run & Hrun & _).
  vm_compute in Hrun. discriminate.
Qed.

Lemma api_error_counterexample :
  (~ exists (float64 : Type) (ParseFloat : string -> float64 + error)
       (interfaceToString : GoValue float64 -> string) mapRange,
       createReportsErrorUnchanged ParseFloat interfaceToString mapRange)
  /\ deleteArchitectDatatable (mkResourceData "id1" "t" "" None None)
       (mkDeleteResult (Some "boom")) []
     = Returns (mkRetryRun (mkResourceData "id1" "t" "" None None)
         [DiagError (errorString "Failed to delete datatable t: boom")] 0).
Proof.
  split; [|reflexivity].
  intros (float64 & ParseFloat & interfaceToString & mapRange & Hclaim).
  destruct (Hclaim (mkResourceData "" "t" "" None None)
              (fun _ => mkDatatableResult None None (Some "boom")) []
              _ "boom" eq_refl eq_refl) as (run & Hrun & Hd).
  vm_compute in Hrun. injection Hrun as <-. vm_compute in Hd. discriminate.
Qed.

Lemma flatten_order_counterexample :
  ~ exists (float64 : Type) (interfaceToString : GoValue float64 -> string),
      deterministicOnDistinctFields interfaceToString.
Proof.
  intros (float64 & interfaceToString & Hclaim).
  set (m := {["a" := mkDatatableproperty None None None None None;
              "b" := mkDatatableproperty None None None None (Some 0)]}
            : gmap string (Datatableproperty float64)).
  specialize (Hclaim map_to_list (fun m => reverse (map_to_list m)) m).
  apply (f_equal (fmap (fun pm : propMap => pm !! "name"))) in Hclaim.
  - vm_compute in Hclaim. discriminate.
  - by intros ?.
  - intros ?. apply reverse_Permutation.
  - apply (bool_decide_unpack _). by vm_compute.
Qed.

(** * The theorems at concrete inputs *)

(** A runtime to evaluate the parametric definitions with: no float is
    ever parsed, booleans print as [true] and [false], strings as they
    are, and [range] visits a map in the order of [map_to_list]. *)
Definition noFloat : Type := Empty_set.

Definition noParseFloat (s : string) : noFloat + error :=
  inr (NumError "ParseFloat" s ErrSyntax).

Definition printValue (v : GoValue noFloat) : string :=
  match v with
  | VBool true => "true"
  | VBool false => "false"
  | VString s => s
  | VInt _ => ""
  | VFloat f => match f with end
  end.

Lemma map_to_list_MapRange {V : Type} :
  MapRange (fun m : gmap string V => map_to_list m).
Proof. by intros m. Defined.

Definition stationData : ResourceData := mkResourceData "" "desk" "" None None.

Definition stationAnswers : list (Duration * GetStationsResult) :=
  [ (0, mkGetStationsResult (mkStationentitylisting None) None);
    (Second, mkGetStationsResult (mkStationentitylisting (Some [])) None) ].

Lemma dataSourceStationRead_retries_witness :
  Forall (fun c => c.1 < 15 * Second /\ noStations c.2) stationAnswers /\
  dataSourceStationRead stationData
    (stationAnswers ++
     [(2 * Second,
       mkGetStationsResult (mkStationentitylisting (Some [mkStation (Some "s1")])) None)])
  = Returns (mkRetryRun (SetId "s1" stationData) [] 3).
Proof.
  assert (Forall (fun c => c.1 < 15 * Second /\ noStations c.2) stationAnswers) as Hpre.
  { unfold stationAnswers, noStations.
    constructor; [|constructor; [|constructor]]; simpl.
    - split; [reflexivity|]. split; [reflexivity|]. by left.
    - split; [reflexivity|]. split; [reflexivity|]. by right. }
  split; [exact Hpre|].
  destruct (dataSourceStationRead_retries stationData stationAnswers Hpre) as (Hok & _).
  apply (Hok (2 * Second) _ [] (mkStation (Some "s1")) [] "s1"); reflexivity.
Defined.

Definition tableData : ResourceData := mkResourceData "id1" "t" "" None None.

Definition stillThere : list (Duration * PollResult) :=
  [ (0, mkPollResult (Some (mkAPIResponse 200)) None);
    (Second, mkPollResult (Some (mkAPIResponse 200)) None) ].

Lemma deleteArchitectDatatable_polls_witness :
  del_err (mkDeleteResult None) = None /\
  deleteArchitectDatatable tableData (mkDeleteResult None)
    (stillThere ++ [(2 * Second, mkPollResult (Some (mkAPIResponse 404)) (Some "not found"))])
  = Returns (mkRetryRun tableData [] 3).
Proof.
  split; [reflexivity|].
  destruct (deleteArchitectDatatable_polls tableData (mkDeleteResult None) eq_refl)
    as (Hfail & _).
  apply (Hfail stillThere (2 * Second)
           (mkPollResult (Some (mkAPIResponse 404)) (Some "not found")) [] "not found");
    [|reflexivity..].
  unfold stillThere.
  constructor; [|constructor; [|constructor]]; simpl; split; reflexivity.
Defined.

Definition notYet : DatatableResult noFloat :=
  mkDatatableResult None (Some (mkAPIResponse 404)) (Some "not found").

Definition forbidden : DatatableResult noFloat :=
  mkDatatableResult None (Some (mkAPIResponse 403)) (Some "forbidden").

Definition found : DatatableResult noFloat :=
  mkDatatableResult
    (Some (mkDatatable (Some "id1") (Some "t") None
             (Some (mkWritabledivision (Some "div1"))) None))
    (Some (mkAPIResponse 200)) None.

Lemma readArchitectDatatable_retries_on_404_witness :
  Forall (fun c => c.1 < 30 * Second /\ notFound c.2) [(0, notYet)] /\
  Second < 30 * Second /\
  readArchitectDatatable printValue map_to_list tableData
    ([(0, notYet)] ++ (Second, forbidden) :: [])
  = Returns (mkRetryRun tableData
      [DiagError (errorString "Failed to read datatable id1: forbidden")] 2) /\
  exists d',
    readArchitectDatatable printValue map_to_list tableData
      ([(0, notYet)] ++ (Second, found) :: [])
    = Returns (mkRetryRun d' [] 2).
Proof.
  assert (Forall (fun c : Duration * DatatableResult noFloat =>
                    c.1 < 30 * Second /\ notFound c.2) [(0, notYet)]) as Hpre.
  { constructor; [|constructor]. split; [reflexivity|].
    split; [by exists "not found"|reflexivity]. }
  split; [exact Hpre|]. split; [reflexivity|]. split.
  - exact (readArchitectDatatable_retries_on_404 printValue map_to_list tableData
             [(0, notYet)] Hpre Second forbidden [] eq_refl).
  - exact (proj2 (readArchitectDatatable_retries_on_404 printValue map_to_list tableData
             [(0, notYet)] Hpre Second found [] eq_refl
             _ "t" (mkWritabledivision (Some "div1")) "div1"
             eq_refl eq_refl eq_refl eq_refl)).
Defined.

Definition twoProperties : gmap string (Datatableproperty noFloat) :=
  {[ "key" := mkDatatableproperty (Some "/properties/key") (Some "string") None None (Some 1);
     "on" := mkDatatableproperty (Some "/properties/on") (Some "boolean") None
               (Some (VBool true)) None ]}.

Lemma flatten_sorted_stable_witness :
  MapRange (fun m : gmap string (Datatableproperty noFloat) => map_to_list m) /\
  exists names : list string,
    Forall2 (fun pm name => exists v, twoProperties !! name = Some v /\
               pm = flattenProperty printValue (name, withDefaultOrder v))
      (flattenDatatableProperties printValue map_to_list twoProperties) names
    /\ (fun pm : propMap => pm !! "name")
         <$> flattenDatatableProperties printValue map_to_list twoProperties = Some <$> names
    /\ names ≡ₚ (map_to_list twoProperties).*1
    /\ NoDup names
    /\ length (flattenDatatableProperties printValue map_to_list twoProperties)
       = size twoProperties
    /\ Sorted (fun a b => orderOf twoProperties a <= orderOf twoProperties b) names
    /\ (forall k, filter (fun n => orderOf twoProperties n = k) names
                  = filter (fun n => orderOf twoProperties n = k)
                      (map_to_list twoProperties).*1).
Proof.
  split; [exact map_to_list_MapRange|].
  exact (flatten_sorted_stable printValue map_to_list map_to_list_MapRange twoProperties).
Defined.

Lemma flatten_deterministic_witness :
  NoDup (displayOrder <$> map_to_list twoProperties) /\
  flattenDatatableProperties printValue map_to_list twoProperties
  = flattenDatatableProperties printValue (fun m => reverse (map_to_list m)) twoProperties.
Proof.
  assert (NoDup (displayOrder <$> map_to_list twoProperties)) as Hnd.
  { apply (bool_decide_unpack _). by vm_compute. }
  split; [exact Hnd|].
  apply (flatten_deterministic printValue map_to_list
           (fun m => reverse (map_to_list m)) twoProperties).
  - exact map_to_list_MapRange.
  - intros m. apply reverse_Permutation.
  - exact Hnd.
Defined.

(** [strconv] at some inputs. *)
Example Atoi_examples :
  Atoi "42" = inl 42 /\ Atoi "+5" = inl 5 /\ Atoi "-007" = inl (-7) /\
  Atoi "9223372036854775807" = inl (2 ^ 63 - 1) /\
  Atoi "-9223372036854775808" = inl (- 2 ^ 63) /\
  Atoi "9223372036854775808" = inr (NumError "Atoi" "9223372036854775808" ErrRange) /\
  Atoi "" = inr (NumError "Atoi" "" ErrSyntax) /\
  Atoi "-" = inr (NumError "Atoi" "-" ErrSyntax) /\
  Atoi "1_0" = inr (NumError "Atoi" "1_0" ErrSyntax) /\
  Atoi "12a" = inr (NumError "Atoi" "12a" ErrSyntax).
Proof. repeat split. Qed.

Example ParseBool_examples :
  ParseBool "1" = inl true /\ ParseBool "True" = inl true /\
  ParseBool "F" = inl false /\
  ParseBool "yes" = inr (NumError "ParseBool" "yes" ErrSyntax) /\
  ParseBool "" = inr (NumError "ParseBool" "" ErrSyntax).
Proof. repeat split. Qed.

Definition badInteger : list propMap :=
  [ {["name" := "key"; "type" := "string"]};
    {["name" := "n"; "type" := "integer"; "default" := "abc"]} ].


(** A configuration without a property named [key]. *)
Definition noKeyProperty : list propMap :=
  [ {["name" := "colour"; "type" := "string"; "default" := "red"]} ].

Lemma schema_document_witness :
  Forall (fun p : propMap => p !! "name" <> Some "key") noKeyProperty /\
  exists properties,
    buildSdkDatatableSchema noParseFloat (mkResourceData "" "t" "" None (Some noKeyProperty))
    = Returns (Some (mkJsonschemadocument
                       (Some "http://json-schema.org/draft-04/schema#")
                       (Some "object") (Some ["key"]) (Some properties)
                       (Some (VBool false))), []).
Proof.
  split.
  { unfold noKeyProperty. constructor; [|constructor]. by vm_compute. }
  destruct (schema_document noParseFloat
              (mkResourceData "" "t" "" None (Some noKeyProperty))) as [_ Hdoc].
  apply (Hdoc noKeyProperty eq_refl).
  - unfold noKeyProperty. constructor; [|constructor].
    split; [by exists "colour"|by exists "string"].
  - unfold noKeyProperty. constructor; [|constructor].
    intros ty def Ht Hd _. vm_compute in Ht, Hd.
    injection Ht as <-. injection Hd as <-. by eexists.
Defined.

Lemma api_errors_reported_witness :
  createArchitectDatatable noParseFloat printValue map_to_list tableData
    (fun _ => mkDatatableResult None (Some (mkAPIResponse 400)) (Some "bad request")) []
  = Returns (mkRetryRun tableData
      [DiagError (errorString "Failed to create datatable t: bad request")] 0).
Proof.
  destruct (api_errors_reported noParseFloat printValue map_to_list tableData)
    as (Hcreate & _).
  exact (Hcreate (fun _ => mkDatatableResult None (Some (mkAPIResponse 400))
                             (Some "bad request")) [] _ "bad request" eq_refl eq_refl).
Defined.

(** * Further properties of the handlers *)

(** ** What a retried handler does to the resource data *)

Section RetryFrame.

Context {R : Type} (timeout : Duration)
  (method : ResourceData -> R -> Outcome (ResourceData * option RetryError)).

(** When the retried function leaves the data alone whenever it returns
    an error, a run ends either with diagnostics and the data it started
    from, or without diagnostics and the data of the one call that
    returned nil. *)
Lemma retryLoop_frame :
  (forall d r d' e, method d r = Returns (d', Some e) -> d' = d) ->
  forall calls d last n run,
    retryLoop timeout method d last n calls = Returns run ->
    (run_data run = d /\ run_diags run <> []) \/
    (exists t r, (t, r) ∈ calls /\ t < timeout /\
       method d r = Returns (run_data run, None) /\ run_diags run = []).
Proof.
  intros Hkeep. induction calls as [|[t r] calls IH]; intros d last n run; simpl.
  - intros [= <-]. left. by split.
  - destruct (Z.leb_spec timeout t) as [|Ht]; [intros [= <-]; left; by split|].
    destruct (method d r) as [[d' [[e|e]|]]|] eqn:Hm; try done.
    + rewrite (Hkeep _ _ _ _ Hm). intros Hrun.
      destruct (IH _ _ _ _ Hrun) as [?|(t' & r' & Hin & ? & ? & ?)]; [by left|].
      right. exists t', r'. split; [by right|done].
    + rewrite (Hkeep _ _ _ _ Hm). intros [= <-]. left. by split.
    + intros [= <-]. right. exists t, r. split; [by left|]. done.
Qed.

(** A retried function that never panics makes a loop that never panics. *)
Lemma retryLoop_returns :
  (forall d r, method d r <> Panics) ->
  forall calls d last n, exists run, retryLoop timeout method d last n calls = Returns run.
Proof.
  intros Hnp. induction calls as [|[t r] calls IH]; intros d last n; simpl; [eauto|].
  destruct (timeout <=? t); [eauto|].
  destruct (method d r) as [[d' [[e|e]|]]|] eqn:Hm; eauto.
  by destruct (Hnp d r).
Qed.

End RetryFrame.

Lemma deleteAttempt_keeps name d r d' res :
  deleteAttempt name d r = Returns (d', res) -> d' = d.
Proof.
  unfold deleteAttempt. destruct (poll_err r); [destruct (isStatus404 _)|];
    by intros [= <- _].
Qed.

(** X1. [deleteArchitectDatatable] never panics and never changes the
    resource data, whatever the API answers; it reports at most one
    diagnostic. *)
Theorem deleteArchitectDatatable_total (d : ResourceData) (del : DeleteResult)
    (calls : list (Duration * PollResult)) :
  exists run,
    deleteArchitectDatatable d del calls = Returns run /\
    run_data run = d /\ (length (run_diags run) <= 1)%nat.
Proof.
  unfold deleteArchitectDatatable. destruct (del_err del) as [err|].
  { eexists. split; [reflexivity|]. split; [done|]. simpl. lia. }
  unfold withRetries.
  destruct (retryLoop_returns (30 * Second) (deleteAttempt (d_name d))) with
    (calls := calls) (d := d) (last := @None error) (n := 0%nat) as [run Hrun].
  { intros d0 r. unfold deleteAttempt.
    destruct (poll_err r); [destruct (isStatus404 _)|]; done. }
  exists run. split; [done|].
  assert (forall calls0 d0 last n run0,
    retryLoop (30 * Second) (deleteAttempt (d_name d)) d0 last n calls0 = Returns run0 ->
    run_data run0 = d0 /\ (length (run_diags run0) <= 1)%nat) as Hall.
  { induction calls0 as [|[t r] calls0 IH]; intros d0 last n run0; simpl.
    - intros [= <-]. simpl. split; [done|lia].
    - destruct (30 * Second <=? t); [intros [= <-]; simpl; split; [done|lia]|].
      destruct (deleteAttempt (d_name d) d0 r) as [[d' res]|] eqn:Hm; [|done].
      apply deleteAttempt_keeps in Hm as ->.
      destruct res as [[e|e]|].
      + apply IH.
      + intros [= <-]. simpl. split; [done|lia].
      + intros [= <-]. simpl. split; [done|lia]. }
  by apply (Hall _ _ _ _ _ Hrun).
Qed.

Section ReadFrame.

Context {float64 : Type} (ParseFloat : string -> float64 + error)
  (interfaceToString : GoValue float64 -> string)
  (mapRange : gmap string (Datatableproperty float64)
              -> list (string * Datatableproperty float64)).

Lemma readAttempt_keeps_on_error d r d' e :
  readAttempt interfaceToString mapRange d r = Returns (d', Some e) -> d' = d.
Proof.
  destruct (res_err r) as [getErr|] eqn:He.
  - rewrite (readAttempt_failed _ _ _ _ _ He). by intros [= <- _].
  - destruct (readAttempt_succeeded interfaceToString mapRange d r He) as [->|[d0 ->]]; done.
Qed.

Lemma readAttempt_nil_data d r d' :
  readAttempt interfaceToString mapRange d r = Returns (d', None) ->
  exists datatable name division divisionId,
    res_err r = None /\ res_datatable r = Some datatable /\
    dt_Name datatable = Some name /\ dt_Division datatable = Some division /\
    div_Id division = Some divisionId /\
    d' = readData interfaceToString mapRange d datatable name divisionId.
Proof.
  destruct (res_err r) as [getErr|] eqn:He.
  { rewrite (readAttempt_failed _ _ _ _ _ He).
    by destruct (isStatus404 (res_resp r)). }
  destruct (res_datatable r) as [datatable|] eqn:Hd;
    [|unfold readAttempt; by rewrite He, Hd].
  destruct (dt_Name datatable) as [name|] eqn:Hn;
    [|unfold readAttempt; rewrite He, Hd; simpl; by rewrite Hn].
  destruct (dt_Division datatable) as [division|] eqn:Hv;
    [|unfold readAttempt; rewrite He, Hd; simpl; rewrite Hn; simpl; by rewrite Hv].
  destruct (div_Id division) as [divisionId|] eqn:Hi;
    [|unfold readAttempt; rewrite He, Hd; simpl; rewrite Hn; simpl; rewrite Hv;
      simpl; by rewrite Hi].
  rewrite (readAttempt_read _ _ _ _ _ _ _ _ He Hd Hn Hv Hi). intros [= <-].
  by exists datatable, name, division, divisionId.
Qed.

(** X2. One attempt of the read, the closure that [readArchitectDatatable]
    hands to the retry helper. Whatever the GET answers, an attempt that
    returns never changes the resource id. It returns an error only when
    the GET failed, retryable exactly for status 404, and has then changed
    nothing at all. It returns nil only after a GET without error whose
    datatable, name, division and division id are not nil, and has then
    set the name, the division id, the description and the flattened
    properties of that datatable and nothing else. *)
Theorem readAttempt_frame (d d' : ResourceData) (r : DatatableResult float64)
    (res : option RetryError) :
  readAttempt interfaceToString mapRange d r = Returns (d', res) ->
  d_Id d' = d_Id d /\
  match res with
  | Some e =>
      d' = d /\
      exists getErr,
        res_err r = Some getErr /\
        e = (if isStatus404 (res_resp r)
             then RetryableError (readError d getErr)
             else NonRetryableError (readError d getErr))
  | None =>
      exists datatable name division divisionId,
        res_err r = None /\
        res_datatable r = Some datatable /\ dt_Name datatable = Some name /\
        dt_Division datatable = Some division /\ div_Id division = Some divisionId /\
        d' = Set_properties
               (schema ← dt_Schema datatable;
                properties ← js_Properties schema;
                Some (flattenDatatableProperties interfaceToString mapRange properties))
               (Set_description (dt_Description datatable)
                  (Set_division_id divisionId (Set_name name d)))
  end.
Proof.
  intros Hm. destruct res as [e|].
  - pose proof (readAttempt_keeps_on_error _ _ _ _ Hm) as ->. split; [done|].
    split; [done|].
    destruct (res_err r) as [getErr|] eqn:He.
    + rewrite (readAttempt_failed _ _ _ _ _ He) in Hm. injection Hm as <-. eauto.
    + destruct (readAttempt_succeeded interfaceToString mapRange d r He) as [Hp|[d0 Hr]];
        rewrite Hm in *; done.
  - apply readAttempt_nil_data in Hm
      as (datatable & name & division & divisionId & He & Hdt & Hn & Hv & Hi & ->).
    split; [done|]. by exists datatable, name, division, divisionId.
Qed.

(** X3. When the configured properties cannot be built, neither
    [createArchitectDatatable] nor [updateArchitectDatatable] calls the
    API: whatever the API would answer, both return the builder's
    diagnostics and leave the resource data alone. *)
Theorem no_call_without_schema (d : ResourceData) (props : list propMap) :
  d_properties d = Some props ->
  Forall hasNameAndType props -> Exists (defaultFails ParseFloat) props ->
  exists diags, diags <> [] /\
    buildSdkDatatableProperties ParseFloat d = Returns (None, diags) /\
    forall send calls,
      createArchitectDatatable ParseFloat interfaceToString mapRange d send calls
      = Returns (mkRetryRun d diags 0) /\
      updateArchitectDatatable ParseFloat interfaceToString mapRange d send calls
      = Returns (mkRetryRun d diags 0).
Proof.
  intros Hd Hwf Hex.
  destruct (buildSdkDatatablePropertiesFrom_fails ParseFloat props 0 ∅ Hwf Hex)
    as (diags & Hne & Hb).
  exists diags. split; [done|].
  assert (buildSdkDatatableProperties ParseFloat d = Returns (None, diags)) as Hbuild.
  { unfold buildSdkDatatableProperties. by rewrite Hd. }
  split; [done|]. intros send calls.
  unfold createArchitectDatatable, updateArchitectDatatable, buildSdkDatatableSchema.
  rewrite Hbuild. simpl. by destruct diags.
Qed.

(** X4. Once the schema is built and the POST has returned no error,
    [createArchitectDatatable] dereferences the datatable of the answer
    and its id unchecked: a POST that succeeds with no datatable, or with
    one that has no id, makes the handler panic, whatever the GETs that
    would follow answer. Otherwise the handler is the read handler run on
    the resource data with the id set to the new datatable's. *)
Theorem createArchitectDatatable_sets_id (d : ResourceData)
    (post : Datatable float64 -> DatatableResult float64)
    (calls : list (Duration * DatatableResult float64))
    (schema : option (Jsonschemadocument float64)) :
  buildSdkDatatableSchema ParseFloat d = Returns (schema, []) ->
  res_err (post (datatableBody None d schema)) = None ->
  match res_datatable (post (datatableBody None d schema)) with
  | Some table =>
      match dt_Id table with
      | Some id =>
          createArchitectDatatable ParseFloat interfaceToString mapRange d post calls
          = readArchitectDatatable interfaceToString mapRange (SetId id d) calls
      | None =>
          createArchitectDatatable ParseFloat interfaceToString mapRange d post calls
          = Panics
      end
  | None =>
      createArchitectDatatable ParseFloat interfaceToString mapRange d post calls = Panics
  end.
Proof.
  intros Hb He. unfold createArchitectDatatable. rewrite Hb. simpl. rewrite He.
  destruct (res_datatable (post (datatableBody None d schema))) as [table|]; [|done].
  simpl. by destruct (dt_Id table) as [id|].
Qed.

End ReadFrame.

(** X5. [updateArchitectDatatable] reads nothing of what the PUT returns
    but its error: two APIs whose PUTs fail alike give the same result,
    whatever datatable and response they return with it. *)
Theorem updateArchitectDatatable_put_payload_unread {float64 : Type}
    (ParseFloat : string -> float64 + error)
    (interfaceToString : GoValue float64 -> string)
    (mapRange : gmap string (Datatableproperty float64)
                -> list (string * Datatableproperty float64))
    (d : ResourceData) (calls : list (Duration * DatatableResult float64))
    (put put' : Datatable float64 -> DatatableResult float64) :
  (forall body, res_err (put body) = res_err (put' body)) ->
  updateArchitectDatatable ParseFloat interfaceToString mapRange d put calls
  = updateArchitectDatatable ParseFloat interfaceToString mapRange d put' calls.
Proof.
  intros Hsame. unfold updateArchitectDatatable.
  destruct (buildSdkDatatableSchema ParseFloat d) as [[schema [|dg diags]]|];
    simpl; [|done..].
  by rewrite Hsame.
Qed.

Lemma stationAttempt_keeps_on_error d r d' e :
  stationAttempt d r = Returns (d', Some e) -> d' = d.
Proof.
  unfold stationAttempt. destruct (gs_getErr r); [by intros [= <- _]|].
  destruct (Entities (gs_stations r)) as [[|first others]|]; try by intros [= <- _].
  simpl. by destruct (station_Id first).
Qed.

(** X6. A [dataSourceStationRead] that returns has either set the id to
    the id of the first station of one answer received before the
    deadline, and reports nothing, or reports diagnostics and has changed
    nothing. The stations after the first are never looked at, and the
    name searched for is never changed. *)
Theorem dataSourceStationRead_frame (d : ResourceData)
    (calls : list (Duration * GetStationsResult)) (run : RetryRun) :
  dataSourceStationRead d calls = Returns run ->
  d_name (run_data run) = d_name d /\
  ((run_diags run <> [] /\ run_data run = d) \/
   (run_diags run = [] /\
    exists t r first others id,
      (t, r) ∈ calls /\ t < 15 * Second /\ gs_getErr r = None /\
      Entities (gs_stations r) = Some (first :: others) /\
      station_Id first = Some id /\ run_data run = SetId id d)).
Proof.
  intros Hrun. unfold dataSourceStationRead, withRetries in Hrun.
  apply retryLoop_frame in Hrun; [|apply stationAttempt_keeps_on_error].
  destruct Hrun as [[Hd Hne]|(t & r & Hin & Ht & Hm & Hnil)].
  - rewrite Hd. split; [done|]. by left.
  - unfold stationAttempt in Hm. destruct (gs_getErr r) eqn:He; [done|].
    destruct (Entities (gs_stations r)) as [[|first others]|] eqn:Hent; try done.
    simpl in Hm. destruct (station_Id first) as [id|] eqn:Hid; [|done].
    simpl in Hm. injection Hm as Hdata. rewrite <- Hdata.
    split; [done|]. right. split; [done|].
    by exists t, r, first, others, id.
Qed.

(** ** The map [buildSdkDatatableProperties] returns *)

Lemma foldl_insert_lookup_none {V : Type} (l : list (string * V))
    (acc : gmap string V) (k : string) :
  Forall (fun e => e.1 <> k) l ->
  foldl (fun m e => <[e.1 := e.2]> m) acc l !! k = acc !! k.
Proof.
  intros H. revert acc. induction H as [|e l He _ IH]; intros acc; simpl; [done|].
  rewrite IH. by apply lookup_insert_ne.
Qed.

Lemma foldl_insert_lookup_last {V : Type} (l1 l2 : list (string * V)) (e : string * V)
    (acc : gmap string V) :
  Forall (fun e' => e'.1 <> e.1) l2 ->
  foldl (fun m e => <[e.1 := e.2]> m) acc (l1 ++ e :: l2) !! e.1 = Some e.2.
Proof.
  intros H. rewrite foldl_app. simpl.
  rewrite (foldl_insert_lookup_none _ _ _ H). apply lookup_insert_eq.
Qed.

(** The last element of a list with a given key, if there is one. *)
Lemma last_with_key {V : Type} (l : list (string * V)) (k : string) :
  Forall (fun e => e.1 <> k) l \/
  exists l1 e l2, l = l1 ++ e :: l2 /\ e.1 = k /\ Forall (fun e' => e'.1 <> k) l2.
Proof.
  induction l as [|e0 l IH]; [by left|].
  destruct IH as [Hnone|(l1 & e & l2 & -> & He & Hl2)].
  - destruct (decide (e0.1 = k)) as [Hk|Hk].
    + right. by exists [], e0, l.
    + left. by constructor.
  - right. by exists (e0 :: l1), e, l2.
Qed.

Lemma size_list_to_map_le {V : Type} (l : list (string * V)) :
  (size (list_to_map l : gmap string V) <= length l)%nat.
Proof.
  induction l as [|[k v] l IH]; simpl; [by rewrite map_size_empty|].
  destruct ((list_to_map l : gmap string V) !! k) eqn:Hk.
  - rewrite map_size_insert_Some by eauto. lia.
  - rewrite map_size_insert_None by done. lia.
Qed.

Section BuiltMap.

Context {float64 : Type} (ParseFloat : string -> float64 + error).

Lemma buildSdkDatatableProperty_inl i p e :
  buildSdkDatatableProperty ParseFloat i p = Returns (inl e) ->
  e = builtEntry ParseFloat i p /\ hasNameAndType p.
Proof.
  unfold buildSdkDatatableProperty, builtEntry, hasNameAndType.
  destruct (p !! "name") as [name|]; [simpl|done].
  destruct (p !! "type") as [ty|]; [simpl|done].
  destruct (p !! "default") as [def|]; simpl.
  - destruct (String.eqb def ""); [intros [= <-]; eauto|].
    destruct (convertDefault ParseFloat ty def) as [[v|err]|]; [|done..].
    intros [= <-]. eauto.
  - intros [= <-]. eauto.
Qed.

Lemma buildSdkDatatablePropertiesFrom_inv props : forall i sdkProps m diags,
  buildSdkDatatablePropertiesFrom ParseFloat i props sdkProps = Returns (Some m, diags) ->
  diags = [] /\ Forall hasNameAndType props /\
  m = foldl (fun m e => <[e.1 := e.2]> m) sdkProps (builtEntries ParseFloat i props).
Proof.
  induction props as [|p props IH]; intros i sdkProps m diags; simpl.
  - intros [= <- <-]. by repeat split.
  - destruct (buildSdkDatatableProperty ParseFloat i p) as [[[name prop]|dg]|] eqn:Hp;
      simpl; [|done..].
    apply buildSdkDatatableProperty_inl in Hp as [He Hwf]. intros Hrest.
    apply IH in Hrest as (-> & Hwfs & ->). split; [done|]. split; [by constructor|].
    unfold builtEntry, sdkProperty in He. by injection He as -> ->.
Qed.

Lemma builtEntries_lookup props : forall i j,
  builtEntries ParseFloat i props !! j = builtEntry ParseFloat (i + j) <$> props !! j.
Proof.
  induction props as [|p props IH]; intros i j; [done|].
  destruct j as [|j]; simpl.
  - by rewrite Nat.add_0_r.
  - rewrite IH. by replace (S i + j)%nat with (i + S j)%nat by lia.
Qed.

Lemma builtEntries_length i props :
  length (builtEntries ParseFloat i props) = length props.
Proof. revert i. induction props as [|p props IH]; intros i; simpl; [done|]. by rewrite IH. Qed.

(** Where an entry of the returned map comes from: the last element of
    the list with that name. *)
Lemma buildSdkDatatableProperties_entry d props m diags k v :
  d_properties d = Some props ->
  buildSdkDatatableProperties ParseFloat d = Returns (Some m, diags) ->
  m !! k = Some v ->
  exists i p,
    props !! i = Some p /\ hasNameAndType p /\ p !! "name" = Some k /\
    (k, v) = builtEntry ParseFloat i p /\
    (forall j p', props !! j = Some p' -> p' !! "name" = Some k -> (j <= i)%nat).
Proof.
  intros Hd Hb Hk. unfold buildSdkDatatableProperties in Hb. rewrite Hd in Hb.
  apply buildSdkDatatablePropertiesFrom_inv in Hb as (_ & Hwf & ->).
  destruct (last_with_key (builtEntries ParseFloat 0 props) k)
    as [Hnone|(l1 & e & l2 & Hl & He & Hl2)].
  { by rewrite (foldl_insert_lookup_none _ _ _ Hnone) in Hk. }
  subst k. rewrite Hl, (foldl_insert_lookup_last _ _ _ _ Hl2) in Hk. injection Hk as <-.
  assert (builtEntries ParseFloat 0 props !! length l1 = Some e) as Hi.
  { rewrite Hl. by apply list_lookup_middle. }
  rewrite builtEntries_lookup in Hi. simpl in Hi.
  destruct (props !! length l1) as [p|] eqn:Hp; [|done]. injection Hi as Hi.
  rewrite Forall_forall in Hwf.
  pose proof (Hwf p (list_elem_of_lookup_2 _ _ _ Hp)) as Hpwf.
  assert (p !! "name" = Some e.1) as Hname.
  { destruct Hpwf as [[name Hn] _]. rewrite <- Hi. unfold builtEntry. simpl.
    by rewrite Hn. }
  exists (length l1), p.
  split; [done|]. split; [done|]. split; [done|]. split.
  - rewrite Hi. by destruct e.
  - intros j p' Hj Hn'. destruct (decide (j <= length l1)%nat) as [|Hgt]; [done|exfalso].
    assert (builtEntries ParseFloat 0 props !! j = Some (builtEntry ParseFloat j p')) as Hej.
    { by rewrite builtEntries_lookup, Hj. }
    rewrite Hl in Hej. rewrite lookup_app_r in Hej by lia.
    destruct (j - length l1)%nat as [|j'] eqn:Hjl; [lia|]. simpl in Hej.
    apply list_elem_of_lookup_2 in Hej. rewrite Forall_forall in Hl2.
    apply (Hl2 _ Hej). unfold builtEntry. simpl. by rewrite Hn'.
Qed.

(** X7. A map that [buildSdkDatatableProperties] returns comes without
    diagnostics; its keys are exactly the names in the list; and the entry
    under a name is built from the last element of that name: its id is
    [/properties/] followed by the name, its type and title are the
    element's, and its display order is the element's index in the list.
    Elements of the same name before it leave no trace, so the display
    orders need not be consecutive. *)
Theorem buildSdkDatatableProperties_last_wins (d : ResourceData) (props : list propMap)
    (m : gmap string (Datatableproperty float64)) (diags : Diagnostics) :
  d_properties d = Some props ->
  buildSdkDatatableProperties ParseFloat d = Returns (Some m, diags) ->
  diags = [] /\
  (forall k, is_Some (m !! k) <-> exists p, p ∈ props /\ p !! "name" = Some k) /\
  (forall k v, m !! k = Some v ->
     exists i p,
       props !! i = Some p /\ p !! "name" = Some k /\
       (forall j p', props !! j = Some p' -> p' !! "name" = Some k -> (j <= i)%nat) /\
       Id v = Some ("/properties/" +:+ k) /\ VarType v = p !! "type" /\
       Title v = p !! "title" /\ DisplayOrder v = Some (Z.of_nat i)) /\
  (size m <= length props)%nat.
Proof.
  intros Hd Hb. split; [|split; [|split]].
  - unfold buildSdkDatatableProperties in Hb. rewrite Hd in Hb.
    by apply buildSdkDatatablePropertiesFrom_inv in Hb as (-> & _).
  - intros k. split.
    + intros [v Hv].
      destruct (buildSdkDatatableProperties_entry _ _ _ _ _ _ Hd Hb Hv)
        as (i & p & Hp & _ & Hn & _).
      exists p. split; [by eapply list_elem_of_lookup_2|done].
    + intros (p & Hin & Hn).
      unfold buildSdkDatatableProperties in Hb. rewrite Hd in Hb.
      apply buildSdkDatatablePropertiesFrom_inv in Hb as (_ & _ & ->).
      destruct (last_with_key (builtEntries ParseFloat 0 props) k)
        as [Hnone|(l1 & e & l2 & Hl & He & Hl2)].
      * exfalso. apply list_elem_of_lookup_1 in Hin as [j Hj].
        assert (builtEntries ParseFloat 0 props !! j = Some (builtEntry ParseFloat j p)) as Hej.
        { by rewrite builtEntries_lookup, Hj. }
        apply list_elem_of_lookup_2 in Hej. rewrite Forall_forall in Hnone.
        apply (Hnone _ Hej). unfold builtEntry. simpl. by rewrite Hn.
      * subst k. rewrite Hl, (foldl_insert_lookup_last _ _ _ _ Hl2). eauto.
  - intros k v Hv.
    destruct (buildSdkDatatableProperties_entry _ _ _ _ _ _ Hd Hb Hv)
      as (i & p & Hp & [_ [ty Ht]] & Hn & He & Hlast).
    exists i, p. unfold builtEntry, sdkProperty in He. rewrite Hn, Ht in He. simpl in He.
    injection He as ->. by repeat split.
  - unfold buildSdkDatatableProperties in Hb. rewrite Hd in Hb.
    apply buildSdkDatatablePropertiesFrom_inv in Hb as (_ & _ & ->).
    rewrite <- (builtEntries_length 0 props).
    rewrite foldl_insert_list_to_map, <- length_reverse.
    apply size_list_to_map_le.
Qed.

End BuiltMap.

(** ** What [strconv.Atoi] accepts *)

Lemma digitOf_range c d : digitOf c = Some d -> 0 <= d <= 9.
Proof.
  unfold digitOf. destruct (_ && _) eqn:H; [|done]. intros [= <-].
  apply andb_true_iff in H as [H1 H2]. lia.
Qed.

Lemma parseDigits_ge s : forall acc un, parseDigits s acc = inl un -> 0 <= acc -> acc <= un.
Proof.
  induction s as [|c s IH]; intros acc un; simpl.
  - intros [= <-]. lia.
  - destruct (digitOf c) as [d|] eqn:Hd; [|done].
    apply digitOf_range in Hd.
    destruct (2 ^ 64 <=? acc * 10 + d); [done|].
    intros H Hacc. apply IH in H; lia.
Qed.

Lemma Atoi_range s n : Atoi s = inl n -> - 2 ^ 63 <= n < 2 ^ 63.
Proof.
  unfold Atoi.
  assert (forall neg body,
    match body with
    | EmptyString => inr (NumError "Atoi" s ErrSyntax)
    | _ =>
        match parseDigits body 0 with
        | inr k => inr (NumError "Atoi" s k)
        | inl un =>
            if neg : bool then
              if 2 ^ 63 <? un then inr (NumError "Atoi" s ErrRange) else inl (- un)
            else
              if 2 ^ 63 <=? un then inr (NumError "Atoi" s ErrRange) else inl un
        end
    end = inl n -> - 2 ^ 63 <= n < 2 ^ 63) as H.
  { intros neg body. destruct body as [|c body]; [done|].
    destruct (parseDigits (String c body) 0) as [un|k] eqn:Hp; [|done].
    apply parseDigits_ge in Hp; [|lia].
    destruct neg.
    - destruct (Z.ltb_spec (2 ^ 63) un); [done|]. intros [= <-]. lia.
    - destruct (Z.leb_spec (2 ^ 63) un); [done|]. intros [= <-]. lia. }
  destruct s as [|c s']; [done|].
  destruct (Ascii.ascii_dec c "-") as [->|Hm]; [apply (H true s')|].
  destruct (Ascii.ascii_dec c "+") as [->|Hp]; [apply (H false s')|].
  intros Hs. apply (H false (String c s')).
  destruct c as [[] [] [] [] [] [] [] []]; try exact Hs; congruence.
Qed.

Section BuiltDefaults.

Context {float64 : Type} (ParseFloat : string -> float64 + error).

Lemma convertDefault_typed ty def v :
  convertDefault ParseFloat ty def = Some (inl v) ->
  match v with
  | VBool b => ty = "boolean" /\ ParseBool def = inl b
  | VString s => ty = "string" /\ s = def
  | VInt n => ty = "integer" /\ Atoi def = inl n
  | VFloat f => ty = "number" /\ ParseFloat def = inl f
  end.
Proof.
  unfold convertDefault.
  destruct (String.eqb_spec ty "boolean") as [->|_].
  { destruct (ParseBool def); [|done]. by intros [= <-]. }
  destruct (String.eqb_spec ty "string") as [->|_]; [by intros [= <-]|].
  destruct (String.eqb_spec ty "integer") as [->|_].
  { destruct (Atoi def); [|done]. by intros [= <-]. }
  destruct (String.eqb_spec ty "number") as [->|_]; [|done].
  destruct (ParseFloat def); [|done]. by intros [= <-].
Qed.

Lemma convertDefault_invalid ty def :
  ty ∉ propertyTypes -> convertDefault ParseFloat ty def = None.
Proof.
  intros Hty. unfold convertDefault, propertyTypes in *.
  destruct (String.eqb_spec ty "boolean") as [->|_]; [destruct Hty; by left|].
  destruct (String.eqb_spec ty "string") as [->|_]; [destruct Hty; by right; left|].
  destruct (String.eqb_spec ty "integer") as [->|_];
    [destruct Hty; by right; right; left|].
  destruct (String.eqb_spec ty "number") as [->|_]; [|done].
  destruct Hty. by right; right; right; left.
Qed.

(** X8. In a map that [buildSdkDatatableProperties] returns, a default is
    a value of the declared type: a boolean for [boolean] (what
    [ParseBool] made of the element's text), the element's non-empty text
    itself for [string], an integer within the 64-bit range for [integer]
    (what [Atoi] made of the text), a float for [number]. *)
Theorem built_defaults_typed (d : ResourceData) (props : list propMap)
    (m : gmap string (Datatableproperty float64)) (diags : Diagnostics)
    (k : string) (v : Datatableproperty float64) :
  d_properties d = Some props ->
  buildSdkDatatableProperties ParseFloat d = Returns (Some m, diags) ->
  m !! k = Some v ->
  match Default v with
  | None => True
  | Some val =>
      exists p def,
        p ∈ props /\ p !! "name" = Some k /\ p !! "default" = Some def /\ def <> "" /\
        match val with
        | VBool b => VarType v = Some "boolean" /\ ParseBool def = inl b
        | VString s => VarType v = Some "string" /\ s = def
        | VInt n => VarType v = Some "integer" /\ Atoi def = inl n /\
                    - 2 ^ 63 <= n < 2 ^ 63
        | VFloat f => VarType v = Some "number" /\ ParseFloat def = inl f
        end
  end.
Proof.
  intros Hd Hb Hv.
  destruct (buildSdkDatatableProperties_entry _ _ _ _ _ _ _ Hd Hb Hv)
    as (i & p & Hp & [_ [ty Ht]] & Hn & He & _).
  unfold builtEntry, sdkProperty in He. rewrite Hn, Ht in He. simpl in He.
  injection He as ->. simpl.
  destruct (p !! "default") as [def|] eqn:Hdef; simpl; [|done].
  destruct (String.eqb_spec def "") as [|Hne]; [done|].
  destruct (convertDefault ParseFloat ty def) as [[val|err]|] eqn:Hc; [|done..].
  exists p, def. split; [by eapply list_elem_of_lookup_2|].
  split; [done|]. split; [done|]. split; [done|].
  apply convertDefault_typed in Hc.
  destruct val as [b|s|n|f]; destruct Hc as [-> Hc]; (split; [done|]); try done.
  split; [done|]. by eapply Atoi_range.
Qed.

Lemma buildSdkDatatablePropertiesFrom_app pre : forall i rest sdkProps,
  Forall (fun p => hasNameAndType p /\ defaultConverts ParseFloat p) pre ->
  buildSdkDatatablePropertiesFrom ParseFloat i (pre ++ rest) sdkProps
  = buildSdkDatatablePropertiesFrom ParseFloat (i + length pre) rest
      (foldl (fun m e => <[e.1 := e.2]> m) sdkProps (builtEntries ParseFloat i pre)).
Proof.
  induction pre as [|p pre IH]; intros i rest sdkProps Hpre; simpl.
  - by rewrite Nat.add_0_r.
  - apply Forall_cons in Hpre as [[Hwf Hc] Hpre].
    rewrite (buildSdkDatatableProperty_converts _ i p Hwf Hc). simpl.
    destruct (builtEntry ParseFloat i p) as [name prop]. rewrite IH by done.
    by replace (S i + length pre)%nat with (i + S (length pre))%nat by lia.
Qed.

(** X9. The first element of the list whose default cannot be converted
    decides what [buildSdkDatatableProperties] returns, whatever follows
    it: the conversion error when its non-empty default does not parse as
    its type, and the invalid-type diagnostic when it has a non-empty
    default and a type outside the four. No map is returned, and a later
    failure is not reported. *)
Theorem first_failure_decides (d : ResourceData) (pre rest : list propMap)
    (bad : propMap) (name ty def : string) :
  d_properties d = Some (pre ++ bad :: rest) ->
  Forall (fun p => hasNameAndType p /\ defaultConverts ParseFloat p) pre ->
  bad !! "name" = Some name -> bad !! "type" = Some ty ->
  bad !! "default" = Some def -> def <> "" ->
  (forall err,
      convertDefault ParseFloat ty def = Some (inr err) ->
      buildSdkDatatableProperties ParseFloat d = Returns (None, [DiagError err]))
  /\ (ty ∉ propertyTypes ->
      buildSdkDatatableProperties ParseFloat d
      = Returns (None, diag_Errorf ("Invalid type " +:+ ty +:+
                                    " for Datatable property " +:+ name))).
Proof.
  intros Hd Hpre Hn Ht Hdef Hne. unfold buildSdkDatatableProperties. rewrite Hd.
  rewrite (buildSdkDatatablePropertiesFrom_app _ _ _ _ Hpre). simpl.
  rewrite (buildSdkDatatableProperty_default _ _ _ _ _ _ Hn Ht Hdef Hne).
  split.
  - intros err Hc. by rewrite Hc.
  - intros Hty. by rewrite (convertDefault_invalid _ _ Hty).
Qed.

End BuiltDefaults.

(** ** Listing all datatables *)

Lemma NoDup_fmap_inj_in {A B : Type} (f : A -> B) (l : list A) (x y : A) :
  NoDup (f <$> l) -> x ∈ l -> y ∈ l -> f x = f y -> x = y.
Proof.
  induction l as [|a l IH]; [by intros _ ?%elem_of_nil|].
  rewrite fmap_cons. intros [Ha Hnd]%NoDup_cons.
  intros [->|Hx]%elem_of_cons [->|Hy]%elem_of_cons Hxy; auto.
  - destruct Ha. rewrite Hxy. by apply list_elem_of_fmap_2.
  - destruct Ha. rewrite <- Hxy. by apply list_elem_of_fmap_2.
Qed.

(** A page that lists at least one datatable, each with an id and a name. *)
Definition fullPage (r : PageResult) : Prop :=
  page_getErr r = None /\
  exists entities, page_Entities r = Some entities /\ entities <> [] /\
    Forall (fun e => is_Some (table_Id e) /\ is_Some (table_Name e)) entities.

(** A page without error that lists nothing. *)
Definition emptyPage (r : PageResult) : Prop :=
  page_getErr r = None /\ (page_Entities r = None \/ page_Entities r = Some []).

(** The datatables listed on pages [from], ..., [from + n - 1]. *)
Definition tablesOn (getPage : nat -> PageResult) (from n : nat) : list TableEntity :=
  mjoin ((fun j => default [] (page_Entities (getPage j))) <$> seq from n).

Definition tableEntry (e : TableEntity) : string * ResourceMeta :=
  (default "" (table_Id e), mkResourceMeta (default "" (table_Name e))).

Lemma addTables_full entities : forall resources,
  Forall (fun e => is_Some (table_Id e) /\ is_Some (table_Name e)) entities ->
  addTables entities resources
  = Returns (foldl (fun m e => <[e.1 := e.2]> m) resources (tableEntry <$> entities)).
Proof.
  induction entities as [|e entities IH]; intros resources Hwf; [done|].
  apply Forall_cons in Hwf as [[[id Hid] [name Hname]] Hwf].
  destruct e as [oid oname]. simpl in Hid, Hname. subst oid oname. simpl.
  by apply IH.
Qed.

Lemma addTables_nil_field entities : forall resources,
  Exists (fun e => table_Id e = None \/ table_Name e = None) entities ->
  addTables entities resources = Panics.
Proof.
  induction entities as [|e entities IH]; intros resources Hex.
  { by apply Exists_nil in Hex. }
  simpl. destruct (table_Id e) as [id|] eqn:Hid; [simpl|done].
  destruct (table_Name e) as [name|] eqn:Hname; [simpl|done].
  apply IH. apply Exists_cons in Hex as [[?|?]|?]; congruence || done.
Qed.

Lemma tablesOn_S getPage from n :
  tablesOn getPage from (S n)
  = default [] (page_Entities (getPage from)) ++ tablesOn getPage (S from) n.
Proof. done. Qed.

(** The loop over [n] full pages. *)
Lemma getAllArchitectDatatablesFrom_full getPage n : forall fuel from resources,
  (forall j, (from <= j < from + n)%nat -> fullPage (getPage j)) ->
  getAllArchitectDatatablesFrom (n + fuel) getPage from resources
  = getAllArchitectDatatablesFrom fuel getPage (from + n)
      (foldl (fun m e => <[e.1 := e.2]> m) resources
         (tableEntry <$> tablesOn getPage from n)).
Proof.
  induction n as [|n IH]; intros fuel from resources Hfull.
  - simpl. by rewrite Nat.add_0_r.
  - destruct (Hfull from) as (He & entities & Hent & Hne & Hwf); [lia|].
    rewrite tablesOn_S, fmap_app, foldl_app, Hent. simpl. rewrite He, Hent.
    destruct entities as [|e entities]; [done|].
    rewrite (addTables_full _ _ Hwf), IH.
    + by replace (S from + n)%nat with (from + S n)%nat by lia.
    + intros j Hj. apply Hfull. lia.
Qed.

Lemma tablesOn_elem getPage from n e :
  e ∈ tablesOn getPage from n <->
  exists j entities, (from <= j < from + n)%nat /\
    page_Entities (getPage j) = Some entities /\ e ∈ entities.
Proof.
  unfold tablesOn. rewrite list_elem_of_join. split.
  - intros (l & He & Hl). apply list_elem_of_fmap in Hl as (j & -> & Hj).
    apply elem_of_seq in Hj.
    destruct (page_Entities (getPage j)) as [entities|] eqn:Hent;
      [|by apply elem_of_nil in He].
    exists j, entities. by repeat split; try lia.
  - intros (j & entities & Hj & Hent & He).
    exists entities. split; [done|]. apply list_elem_of_fmap.
    exists j. rewrite Hent. split; [done|]. apply elem_of_seq. lia.
Qed.

(** X10. When pages 1 to [k] each list datatables that all have an id and
    a name, and page [k + 1] comes without error and lists nothing,
    [getAllArchitectDatatables] asks for these [k + 1] pages and no other,
    and returns, without diagnostics, a map whose keys are exactly the ids
    listed; each id maps to the name of a datatable listed with that id
    (the last one), so every datatable is found under its id when the ids
    are pairwise distinct. *)
Theorem getAllArchitectDatatables_collects (getPage : nat -> PageResult) (k fuel : nat) :
  (forall j, (1 <= j <= k)%nat -> fullPage (getPage j)) ->
  emptyPage (getPage (S k)) ->
  (k < fuel)%nat ->
  exists resources,
    getAllArchitectDatatables fuel getPage = Some (Returns (Some resources, [])) /\
    (forall getPage', (forall j, (j <= S k)%nat -> getPage' j = getPage j) ->
       getAllArchitectDatatables fuel getPage' = Some (Returns (Some resources, []))) /\
    (forall id, is_Some (resources !! id) <->
       exists e, e ∈ tablesOn getPage 1 k /\ table_Id e = Some id) /\
    (forall id meta, resources !! id = Some meta ->
       exists e, e ∈ tablesOn getPage 1 k /\ table_Id e = Some id /\
                 table_Name e = Some (meta_Name meta)) /\
    (NoDup (table_Id <$> tablesOn getPage 1 k) ->
     forall e, e ∈ tablesOn getPage 1 k ->
       exists id name, table_Id e = Some id /\ table_Name e = Some name /\
                       resources !! id = Some (mkResourceMeta name)).
Proof.
  intros Hfull Hempty Hfuel.
  assert (forall gp, (forall j, (j <= S k)%nat -> gp j = getPage j) ->
    getAllArchitectDatatables fuel gp
    = Some (Returns (Some (foldl (fun m e => <[e.1 := e.2]> m) ∅
                             (tableEntry <$> tablesOn getPage 1 k)), []))) as Hrun.
  { intros gp Hgp. unfold getAllArchitectDatatables.
    replace fuel with (k + S (fuel - S k))%nat by lia.
    rewrite getAllArchitectDatatablesFrom_full.
    - replace (tablesOn gp 1 k) with (tablesOn getPage 1 k).
      + simpl. rewrite Hgp by lia. destruct Hempty as [-> [->| ->]]; done.
      + unfold tablesOn. f_equal. apply list_fmap_ext.
        intros _ j Hj%list_elem_of_lookup_2%elem_of_seq. rewrite Hgp; [done|lia].
    - intros j Hj. rewrite Hgp by lia. apply Hfull. lia. }
  assert (Forall (fun e => is_Some (table_Id e) /\ is_Some (table_Name e))
            (tablesOn getPage 1 k)) as Hwf.
  { apply Forall_forall. intros e (j & entities & Hj & Hent & He)%tablesOn_elem.
    destruct (Hfull j) as (_ & entities' & Hent' & _ & Hall); [lia|].
    rewrite Hent in Hent'. injection Hent' as <-.
    rewrite Forall_forall in Hall. by apply Hall. }
  eexists. split; [by apply Hrun|]. split; [exact Hrun|].
  set (all := tablesOn getPage 1 k) in *.
  assert (forall id meta,
    foldl (fun m e => <[e.1 := e.2]> m) (∅ : gmap string ResourceMeta)
      (tableEntry <$> all) !! id = Some meta ->
    exists l1 e l2, all = l1 ++ e :: l2 /\ table_Id e = Some id /\
      table_Name e = Some (meta_Name meta) /\
      Forall (fun e' => table_Id e' <> Some id) l2) as Hlast.
  { intros id meta Hm.
    destruct (last_with_key (tableEntry <$> all) id)
      as [Hnone|(l1 & e & l2 & Hl & He & Hl2)].
    { by rewrite (foldl_insert_lookup_none _ _ _ Hnone) in Hm. }
    subst id. rewrite Hl, (foldl_insert_lookup_last _ _ _ _ Hl2) in Hm.
    injection Hm as <-.
    apply fmap_app_inv in Hl as (a1 & a2' & Ha1 & Ha2 & Hall).
    destruct a2' as [|e0 a2]; [done|]. rewrite fmap_cons in Ha2.
    injection Ha2 as He0 Ha2. subst e l1 l2.
    exists a1, e0, a2. rewrite Hall in Hwf.
    apply Forall_app in Hwf as [_ Hwf]. apply Forall_cons in Hwf as [[[id Hid] [name Hname]] Hwf2].
    unfold tableEntry. rewrite Hid, Hname. simpl. repeat split; try done.
    rewrite Forall_fmap in Hl2. rewrite Forall_forall in Hl2. apply Forall_forall.
    intros e' He' Heq. apply (Hl2 e' He'). simpl.
    unfold tableEntry. simpl. rewrite Heq, Hid. done. }
  split; [|split].
  - intros id. split.
    + intros [meta (l1 & e & l2 & Hall & Hid & _)%Hlast].
      exists e. split; [|done]. rewrite Hall. apply elem_of_app. right. by left.
    + intros (e & He & Hid).
      destruct (last_with_key (tableEntry <$> all) id)
        as [Hnone|(l1 & e1 & l2 & Hl & He1 & Hl2)].
      * exfalso. rewrite Forall_forall in Hnone.
        apply (Hnone (tableEntry e)); [by apply list_elem_of_fmap_2|].
        unfold tableEntry. simpl. by rewrite Hid.
      * subst id. rewrite Hl, (foldl_insert_lookup_last _ _ _ _ Hl2). eauto.
  - intros id meta (l1 & e & l2 & Hall & Hid & Hname & _)%Hlast.
    exists e. split; [|done]. rewrite Hall. apply elem_of_app. right. by left.
  - intros Hnd e He. rewrite Forall_forall in Hwf.
    destruct (Hwf e He) as [[id Hid] [name Hname]]. exists id, name.
    split; [done|]. split; [done|].
    assert (is_Some (foldl (fun m e => <[e.1 := e.2]> m) (∅ : gmap string ResourceMeta)
              (tableEntry <$> all) !! id)) as [meta Hm].
    { destruct (last_with_key (tableEntry <$> all) id)
        as [Hnone|(l1 & e1 & l2 & Hl & He1 & Hl2)].
      - exfalso. rewrite Forall_forall in Hnone.
        apply (Hnone (tableEntry e)); [by apply list_elem_of_fmap_2|].
        unfold tableEntry. simpl. by rewrite Hid.
      - subst id. rewrite Hl, (foldl_insert_lookup_last _ _ _ _ Hl2). eauto. }
    rewrite Hm. destruct (Hlast id meta Hm) as (l1 & e' & l2 & Hall & Hid' & Hname' & _).
    assert (e' = e) as ->.
    { apply (NoDup_fmap_inj_in table_Id all); [done| |done|congruence].
      rewrite Hall. apply elem_of_app. right. by left. }
    destruct meta as [n]. simpl in Hname'. congruence.
Qed.

(** X11. After [k] pages that each list datatables with ids and names,
    the next page decides: an error of the API makes
    [getAllArchitectDatatables] return that error, with its text, and no
    map at all (what the earlier pages listed is dropped); a datatable
    without id or without name makes it panic. The loop has no bound of
    its own: as long as the pages list datatables it asks for the next
    one. *)
Theorem getAllArchitectDatatables_stops (getPage : nat -> PageResult) (k : nat) :
  (forall j, (1 <= j <= k)%nat -> fullPage (getPage j)) ->
  (forall getErr fuel,
      page_getErr (getPage (S k)) = Some getErr -> (k < fuel)%nat ->
      getAllArchitectDatatables fuel getPage
      = Some (Returns (None, [DiagError (errorString
                 ("Failed to get page of datatables: " +:+ getErr))])))
  /\ (forall entities fuel,
      page_getErr (getPage (S k)) = None ->
      page_Entities (getPage (S k)) = Some entities ->
      Exists (fun e => table_Id e = None \/ table_Name e = None) entities ->
      (k < fuel)%nat ->
      getAllArchitectDatatables fuel getPage = Some Panics)
  /\ (forall fuel, (fuel <= k)%nat -> getAllArchitectDatatables fuel getPage = None).
Proof.
  intros Hfull.
  assert (forall fuel, (k < fuel)%nat ->
    getAllArchitectDatatables fuel getPage
    = getAllArchitectDatatablesFrom (S (fuel - S k)) getPage (S k)
        (foldl (fun m e => <[e.1 := e.2]> m) ∅ (tableEntry <$> tablesOn getPage 1 k)))
    as Hskip.
  { intros fuel Hfuel. unfold getAllArchitectDatatables.
    replace fuel with (k + S (fuel - S k))%nat at 1 by lia.
    rewrite getAllArchitectDatatablesFrom_full; [done|].
    intros j Hj. apply Hfull. lia. }
  split; [|split].
  - intros getErr fuel He Hfuel. rewrite Hskip by done. simpl. by rewrite He.
  - intros entities fuel He Hent Hex Hfuel. rewrite Hskip by done. simpl.
    rewrite He, Hent. destruct entities as [|e entities]; [by apply Exists_nil in Hex|].
    by rewrite (addTables_nil_field _ _ Hex).
  - intros fuel Hfuel. unfold getAllArchitectDatatables.
    replace fuel with (fuel + 0)%nat by lia.
    rewrite getAllArchitectDatatablesFrom_full; [done|].
    intros j Hj. apply Hfull. lia.
Qed.

(** ** The requests of the two SDK functions *)

Lemma foldl_insert_lookup_NoDup {V : Type} (l : list (string * V))
    (acc : gmap string V) (k : string) :
  NoDup l.*1 ->
  foldl (fun m e => <[e.1 := e.2]> m) acc l !! k
  = match list_to_map (M := gmap string V) l !! k with
    | Some v => Some v
    | None => acc !! k
    end.
Proof.
  intros Hnd.
  destruct (last_with_key l k) as [Hnone|(l1 & e & l2 & -> & He & Hl2)].
  - rewrite (foldl_insert_lookup_none _ _ _ Hnone).
    rewrite (not_elem_of_list_to_map_1 (M := gmap string)); [done|].
    intros (e & -> & He)%list_elem_of_fmap.
    rewrite Forall_forall in Hnone. by apply (Hnone e).
  - subst k. rewrite (foldl_insert_lookup_last _ _ _ _ Hl2).
    destruct e as [k v]. simpl in *.
    erewrite (elem_of_list_to_map_1 (M := gmap string)); [done|done|].
    apply elem_of_app. right. by left.
Qed.

Section Requests.

Context {float64 : Type}
  (ParameterToString : string -> string)
  (headerRange : gmap string string -> list (string * string))
  (Hrange : MapRange headerRange).

Lemma addDefaultHeaders_lookup defaultHeader headerParams k :
  addDefaultHeaders headerRange defaultHeader headerParams !! k
  = match defaultHeader !! k with
    | Some v => Some v
    | None => headerParams !! k
    end.
Proof.
  unfold addDefaultHeaders. rewrite foldl_insert_lookup_NoDup.
  - assert (list_to_map (M := gmap string string) (headerRange defaultHeader)
            = defaultHeader) as ->; [|done].
    symmetry. apply list_to_map_flip. symmetry. apply Hrange.
  - rewrite (Hrange defaultHeader). apply NoDup_fst_map_to_list.
Qed.

(** X12. The headers of a request, whatever the order in which the
    default headers are visited. Both functions send [Content-Type] and
    [Accept] as [application/json], overriding a default header of that
    name, and every other default header unchanged. They differ on
    [Authorization]: the PUT or POST always carries the bearer token,
    overriding a default header; the GET carries a default
    [Authorization] header if there is one, else the bearer token if the
    access token is not empty, else none. *)
Theorem request_headers (api : Configuration) (k : string) :
  (forall method body (request : Request float64),
      putOrPostRequest headerRange method body api = Returns request ->
      req_headerParams request !! k
      = if decide (k = "Accept" \/ k = "Content-Type") then Some "application/json"
        else if decide (k = "Authorization")
             then Some ("Bearer " +:+ AccessToken api)
             else DefaultHeader api !! k)
  /\ (forall datatableId expand,
      req_headerParams (getRequest (float64 := float64) ParameterToString headerRange
                          datatableId expand api) !! k
      = if decide (k = "Accept" \/ k = "Content-Type") then Some "application/json"
        else match DefaultHeader api !! k with
             | Some v => Some v
             | None =>
                 if decide (k = "Authorization" /\ AccessToken api <> "")
                 then Some ("Bearer " +:+ AccessToken api)
                 else None
             end).
Proof.
  split.
  - intros method body request Hreq. unfold putOrPostRequest in Hreq.
    assert (exists path,
      request = mkRequest path method body
        (<["Accept" := "application/json"]>
           (<["Content-Type" := "application/json"]>
              (<["Authorization" := "Bearer " +:+ AccessToken api]>
                 (addDefaultHeaders headerRange (DefaultHeader api) ∅)))) None)
      as [path ->].
    { destruct (String.eqb method "PUT"); simpl in Hreq.
      - destruct body as [b|]; [|done]. simpl in Hreq. injection Hreq as <-. eauto.
      - injection Hreq as <-. eauto. }
    simpl. destruct (decide (k = "Accept" \/ k = "Content-Type")) as [[->| ->]|Hk].
    + by rewrite lookup_insert_eq.
    + rewrite lookup_insert_ne by done. by rewrite lookup_insert_eq.
    + do 2 (rewrite lookup_insert_ne by (intros ?; subst; tauto)).
      destruct (decide (k = "Authorization")) as [->|Ha].
      * by rewrite lookup_insert_eq.
      * rewrite lookup_insert_ne by done. rewrite addDefaultHeaders_lookup.
        rewrite lookup_empty. by destruct (DefaultHeader api !! k).
  - intros datatableId expand. unfold getRequest. simpl.
    destruct (decide (k = "Accept" \/ k = "Content-Type")) as [[->| ->]|Hk].
    + by rewrite lookup_insert_eq.
    + rewrite lookup_insert_ne by done. by rewrite lookup_insert_eq.
    + do 2 (rewrite lookup_insert_ne by (intros ?; subst; tauto)). rewrite addDefaultHeaders_lookup.
      destruct (DefaultHeader api !! k) as [v|]; [done|].
      destruct (String.eqb_spec (AccessToken api) "") as [Htok|Htok].
      * rewrite lookup_empty. destruct (decide _) as [[_ ?]|]; done.
      * destruct (decide (k = "Authorization" /\ AccessToken api <> "")) as [[-> _]|Hn].
        -- by rewrite lookup_singleton_eq.
        -- rewrite lookup_singleton_ne; [done|]. intros <-. by apply Hn.
Qed.

End Requests.

Section Calls.

Context {float64 : Type}
  (Unmarshal : string -> option (Datatable float64) * option string)
  (ParameterToString : string -> string)
  (headerRange : gmap string string -> list (string * string))
  (interfaceToString : GoValue float64 -> string)
  (mapRange : gmap string (Datatableproperty float64)
              -> list (string * Datatableproperty float64)).

(** X13. One attempt of [readArchitectDatatable], with its call. The GET
    goes to [BasePath/api/v2/flows/datatables/<resource id>] with the
    query parameter [expand] of [schema]. An error of the transport, an
    error carried by the response (reported with the response's
    [ErrorMessage]) and a body that does not unmarshal all end the attempt
    with the text [Failed to read datatable <id>: <error>] and the data
    unchanged, as a retryable error when the status of the response is 404
    and as a non-retryable one otherwise; the body is unmarshalled only
    when the call succeeded and the response carries no error. A call that
    returns neither a response nor an error makes the attempt panic. *)
Theorem readAttemptCall_outcomes (api : Configuration)
    (CallAPI : Request float64 -> option CallResponse * option string)
    (d : ResourceData) :
  let request := getRequest ParameterToString headerRange (d_Id d) "schema" api in
  let attempt := readAttemptCall Unmarshal ParameterToString headerRange
                   interfaceToString mapRange api CallAPI d in
  let failed (status404 : bool) (text : string) :=
    Returns (d, Some ((if status404 then RetryableError else NonRetryableError)
                        (errorString ("Failed to read datatable " +:+ d_Id d +:+ ": "
                                      +:+ text)))) in
  req_path request = BasePath api +:+ "/api/v2/flows/datatables/" +:+ d_Id d /\
  req_method request = "GET" /\ req_body request = None /\
  req_queryParams request = Some {["expand" := ParameterToString "schema"]} /\
  match CallAPI request with
  | (response, Some e) => attempt = failed (isStatus404 (apiResponseOf <$> response)) e
  | (None, None) => attempt = Panics
  | (Some resp, None) =>
      if cr_Error resp
      then attempt = failed (cr_StatusCode resp =? 404) (cr_ErrorMessage resp)
      else
        match Unmarshal (cr_RawBody resp) with
        | (payload, Some u) => attempt = failed (cr_StatusCode resp =? 404) u
        | (payload, None) =>
            attempt = readAttempt interfaceToString mapRange d
                        (mkDatatableResult payload
                           (Some (mkAPIResponse (cr_StatusCode resp))) None)
        end
  end.
Proof.
  intros request attempt failed. repeat split.
  unfold attempt, readAttemptCall, sdkGetArchitectDatatable, finishCall. fold request.
  destruct (CallAPI request) as [response [e|]]; simpl.
  - unfold failed, readAttempt. simpl.
    destruct response as [resp|]; simpl; [by destruct (cr_StatusCode resp =? 404)|done].
  - destruct response as [resp|]; [simpl|done].
    destruct (cr_Error resp); simpl.
    + unfold failed, readAttempt. simpl. by destruct (cr_StatusCode resp =? 404).
    + destruct (Unmarshal (cr_RawBody resp)) as [payload [u|]]; simpl; [|done].
      unfold failed, readAttempt. simpl. by destruct (cr_StatusCode resp =? 404).
Qed.

(** X14. [sdkPutOrPostArchitectDatatable]. For the body that
    [updateArchitectDatatable] assembles the PUT goes to
    [BasePath/api/v2/flows/datatables/<resource id>]; a POST goes to
    [BasePath/api/v2/flows/datatables] whatever its body; a PUT without
    body panics. The response returned is the one [CallAPI] gave, and a
    datatable is returned only when [CallAPI] reported no error, the
    response carried none, and the body unmarshalled to it. *)
Theorem sdkPutOrPostArchitectDatatable_outcomes (api : Configuration)
    (CallAPI : Request float64 -> option CallResponse * option string) :
  (forall d (schema : option (Jsonschemadocument float64)), exists headers,
      putOrPostRequest headerRange "PUT"
        (Some (datatableBody (Some (d_Id d)) d schema)) api
      = Returns (mkRequest ((BasePath api +:+ "/api/v2/flows/datatables") +:+ "/" +:+ d_Id d)
                   "PUT" (Some (datatableBody (Some (d_Id d)) d schema)) headers None))
  /\ (forall body : option (Datatable float64), exists headers,
      putOrPostRequest headerRange "POST" body api
      = Returns (mkRequest (BasePath api +:+ "/api/v2/flows/datatables")
                   "POST" body headers None))
  /\ putOrPostRequest (float64 := float64) headerRange "PUT" None api = Panics
  /\ (forall method body payload response err,
      sdkPutOrPostArchitectDatatable Unmarshal headerRange method body api CallAPI
      = Returns (payload, response, err) ->
      exists request,
        putOrPostRequest headerRange method body api = Returns request /\
        response = (CallAPI request).1 /\
        (forall table, payload = Some table ->
           exists resp, CallAPI request = (Some resp, None) /\ cr_Error resp = false /\
                        Unmarshal (cr_RawBody resp) = (Some table, err)) /\
        (forall e, (CallAPI request).2 = Some e -> payload = None /\ err = Some e)).
Proof.
  split; [|split; [|split]].
  - intros d schema. eexists. reflexivity.
  - intros body. eexists. reflexivity.
  - reflexivity.
  - intros method body payload response err. unfold sdkPutOrPostArchitectDatatable.
    destruct (putOrPostRequest headerRange method body api) as [request|]; [simpl|done].
    intros Hfin. exists request. split; [done|]. unfold finishCall in Hfin.
    destruct (CallAPI request) as [response' [e|]]; simpl in *.
    + injection Hfin as <- <- <-. split; [done|]. split; [done|].
      by intros e' [= <-].
    + destruct response' as [resp|]; [simpl in Hfin|done].
      destruct (cr_Error resp) eqn:Herr.
      * injection Hfin as <- <- <-. split; [done|]. split; done.
      * destruct (Unmarshal (cr_RawBody resp)) as [payload' err'] eqn:Hu.
        injection Hfin as <- <- <-. split; [done|]. split; [|done].
        intros table ->. by exists resp.
Qed.

End Calls.

(** ** What is read back, and what a rebuild makes of it *)

Lemma StronglySorted_lookup {A : Type} (R : relation A) (l : list A) (i j : nat) (x y : A) :
  StronglySorted R l -> l !! i = Some x -> l !! j = Some y -> (i < j)%nat -> R x y.
Proof.
  intros Hs. revert i j. induction Hs as [|a l Hs IH Ha]; intros i j Hi Hj Hij; [done|].
  destruct j as [|j]; [lia|]. simpl in Hj. destruct i as [|i]; simpl in Hi.
  - injection Hi as <-. rewrite Forall_forall in Ha.
    apply Ha. by eapply list_elem_of_lookup_2.
  - apply (IH i j); [done|done|lia].
Qed.

Section ReadBack.

Context {float64 : Type} (ParseFloat : string -> float64 + error)
  (interfaceToString : GoValue float64 -> string).

(** The fields of one element of the list read back. *)
Lemma flattenProperty_lookup (p : string * Datatableproperty float64) (k : string) :
  flattenProperty interfaceToString p !! k
  = if decide (k = "name") then Some p.1
    else if decide (k = "type") then VarType p.2
    else if decide (k = "title") then Title p.2
    else if decide (k = "default") then interfaceToString <$> Default p.2
    else None.
Proof.
  unfold flattenProperty.
  destruct (decide (k = "name")) as [->|Hn].
  { destruct (VarType p.2), (Title p.2), (Default p.2);
      repeat (rewrite lookup_insert_ne by done); apply lookup_singleton_eq. }
  destruct (decide (k = "type")) as [->|Hty].
  { destruct (VarType p.2), (Title p.2), (Default p.2);
      repeat (rewrite lookup_insert_ne by done);
      try (by rewrite lookup_insert_eq); by rewrite lookup_singleton_ne. }
  destruct (decide (k = "title")) as [->|Hti].
  { destruct (VarType p.2), (Title p.2), (Default p.2);
      repeat (rewrite lookup_insert_ne by done);
      try (by rewrite lookup_insert_eq); by rewrite lookup_singleton_ne. }
  destruct (decide (k = "default")) as [->|Hd].
  { destruct (VarType p.2), (Title p.2), (Default p.2); simpl;
      try (by rewrite lookup_insert_eq);
      repeat (rewrite lookup_insert_ne by done); by rewrite lookup_singleton_ne. }
  destruct (VarType p.2), (Title p.2), (Default p.2);
    repeat (rewrite lookup_insert_ne by done); by rewrite lookup_singleton_ne.
Qed.

(** The element [pm] of the configuration list is what is read of the
    property [v] stored under the key [k]: its [name] is the key, its
    [type], [title] and [default] are present exactly when the property
    has them, the default as [interfaceToString] prints it, and it has no
    field besides these four. *)
Definition readsProperty (pm : propMap) (k : string) (v : Datatableproperty float64)
    : Prop :=
  pm !! "name" = Some k /\ pm !! "type" = VarType v /\ pm !! "title" = Title v /\
  pm !! "default" = interfaceToString <$> Default v /\ dom pm ⊆ schemaKeys.

Lemma flattenProperty_readsProperty k (v : Datatableproperty float64) :
  readsProperty (flattenProperty interfaceToString (k, withDefaultOrder v)) k v.
Proof.
  clear ParseFloat.
  assert (VarType (withDefaultOrder v) = VarType v /\
          Title (withDefaultOrder v) = Title v /\
          Default (withDefaultOrder v) = Default v) as (Hty & Hti & Hdef).
  { unfold withDefaultOrder. by destruct (DisplayOrder v). }
  unfold readsProperty. rewrite !flattenProperty_lookup. simpl.
  rewrite Hty, Hti, Hdef. repeat split.
  intros k' [x Hk]%elem_of_dom. rewrite flattenProperty_lookup in Hk.
  unfold schemaKeys. rewrite !elem_of_union, !elem_of_singleton.
  destruct (decide (k' = "name")); [tauto|]. destruct (decide (k' = "type")); [tauto|].
  destruct (decide (k' = "title")); [tauto|]. destruct (decide (k' = "default")); [tauto|].
  done.
Qed.

Section Rebuild.

Context (mapRange : gmap string (Datatableproperty float64)
                    -> list (string * Datatableproperty float64))
  (Hrange : MapRange mapRange) (m : gmap string (Datatableproperty float64)).

Lemma sortedPropList_names_perm :
  (sortedPropList mapRange m).*1 ≡ₚ (map_to_list m).*1.
Proof.
  rewrite (sortedPropList_Permutation mapRange m), propListOf_fst. by rewrite (Hrange m).
Qed.

Lemma sortedPropList_names_sorted :
  StronglySorted (fun a b => orderOf m a <= orderOf m b) (sortedPropList mapRange m).*1.
Proof.
  apply Sorted_StronglySorted.
  { intros x y z ? ?. lia. }
  apply (Sorted_fmap fst
           (fun a b : string * Datatableproperty float64 => orderOf m a.1 <= orderOf m b.1));
    [done|].
  eapply Sorted_impl_in; [|apply (sortedPropList_orderOf mapRange Hrange m)|
                           apply (SliceStable_Sorted displayOrder)].
  intros x y Hx Hy. unfold leKey. by rewrite Hx, Hy.
Qed.

Lemma flattenDatatableProperties_lookup i pm :
  flattenDatatableProperties interfaceToString mapRange m !! i = Some pm ->
  exists k, (sortedPropList mapRange m).*1 !! i = Some k /\ pm !! "name" = Some k.
Proof.
  unfold flattenDatatableProperties. rewrite !list_lookup_fmap.
  destruct (sortedPropList mapRange m !! i) as [p|]; [|done]. simpl.
  intros [= <-]. exists p.1. split; [done|]. apply flattenProperty_name.
Qed.

(** X15. The list that [flattenDatatableProperties] returns reads the map
    entry by entry. Every element of the list is read of one entry of the
    map: its [name] is the entry's key, its [type], [title] and [default]
    are those of the entry's property, present exactly when the property
    has them, the default as [interfaceToString] prints it, and it has no
    other field, so the property's [$id] and display order never reach
    the configuration. And every entry of the map is read at exactly one
    index of the list. *)
Theorem flatten_reads_every_property :
  (forall pm,
      pm ∈ flattenDatatableProperties interfaceToString mapRange m ->
      exists k v, m !! k = Some v /\ readsProperty pm k v)
  /\ (forall k v,
      m !! k = Some v ->
      exists i pm,
        flattenDatatableProperties interfaceToString mapRange m !! i = Some pm /\
        readsProperty pm k v /\
        forall j pm',
          flattenDatatableProperties interfaceToString mapRange m !! j = Some pm' ->
          pm' !! "name" = Some k -> j = i).
Proof.
  clear ParseFloat.
  assert (forall p, p ∈ sortedPropList mapRange m ->
            exists v, m !! p.1 = Some v /\ p.2 = withDefaultOrder v) as Hentry.
  { intros p Hp. rewrite (sortedPropList_Permutation mapRange m) in Hp.
    pose proof (propListOf_lookup mapRange Hrange m) as Hall.
    rewrite Forall_forall in Hall. by apply Hall. }
  assert (NoDup (sortedPropList mapRange m).*1) as Hnd.
  { rewrite sortedPropList_names_perm. apply NoDup_fst_map_to_list. }
  split.
  - intros pm Hpm. unfold flattenDatatableProperties in Hpm.
    apply list_elem_of_fmap in Hpm as ([k v'] & -> & Hp).
    destruct (Hentry _ Hp) as (v & Hv & Hv'). simpl in Hv, Hv'. subst v'.
    exists k, v. split; [done|]. apply flattenProperty_readsProperty.
  - intros k v Hv.
    assert (k ∈ (sortedPropList mapRange m).*1) as Hin.
    { rewrite sortedPropList_names_perm. apply list_elem_of_fmap.
      exists (k, v). split; [done|]. by apply elem_of_map_to_list. }
    apply list_elem_of_lookup_1 in Hin as [i Hi].
    rewrite list_lookup_fmap in Hi.
    destruct (sortedPropList mapRange m !! i) as [[k' v']|] eqn:Hp; [|done].
    simpl in Hi. injection Hi as ->.
    destruct (Hentry _ (list_elem_of_lookup_2 _ _ _ Hp)) as (v0 & Hv0 & Hv').
    simpl in Hv0, Hv'. rewrite Hv in Hv0. injection Hv0 as <-. subst v'.
    exists i, (flattenProperty interfaceToString (k, withDefaultOrder v)).
    split; [|split].
    + unfold flattenDatatableProperties. by rewrite list_lookup_fmap, Hp.
    + apply flattenProperty_readsProperty.
    + intros j pm' Hj Hname.
      apply flattenDatatableProperties_lookup in Hj as (k' & Hk' & Hn').
      rewrite Hname in Hn'. injection Hn' as <-.
      apply (NoDup_lookup _ j i k Hnd Hk').
      by rewrite list_lookup_fmap, Hp.
Qed.

(** X16. Building a payload from the list read back renumbers the
    properties: when [buildSdkDatatableProperties] accepts the list that
    [flattenDatatableProperties] made of a map, the map it returns has the
    same keys, its display orders are the numbers from 0 up to the size of
    the map, each used once, and a property that came before another in
    display order still does. *)
Theorem rebuild_renumbers (d : ResourceData)
    (m' : gmap string (Datatableproperty float64)) (diags : Diagnostics) :
  d_properties d = Some (flattenDatatableProperties interfaceToString mapRange m) ->
  buildSdkDatatableProperties ParseFloat d = Returns (Some m', diags) ->
  (forall k, is_Some (m' !! k) <-> is_Some (m !! k)) /\
  (forall k v, m' !! k = Some v ->
     exists i, (i < size m)%nat /\ DisplayOrder v = Some (Z.of_nat i)) /\
  (forall k1 k2 v1 v2, m' !! k1 = Some v1 -> m' !! k2 = Some v2 ->
     DisplayOrder v1 = DisplayOrder v2 -> k1 = k2) /\
  (forall k1 k2, is_Some (m' !! k1) -> is_Some (m' !! k2) ->
     orderOf m k1 < orderOf m k2 -> orderOf m' k1 < orderOf m' k2).
Proof.
  intros Hd Hb.
  set (names := (sortedPropList mapRange m).*1).
  assert (NoDup names) as Hnd.
  { unfold names. rewrite sortedPropList_names_perm. apply NoDup_fst_map_to_list. }
  assert (forall k v, m' !! k = Some v ->
            exists i, names !! i = Some k /\ DisplayOrder v = Some (Z.of_nat i)) as Hidx.
  { intros k v Hv.
    destruct (buildSdkDatatableProperties_entry _ _ _ _ _ _ _ Hd Hb Hv)
      as (i & p & Hp & [_ [ty Ht]] & Hn & He & _).
    apply flattenDatatableProperties_lookup in Hp as (k' & Hk' & Hn').
    rewrite Hn in Hn'. injection Hn' as <-.
    exists i. split; [done|].
    unfold builtEntry, sdkProperty in He. rewrite Hn, Ht in He. by injection He as ->. }
  assert (forall k, k ∈ names <-> is_Some (m !! k)) as Hnames.
  { intros k. unfold names. rewrite sortedPropList_names_perm.
    rewrite list_elem_of_fmap. split.
    - intros ([k' v] & -> & Hin). apply elem_of_map_to_list in Hin. eauto.
    - intros [v Hv]. exists (k, v). split; [done|]. by apply elem_of_map_to_list. }
  assert (length names = size m) as Hlen.
  { unfold names. rewrite sortedPropList_names_perm, length_fmap.
    apply length_map_to_list. }
  split; [|split; [|split]].
  - intros k. rewrite <- Hnames. split.
    + intros [v (i & Hi & _)%Hidx]. by eapply list_elem_of_lookup_2.
    + intros Hk. unfold buildSdkDatatableProperties in Hb. rewrite Hd in Hb.
      apply buildSdkDatatablePropertiesFrom_inv in Hb as (_ & _ & ->).
      apply list_elem_of_lookup_1 in Hk as [i Hi].
      unfold names in Hi. rewrite list_lookup_fmap in Hi.
      destruct (sortedPropList mapRange m !! i) as [p|] eqn:Hp; [|done].
      injection Hi as <-.
      set (pm := flattenProperty interfaceToString p).
      assert (flattenDatatableProperties interfaceToString mapRange m !! i = Some pm) as Hpm.
      { unfold flattenDatatableProperties. by rewrite list_lookup_fmap, Hp. }
      destruct (last_with_key
                  (builtEntries ParseFloat 0
                     (flattenDatatableProperties interfaceToString mapRange m)) p.1)
        as [Hnone|(l1 & e & l2 & Hl & He & Hl2)].
      * exfalso. rewrite Forall_forall in Hnone.
        apply (Hnone (builtEntry ParseFloat i pm)).
        -- apply (list_elem_of_lookup_2 _ i). by rewrite builtEntries_lookup, Hpm.
        -- unfold builtEntry, pm. simpl. by rewrite flattenProperty_name.
      * rewrite <- He in Hl2 |- *.
        rewrite Hl, (foldl_insert_lookup_last _ _ _ _ Hl2). eauto.
  - intros k v (i & Hi & Ho)%Hidx. exists i. split; [|done].
    rewrite <- Hlen. by eapply lookup_lt_Some.
  - intros k1 k2 v1 v2 (i1 & Hi1 & Ho1)%Hidx (i2 & Hi2 & Ho2)%Hidx Heq.
    rewrite Ho1, Ho2 in Heq. injection Heq as Heq%Nat2Z.inj. subst i2. congruence.
  - intros k1 k2 [v1 Hv1] [v2 Hv2] Hlt.
    destruct (Hidx _ _ Hv1) as (i1 & Hi1 & Ho1), (Hidx _ _ Hv2) as (i2 & Hi2 & Ho2).
    unfold orderOf at 1 2. rewrite Hv1, Hv2. simpl. rewrite Ho1, Ho2. simpl.
    destruct (decide (i1 < i2)%nat) as [|Hge]; [lia|exfalso].
    destruct (decide (i1 = i2)) as [->|Hne]; [rewrite Hi1 in Hi2; injection Hi2 as ->; lia|].
    pose proof (StronglySorted_lookup _ _ i2 i1 k2 k1 sortedPropList_names_sorted Hi2 Hi1)
      as Hle.
    simpl in Hle. lia.
Qed.

End Rebuild.

End ReadBack.

(** * The further properties at concrete inputs *)

Definition readTable : Datatable noFloat :=
  mkDatatable (Some "id1") (Some "renamed") None
    (Some (mkWritabledivision (Some "div1")))
    (Some (mkJsonschemadocument None None None (Some twoProperties) None)).

Definition readAnswers : list (Duration * DatatableResult noFloat) :=
  [ (0, notYet);
    (Second, mkDatatableResult (Some readTable) (Some (mkAPIResponse 200)) None) ].

Lemma readAttempt_frame_witness :
  (exists d',
     readAttempt printValue map_to_list tableData
       (mkDatatableResult (Some readTable) (Some (mkAPIResponse 200)) None)
     = Returns (d', None) /\
     d_Id d' = "id1" /\ d_name d' = "renamed" /\ d_division_id d' = "div1") /\
  readAttempt printValue map_to_list tableData forbidden
  = Returns (tableData,
             Some (NonRetryableError
                     (errorString "Failed to read datatable id1: forbidden"))).
Proof.
  split.
  - eexists. split; [reflexivity|].
    destruct (readAttempt_frame printValue map_to_list tableData _
                (mkDatatableResult (Some readTable) (Some (mkAPIResponse 200)) None)
                None eq_refl) as (Hid & _).
    split; [exact Hid|]. split; reflexivity.
  - destruct (readAttempt_frame printValue map_to_list tableData tableData forbidden
                (Some (NonRetryableError
                         (errorString "Failed to read datatable id1: forbidden")))
                eq_refl) as (_ & _ & getErr & He & Hres).
    injection He as <-. reflexivity.
Defined.

Lemma no_call_without_schema_witness :
  Forall hasNameAndType badInteger /\
  Exists (defaultFails noParseFloat) badInteger /\
  exists diags, diags <> [] /\
    forall send calls,
      createArchitectDatatable noParseFloat printValue map_to_list
        (mkResourceData "" "t" "" None (Some badInteger)) send calls
      = Returns (mkRetryRun (mkResourceData "" "t" "" None (Some badInteger)) diags 0).
Proof.
  assert (Forall hasNameAndType badInteger) as Hwf.
  { unfold badInteger. constructor; [|constructor; [|constructor]].
    - split; [by exists "key"|by exists "string"].
    - split; [by exists "n"|by exists "integer"]. }
  assert (Exists (defaultFails noParseFloat) badInteger) as Hex.
  { unfold badInteger. apply Exists_cons_tl, Exists_cons_hd.
    exists "integer", "abc", (NumError "Atoi" "abc" ErrSyntax). by repeat split. }
  split; [exact Hwf|]. split; [exact Hex|].
  destruct (no_call_without_schema noParseFloat printValue map_to_list
              (mkResourceData "" "t" "" None (Some badInteger)) badInteger eq_refl Hwf Hex)
    as (diags & Hne & _ & Hcalls).
  exists diags. split; [exact Hne|]. intros send calls. apply Hcalls.
Defined.

Definition created : DatatableResult noFloat :=
  mkDatatableResult (Some (mkDatatable (Some "new1") (Some "t") None None None))
    (Some (mkAPIResponse 200)) None.

Definition createdWithoutId : DatatableResult noFloat :=
  mkDatatableResult (Some (mkDatatable None (Some "t") None None None))
    (Some (mkAPIResponse 200)) None.

Lemma createArchitectDatatable_sets_id_witness :
  createArchitectDatatable noParseFloat printValue map_to_list tableData
    (fun _ => createdWithoutId) [(0, found)] = Panics /\
  createArchitectDatatable noParseFloat printValue map_to_list tableData
    (fun _ => created) [(0, forbidden)]
  = readArchitectDatatable printValue map_to_list (SetId "new1" tableData) [(0, forbidden)].
Proof.
  split.
  - exact (createArchitectDatatable_sets_id noParseFloat printValue map_to_list tableData
             (fun _ => createdWithoutId) [(0, found)] _ eq_refl eq_refl).
  - exact (createArchitectDatatable_sets_id noParseFloat printValue map_to_list tableData
             (fun _ => created) [(0, forbidden)] _ eq_refl eq_refl).
Defined.

Lemma updateArchitectDatatable_put_payload_unread_witness :
  (forall body : Datatable noFloat,
      res_err ((fun _ => created) body) = res_err ((fun _ => createdWithoutId) body)) /\
  updateArchitectDatatable noParseFloat printValue map_to_list tableData
    (fun _ => created) [(0, found)]
  = updateArchitectDatatable noParseFloat printValue map_to_list tableData
      (fun _ => createdWithoutId) [(0, found)].
Proof.
  split; [by intros body|].
  apply (updateArchitectDatatable_put_payload_unread noParseFloat printValue map_to_list
           tableData [(0, found)] (fun _ => created) (fun _ => createdWithoutId)).
  by intros body.
Defined.

Definition stationFound : list (Duration * GetStationsResult) :=
  stationAnswers ++
  [(2 * Second,
    mkGetStationsResult
      (mkStationentitylisting (Some [mkStation (Some "s1"); mkStation None])) None)].

Lemma dataSourceStationRead_frame_witness :
  let run := mkRetryRun (SetId "s1" stationData) [] 3 in
  dataSourceStationRead stationData stationFound = Returns run /\
  d_name (run_data run) = "desk" /\
  ((run_diags run <> [] /\ run_data run = stationData) \/
   (run_diags run = [] /\
    exists t r first others id,
      (t, r) ∈ stationFound /\ t < 15 * Second /\ gs_getErr r = None /\
      Entities (gs_stations r) = Some (first :: others) /\
      station_Id first = Some id /\ run_data run = SetId id stationData)).
Proof.
  intros run. split; [reflexivity|].
  exact (dataSourceStationRead_frame stationData stationFound run eq_refl).
Defined.

(** Two elements named [a]: the later one is kept. *)
Definition nameTwice : list propMap :=
  [ {["name" := "a"; "type" := "string"; "title" := "first"]};
    {["name" := "b"; "type" := "integer"; "default" := "-12"]};
    {["name" := "a"; "type" := "boolean"; "default" := "T"]} ].

Definition nameTwiceMap : gmap string (Datatableproperty noFloat) :=
  {[ "a" := mkDatatableproperty (Some "/properties/a") (Some "boolean") None
              (Some (VBool true)) (Some 2);
     "b" := mkDatatableproperty (Some "/properties/b") (Some "integer") None
              (Some (VInt (-12))) (Some 1) ]}.

Lemma nameTwice_built :
  buildSdkDatatableProperties noParseFloat (mkResourceData "" "t" "" None (Some nameTwice))
  = Returns (Some nameTwiceMap, []).
Proof. by vm_compute. Defined.

Lemma buildSdkDatatableProperties_last_wins_witness :
  buildSdkDatatableProperties noParseFloat (mkResourceData "" "t" "" None (Some nameTwice))
  = Returns (Some nameTwiceMap, []) /\
  (size nameTwiceMap <= length nameTwice)%nat /\
  forall k v, nameTwiceMap !! k = Some v ->
    exists i p,
      nameTwice !! i = Some p /\ p !! "name" = Some k /\
      (forall j p', nameTwice !! j = Some p' -> p' !! "name" = Some k -> (j <= i)%nat) /\
      Id v = Some ("/properties/" +:+ k) /\ VarType v = p !! "type" /\
      Title v = p !! "title" /\ DisplayOrder v = Some (Z.of_nat i).
Proof.
  split; [exact nameTwice_built|].
  destruct (buildSdkDatatableProperties_last_wins noParseFloat
              (mkResourceData "" "t" "" None (Some nameTwice)) nameTwice nameTwiceMap []
              eq_refl nameTwice_built) as (_ & _ & Hentry & Hsize).
  split; [exact Hsize|exact Hentry].
Defined.

Lemma built_defaults_typed_witness :
  nameTwiceMap !! "b"
  = Some (mkDatatableproperty (Some "/properties/b") (Some "integer") None
            (Some (VInt (-12))) (Some 1)) /\
  exists p def,
    p ∈ nameTwice /\ p !! "name" = Some "b" /\ p !! "default" = Some def /\ def <> "" /\
    Some "integer" = Some "integer" /\ Atoi def = inl (-12) /\ - 2 ^ 63 <= -12 < 2 ^ 63.
Proof.
  assert (nameTwiceMap !! "b"
          = Some (mkDatatableproperty (Some "/properties/b") (Some "integer") None
                    (Some (VInt (-12))) (Some 1))) as Hb by (by vm_compute).
  split; [exact Hb|].
  exact (built_defaults_typed noParseFloat
           (mkResourceData "" "t" "" None (Some nameTwice)) nameTwice nameTwiceMap [] "b" _
           eq_refl nameTwice_built Hb).
Defined.

(** An element of the list as [d.Get] answers it: all four fields, one
    that is not set as the empty string. *)
Definition element (name ty title def : string) : propMap :=
  {["name" := name; "type" := ty; "title" := title; "default" := def]}.

Lemma first_failure_decides_witness :
  Forall (fun p => hasNameAndType p /\ defaultConverts noParseFloat p)
    [element "key" "string" "" ""] /\
  buildSdkDatatableProperties noParseFloat
    (mkResourceData "" "t" "" None
       (Some ([element "key" "string" "" ""]
              ++ element "n" "integer" "" "abc"
              :: [element "on" "boolean" "" "maybe"])))
  = Returns (None, [DiagError (NumError "Atoi" "abc" ErrSyntax)]).
Proof.
  assert (Forall (fun p => hasNameAndType p /\ defaultConverts noParseFloat p)
            [element "key" "string" "" ""]) as Hpre.
  { constructor; [|constructor]. split.
    - split; [by exists "key"|by exists "string"].
    - intros ty def _ Hd Hne. vm_compute in Hd. by injection Hd as <-. }
  split; [exact Hpre|].
  destruct (first_failure_decides noParseFloat
              (mkResourceData "" "t" "" None
                 (Some ([element "key" "string" "" ""]
                        ++ element "n" "integer" "" "abc"
                        :: [element "on" "boolean" "" "maybe"])))
              [element "key" "string" "" ""] [element "on" "boolean" "" "maybe"]
              (element "n" "integer" "" "abc") "n" "integer" "abc"
              eq_refl Hpre eq_refl eq_refl eq_refl) as (Herr & _); [done|].
  exact (Herr _ eq_refl).
Defined.

Definition threeTables (pageNum : nat) : PageResult :=
  match pageNum with
  | 1%nat => mkPageResult (Some [mkTableEntity (Some "a") (Some "Alpha");
                                 mkTableEntity (Some "b") (Some "Beta")]) None
  | 2%nat => mkPageResult (Some [mkTableEntity (Some "c") (Some "Gamma")]) None
  | _ => mkPageResult (Some []) None
  end.

Lemma threeTables_full j : (1 <= j <= 2)%nat -> fullPage (threeTables j).
Proof.
  intros Hj. assert (j = 1 \/ j = 2)%nat as [-> | ->] by lia.
  - split; [done|]. eexists. split; [done|]. split; [done|].
    repeat constructor; by eexists.
  - split; [done|]. eexists. split; [done|]. split; [done|].
    repeat constructor; by eexists.
Defined.

Lemma getAllArchitectDatatables_collects_witness :
  emptyPage (threeTables 3) /\
  exists resources,
    getAllArchitectDatatables 5 threeTables = Some (Returns (Some resources, [])) /\
    (forall id, is_Some (resources !! id) <->
       exists e, e ∈ tablesOn threeTables 1 2 /\ table_Id e = Some id) /\
    (forall id meta, resources !! id = Some meta ->
       exists e, e ∈ tablesOn threeTables 1 2 /\ table_Id e = Some id /\
                 table_Name e = Some (meta_Name meta)).
Proof.
  assert (emptyPage (threeTables 3)) as Hlast by (split; [done|by right]).
  split; [exact Hlast|].
  destruct (getAllArchitectDatatables_collects threeTables 2 5 threeTables_full Hlast)
    as (resources & Hrun & _ & Hkeys & Hmeta & _); [lia|].
  exists resources. split; [exact Hrun|]. split; [exact Hkeys|exact Hmeta].
Defined.

Definition secondPageFails (pageNum : nat) : PageResult :=
  match pageNum with
  | 1%nat => mkPageResult (Some [mkTableEntity (Some "a") (Some "Alpha")]) None
  | _ => mkPageResult None (Some "boom")
  end.

Lemma getAllArchitectDatatables_stops_witness :
  (forall j, (1 <= j <= 1)%nat -> fullPage (secondPageFails j)) /\
  getAllArchitectDatatables 4 secondPageFails
  = Some (Returns (None,
            [DiagError (errorString "Failed to get page of datatables: boom")])).
Proof.
  assert (forall j, (1 <= j <= 1)%nat -> fullPage (secondPageFails j)) as Hfull.
  { intros j Hj. assert (j = 1)%nat as -> by lia.
    split; [done|]. eexists. split; [done|]. split; [done|].
    repeat constructor; by eexists. }
  split; [exact Hfull|].
  destruct (getAllArchitectDatatables_stops secondPageFails 1 Hfull) as (Herr & _).
  apply (Herr "boom" 4%nat); [reflexivity|lia].
Defined.

Definition tracedApi : Configuration :=
  mkConfiguration "https://api.example" "tok"
    {["Authorization" := "Basic abc"; "Accept" := "text/plain"; "X-Trace" := "1"]}.

Lemma request_headers_witness :
  MapRange (fun m : gmap string string => map_to_list m) /\
  (forall method body (request : Request noFloat),
      putOrPostRequest (fun m => map_to_list m) method body tracedApi = Returns request ->
      req_headerParams request !! "Authorization" = Some "Bearer tok") /\
  req_headerParams (getRequest (float64 := noFloat) (fun s => s) (fun m => map_to_list m)
                      "id1" "schema" tracedApi) !! "Authorization"
  = Some "Basic abc".
Proof.
  split; [exact map_to_list_MapRange|].
  exact (conj
    (proj1 (request_headers (float64 := noFloat) (fun s => s) (fun m => map_to_list m)
              map_to_list_MapRange tracedApi "Authorization"))
    (proj2 (request_headers (float64 := noFloat) (fun s => s) (fun m => map_to_list m)
              map_to_list_MapRange tracedApi "Authorization") "id1" "schema")).
Defined.

Lemma rebuild_renumbers_witness :
  exists m',
    buildSdkDatatableProperties noParseFloat
      (mkResourceData "" "t" "" None
         (Some (flattenDatatableProperties printValue map_to_list twoProperties)))
    = Returns (Some m', []) /\
    (forall k, is_Some (m' !! k) <-> is_Some (twoProperties !! k)) /\
    (forall k1 k2, is_Some (m' !! k1) -> is_Some (m' !! k2) ->
       orderOf twoProperties k1 < orderOf twoProperties k2 -> orderOf m' k1 < orderOf m' k2).
Proof.
  eexists. split; [by vm_compute|].
  match goal with
  | |- (forall k, is_Some (?m' !! k) <-> _) /\ _ =>
      destruct (rebuild_renumbers noParseFloat printValue map_to_list map_to_list_MapRange
                  twoProperties
                  (mkResourceData "" "t" "" None
                     (Some (flattenDatatableProperties printValue map_to_list twoProperties)))
                  m' [] eq_refl) as (Hkeys & _ & _ & Horder)
  end.
  - by vm_compute.
  - split; [exact Hkeys|exact Horder].
Defined.

Lemma flatten_reads_every_property_witness :
  MapRange (fun m : gmap string (Datatableproperty noFloat) => map_to_list m) /\
  exists i pm,
    flattenDatatableProperties printValue map_to_list twoProperties !! i = Some pm /\
    pm !! "name" = Some "on" /\ pm !! "type" = Some "boolean" /\
    pm !! "title" = None /\ pm !! "default" = Some "true" /\
    dom pm ⊆ schemaKeys.
Proof.
  split; [exact map_to_list_MapRange|].
  destruct (flatten_reads_every_property printValue map_to_list map_to_list_MapRange
              twoProperties) as (_ & Hevery).
  destruct (Hevery "on" _ eq_refl) as (i & pm & Hi & Hreads & _).
  exists i, pm. split; [exact Hi|exact Hreads].
Defined.



(** * The configured list, as [d.Get] answers it *)

(** An element of the configured list as [d.Get("properties")] answers
    it: all four fields of the element schema are present, one that is
    not set as the empty string, and the type is one of the four that the
    schema's validation admits. *)
Definition asGetReturns (p : propMap) : Prop :=
  dom p = schemaKeys /\ exists ty, p !! "type" = Some ty /\ ty ∈ propertyTypes.

(** The element without a default that is not set: the builder makes no
    [Default] of the empty string, and the flattener writes no [default]
    for a property without one. *)
Definition dropUnset (p : propMap) : propMap :=
  if decide (p !! "default" = Some "") then delete "default" p else p.

(** An element handed to [d.Set("properties", ...)] as [d.Get] answers it
    afterwards: a field that was not set reads as the empty string. *)
Definition asRead (p : propMap) : propMap :=
  {[ "name" := default "" (p !! "name"); "type" := default "" (p !! "type");
     "title" := default "" (p !! "title"); "default" := default "" (p !! "default") ]}.

Lemma schemaKeys_elem (k : string) :
  k ∈ schemaKeys <-> k = "name" \/ k = "type" \/ k = "title" \/ k = "default".
Proof. unfold schemaKeys. rewrite !elem_of_union, !elem_of_singleton. tauto. Qed.

Lemma dropUnset_lookup_ne (p : propMap) (k : string) :
  k <> "default" -> dropUnset p !! k = p !! k.
Proof.
  intros Hk. unfold dropUnset. destruct (decide (p !! "default" = Some "")); [|done].
  by rewrite lookup_delete_ne.
Qed.

Lemma dropUnset_default (p : propMap) :
  dropUnset p !! "default"
  = (def ← p !! "default"; if String.eqb def "" then None else Some def).
Proof.
  unfold dropUnset. destruct (decide (p !! "default" = Some "")) as [He|Hne].
  - by rewrite lookup_delete_eq, He.
  - destruct (p !! "default") as [def|]; [|done]. simpl.
    destruct (String.eqb_spec def "") as [->|]; done.
Qed.

Lemma asRead_lookup (p : propMap) (k : string) :
  asRead p !! k = if decide (k ∈ schemaKeys) then Some (default "" (p !! k)) else None.
Proof.
  unfold asRead. destruct (decide (k ∈ schemaKeys)) as [Hk|Hk].
  - apply schemaKeys_elem in Hk as [-> | [-> | [-> | ->]]].
    + by rewrite lookup_insert_eq.
    + rewrite lookup_insert_ne by done. by rewrite lookup_insert_eq.
    + do 2 (rewrite lookup_insert_ne by done). by rewrite lookup_insert_eq.
    + do 3 (rewrite lookup_insert_ne by done). by rewrite lookup_singleton_eq.
  - rewrite schemaKeys_elem in Hk.
    do 3 (rewrite lookup_insert_ne by (intros <-; tauto)).
    rewrite lookup_singleton_ne; [done|]. intros <-. tauto.
Qed.

(** Reading back what is left of an element of the configured list gives
    the element. *)
Lemma asRead_dropUnset (p : propMap) : dom p = schemaKeys -> asRead (dropUnset p) = p.
Proof.
  intros Hdom. apply map_eq. intros k. rewrite asRead_lookup.
  destruct (decide (k ∈ schemaKeys)) as [Hk|Hk].
  - pose proof Hk as Hin. rewrite <- Hdom in Hin. apply elem_of_dom in Hin as [x Hx].
    rewrite Hx. destruct (decide (k = "default")) as [->|Hne].
    + rewrite dropUnset_default, Hx. simpl.
      by destruct (String.eqb_spec x "") as [->|].
    + by rewrite dropUnset_lookup_ne, Hx.
  - symmetry. apply not_elem_of_dom. by rewrite Hdom.
Qed.

Lemma asGetReturns_hasNameAndType (p : propMap) : asGetReturns p -> hasNameAndType p.
Proof.
  intros [Hdom (ty & Ht & _)]. split; [|by exists ty].
  apply elem_of_dom. rewrite Hdom. apply schemaKeys_elem. by left.
Qed.

Section Configured.

Context {float64 : Type} (ParseFloat : string -> float64 + error)
  (interfaceToString : GoValue float64 -> string).

(** The default of the element, when it is set, is written the way
    [interfaceToString] prints the value it converts to. *)
Definition defaultPrintsBack (p : propMap) : Prop :=
  forall ty def v,
    p !! "type" = Some ty -> p !! "default" = Some def -> def <> "" ->
    convertDefault ParseFloat ty def = Some (inl v) -> interfaceToString v = def.

(** The map holds the configured list: under the name of the element at
    index [i] a property with the element's type and title, display order
    [i], and a default that prints as the element's default, none when
    that is not set; and it holds nothing else. *)
Definition matchesConfiguration (props : list propMap)
    (m : gmap string (Datatableproperty float64)) : Prop :=
  (forall i p, props !! i = Some p ->
     exists k v,
       p !! "name" = Some k /\ m !! k = Some v /\
       VarType v = p !! "type" /\ Title v = p !! "title" /\
       DisplayOrder v = Some (Z.of_nat i) /\
       interfaceToString <$> Default v = dropUnset p !! "default")
  /\ (forall k, is_Some (m !! k) -> exists p, p ∈ props /\ p !! "name" = Some k).

(** Every element of a list that builds was built by the loop body. *)
Lemma buildSdkDatatablePropertiesFrom_elem props : forall i sdkProps m diags j p,
  buildSdkDatatablePropertiesFrom ParseFloat i props sdkProps = Returns (Some m, diags) ->
  props !! j = Some p ->
  buildSdkDatatableProperty ParseFloat (i + j) p
  = Returns (inl (builtEntry ParseFloat (i + j) p)).
Proof.
  induction props as [|p0 props IH]; intros i sdkProps m diags j p; [done|]. simpl.
  destruct (buildSdkDatatableProperty ParseFloat i p0) as [[[name prop]|dg]|] eqn:Hp0;
    simpl; [|done..].
  intros Hrest Hj. destruct j as [|j]; simpl in Hj.
  - injection Hj as <-. rewrite Nat.add_0_r, Hp0.
    by apply buildSdkDatatableProperty_inl in Hp0 as [-> _].
  - replace (i + S j)%nat with (S i + j)%nat by lia. by eapply IH.
Qed.

(** The entry of the built map under a name is built of the last element
    of that name. *)
Lemma built_lookup_last (props : list propMap) (i : nat) (p : propMap) (name : string) :
  Forall hasNameAndType props ->
  props !! i = Some p -> p !! "name" = Some name ->
  (forall j q, props !! j = Some q -> q !! "name" = Some name -> (j <= i)%nat) ->
  foldl (fun (m : gmap string (Datatableproperty float64)) e => <[e.1 := e.2]> m) ∅
    (builtEntries ParseFloat 0 props) !! name
  = Some (builtEntry ParseFloat i p).2.
Proof.
  intros Hwf Hp Hn Hlast.
  assert (builtEntries ParseFloat 0 props !! i = Some (builtEntry ParseFloat i p)) as Hi.
  { by rewrite builtEntries_lookup, Hp. }
  assert ((builtEntry ParseFloat i p).1 = name) as Hname.
  { unfold builtEntry. simpl. by rewrite Hn. }
  rewrite <- (take_drop_middle _ _ _ Hi), <- Hname.
  apply foldl_insert_lookup_last. apply Forall_lookup. intros j e He.
  rewrite lookup_drop, builtEntries_lookup in He.
  destruct (props !! (S i + j)%nat) as [q|] eqn:Hq; [|done]. injection He as <-.
  rewrite Hname. intros Heq.
  rewrite Forall_forall in Hwf.
  destruct (Hwf q (list_elem_of_lookup_2 _ _ _ Hq)) as [[nq Hnq] _].
  unfold builtEntry in Heq. simpl in Heq. rewrite Hnq in Heq. simpl in Heq. subst nq.
  pose proof (Hlast _ _ Hq Hnq). lia.
Qed.

(** The map built of a configured list with distinct names and defaults
    that print back holds the list. *)
Lemma build_matches (props : list propMap) :
  Forall hasNameAndType props ->
  Forall (defaultConverts ParseFloat) props ->
  Forall defaultPrintsBack props ->
  NoDup ((fun p : propMap => p !! "name") <$> props) ->
  matchesConfiguration props
    (foldl (fun (m : gmap string (Datatableproperty float64)) e => <[e.1 := e.2]> m) ∅
       (builtEntries ParseFloat 0 props)).
Proof.
  intros Hwf Hcv Hpb Hnd. split.
  - intros i p Hp.
    rewrite Forall_forall in Hwf, Hcv, Hpb.
    pose proof (list_elem_of_lookup_2 _ _ _ Hp) as Hin.
    destruct (Hwf p Hin) as [[k Hn] [ty Ht]].
    exists k, (builtEntry ParseFloat i p).2. split; [done|]. split.
    { apply built_lookup_last; [by apply Forall_forall|done|done|].
      intros j q Hq Hnq.
      assert (j = i) as ->; [|done].
      apply (NoDup_lookup _ j i (Some k) Hnd); rewrite list_lookup_fmap.
      - by rewrite Hq, <- Hnq.
      - by rewrite Hp, <- Hn. }
    unfold builtEntry, sdkProperty. rewrite Ht. simpl.
    split; [done|]. split; [done|]. split; [done|].
    rewrite dropUnset_default.
    destruct (p !! "default") as [def|] eqn:Hd; simpl; [|done].
    destruct (String.eqb_spec def "") as [->|Hne]; [done|].
    destruct (Hcv p Hin ty def Ht Hd Hne) as [v Hv]. rewrite Hv. simpl.
    by rewrite (Hpb p Hin ty def v Ht Hd Hne Hv).
  - intros k [v Hv].
    assert (buildSdkDatatableProperties ParseFloat
              (mkResourceData "" "" "" None (Some props))
            = Returns (Some (foldl (fun m e => <[e.1 := e.2]> m) ∅
                               (builtEntries ParseFloat 0 props)), [])) as Hb.
    { unfold buildSdkDatatableProperties. simpl.
      by apply buildSdkDatatablePropertiesFrom_converts. }
    destruct (buildSdkDatatableProperties_entry ParseFloat
                (mkResourceData "" "" "" None (Some props)) props _ _ k v eq_refl Hb Hv)
      as (i & p & Hp & _ & Hn & _).
    exists p. split; [by eapply list_elem_of_lookup_2|done].
Qed.

Section Read.

Context (mapRange : gmap string (Datatableproperty float64)
                    -> list (string * Datatableproperty float64))
  (Hrange : MapRange mapRange).

(** The list read of a map that holds a configured list is that list,
    each element without the default that is not set. *)
Lemma flatten_matching (props : list propMap)
    (m : gmap string (Datatableproperty float64)) :
  Forall (fun p : propMap => dom p ⊆ schemaKeys) props ->
  matchesConfiguration props m ->
  flattenDatatableProperties interfaceToString mapRange m = dropUnset <$> props.
Proof.
  clear ParseFloat.
  intros Hdom [Hidx Hkeys].
  set (nameOf := fun p : propMap => default "" (p !! "name")).
  assert (forall i p, props !! i = Some p ->
            is_Some (m !! nameOf p) /\ orderOf m (nameOf p) = Z.of_nat i) as Hord.
  { intros i p Hp. destruct (Hidx i p Hp) as (k & v & Hn & Hv & _ & _ & Ho & _).
    unfold nameOf. rewrite Hn. simpl. split; [by exists v|].
    unfold orderOf. rewrite Hv. simpl. by rewrite Ho. }
  assert (orderOf m <$> (nameOf <$> props) = Z.of_nat <$> seq 0 (length props)) as Hords.
  { apply list_eq. intros i. rewrite !list_lookup_fmap.
    destruct (props !! i) as [p|] eqn:Hp; simpl.
    - destruct (Hord i p Hp) as [_ ->].
      rewrite lookup_seq_lt; [done|]. by eapply lookup_lt_Some.
    - rewrite lookup_seq_ge; [done|]. by apply lookup_ge_None. }
  assert (forall x, x ∈ (sortedPropList mapRange m).*1 <-> is_Some (m !! x)) as Hnm.
  { intros x. rewrite (sortedPropList_names_perm mapRange Hrange m), list_elem_of_fmap.
    split.
    - intros ([k v] & -> & Hin). apply elem_of_map_to_list in Hin. by exists v.
    - intros [v Hv]. exists (x, v). split; [done|]. by apply elem_of_map_to_list. }
  assert (forall x, x ∈ nameOf <$> props <-> is_Some (m !! x)) as Hcfg.
  { intros x. rewrite list_elem_of_fmap. split.
    - intros (p & -> & [i Hp]%list_elem_of_lookup_1). by destruct (Hord i p Hp).
    - intros (p & Hin & Hn)%Hkeys. exists p. split; [|done].
      unfold nameOf. by rewrite Hn. }
  assert ((sortedPropList mapRange m).*1 = nameOf <$> props) as Hnames.
  { assert (Transitive (fun a b : string => orderOf m a <= orderOf m b)) as Htrans.
    { intros x y z ? ?. lia. }
    apply (Sorted_unique_strong (fun a b => orderOf m a <= orderOf m b)).
    - intros x1 x2 Hx1 Hx2 H12 H21.
      apply Hnm, Hcfg, list_elem_of_fmap in Hx1 as (p1 & -> & [i1 Hp1]%list_elem_of_lookup_1).
      apply list_elem_of_fmap in Hx2 as (p2 & -> & [i2 Hp2]%list_elem_of_lookup_1).
      destruct (Hord i1 p1 Hp1) as [_ Ho1], (Hord i2 p2 Hp2) as [_ Ho2].
      assert (i1 = i2) as -> by lia. rewrite Hp1 in Hp2. by injection Hp2 as ->.
    - apply StronglySorted_Sorted, (sortedPropList_names_sorted mapRange Hrange m).
    - apply (Sorted_fmap_inv (orderOf m) Z.le). rewrite Hords. apply Sorted_seq_Z.
    - apply NoDup_Permutation.
      + rewrite (sortedPropList_names_perm mapRange Hrange m). apply NoDup_fst_map_to_list.
      + apply (NoDup_fmap_1 (orderOf m)). rewrite Hords.
        apply NoDup_fmap_2; [apply Nat2Z.inj'|apply NoDup_seq].
      + intros x. by rewrite Hnm, Hcfg. }
  apply list_eq. intros i. unfold flattenDatatableProperties. rewrite !list_lookup_fmap.
  pose proof (f_equal (fun l => l !! i) Hnames) as Hi. simpl in Hi.
  rewrite !list_lookup_fmap in Hi.
  destruct (props !! i) as [p|] eqn:Hp; simpl in *;
    [|by destruct (sortedPropList mapRange m !! i)].
  destruct (sortedPropList mapRange m !! i) as [[k v']|] eqn:Hs; [|done].
  simpl in Hi. injection Hi as Hk. simpl. f_equal.
  destruct (Hidx i p Hp) as (k0 & v & Hn & Hv & Hty & Hti & _ & Hdef).
  assert (k = k0) as -> by (subst k; unfold nameOf; by rewrite Hn).
  assert (v' = withDefaultOrder v) as ->.
  { pose proof (propListOf_lookup mapRange Hrange m) as Hall.
    rewrite Forall_forall in Hall.
    destruct (Hall (k0, v')) as (v0 & Hv0 & Hv').
    - rewrite <- (sortedPropList_Permutation mapRange m).
      by eapply list_elem_of_lookup_2.
    - simpl in Hv0, Hv'. rewrite Hv in Hv0. injection Hv0 as <-. exact Hv'. }
  destruct (flattenProperty_readsProperty interfaceToString k0 v)
    as (Rn & Rty & Rti & Rdef & Rdom).
  rewrite Forall_forall in Hdom.
  pose proof (Hdom p (list_elem_of_lookup_2 _ _ _ Hp)) as Hp_dom.
  apply map_eq. intros key.
  destruct (decide (key = "default")) as [->|Hnd]; [by rewrite Rdef, Hdef|].
  rewrite dropUnset_lookup_ne by done.
  destruct (decide (key = "name")) as [->|Hnn]; [by rewrite Rn, Hn|].
  destruct (decide (key = "type")) as [->|Hnt]; [by rewrite Rty, Hty|].
  destruct (decide (key = "title")) as [->|Hni]; [by rewrite Rti, Hti|].
  assert (key ∉ schemaKeys) as Hout by (rewrite schemaKeys_elem; tauto).
  transitivity (@None string).
  - apply not_elem_of_dom. intros Hin. by apply Hout, Rdom.
  - symmetry. apply not_elem_of_dom. intros Hin. by apply Hout, Hp_dom.
Qed.

(** C1, amended. Take a properties list as [d.Get] answers it: every
    element has the four fields of the schema, one that is not set as the
    empty string, and a type among the four. When the names are pairwise
    distinct and every default that is set converts as its type and is
    written the way [interfaceToString] prints the converted value,
    [buildSdkDatatableProperties] returns a map, and
    [flattenDatatableProperties] of that map is the list again, in the
    same order, whatever the order in which [range] visits the map: entry
    by entry the same name, type and title, and the same default, where a
    default that is not set is left out of the entry and reads as the
    empty string again. *)
Theorem flatten_build_round_trip (d : ResourceData) (props : list propMap) :
  d_properties d = Some props ->
  Forall asGetReturns props ->
  Forall (defaultConverts ParseFloat) props ->
  Forall defaultPrintsBack props ->
  NoDup ((fun p : propMap => p !! "name") <$> props) ->
  exists m,
    buildSdkDatatableProperties ParseFloat d = Returns (Some m, []) /\
    flattenDatatableProperties interfaceToString mapRange m = dropUnset <$> props /\
    asRead <$> flattenDatatableProperties interfaceToString mapRange m = props.
Proof.
  intros Hd Hget Hcv Hpb Hnd.
  assert (Forall hasNameAndType props) as Hwf.
  { eapply Forall_impl; [exact Hget|]. apply asGetReturns_hasNameAndType. }
  eexists. split.
  { unfold buildSdkDatatableProperties. rewrite Hd.
    by apply buildSdkDatatablePropertiesFrom_converts. }
  assert (flattenDatatableProperties interfaceToString mapRange
            (foldl (fun m e => <[e.1 := e.2]> m) ∅ (builtEntries ParseFloat 0 props))
          = dropUnset <$> props) as Hflat.
  { apply flatten_matching; [|by apply build_matches].
    eapply Forall_impl; [exact Hget|]. by intros p [-> _]. }
  split; [exact Hflat|]. rewrite Hflat, <- list_fmap_compose.
  etrans; [|apply list_fmap_id]. apply Forall_fmap_ext.
  eapply Forall_impl; [exact Hget|]. intros p [Hdom _]. by apply asRead_dropUnset.
Qed.

(** X17. No drift in the properties. When the GET of a read attempt
    answers with a datatable whose properties hold the configured list
    (under each configured name a property of the configured type and
    title, with the index in the list as display order and a default that
    prints as the configured text, none where the default is not set, and
    nothing else), the attempt returns nil, and the list it hands to
    [d.Set] is the configured list without the defaults that are not set,
    in the configured order whatever the order of [range]: read back, it
    is the configured list. *)
Theorem read_restores_configuration (d : ResourceData) (props : list propMap)
    (r : DatatableResult float64) (datatable : Datatable float64)
    (name divisionId : string) (division : Writabledivision)
    (schema : Jsonschemadocument float64)
    (m : gmap string (Datatableproperty float64)) :
  Forall asGetReturns props ->
  res_err r = None -> res_datatable r = Some datatable ->
  dt_Name datatable = Some name -> dt_Division datatable = Some division ->
  div_Id division = Some divisionId ->
  dt_Schema datatable = Some schema -> js_Properties schema = Some m ->
  matchesConfiguration props m ->
  exists d' set,
    readAttempt interfaceToString mapRange d r = Returns (d', None) /\
    d_properties d' = Some set /\
    set = dropUnset <$> props /\
    asRead <$> set = props.
Proof.
  clear ParseFloat.
  intros Hget He Hdt Hn Hv Hi Hs Hp Hm.
  assert (flattenDatatableProperties interfaceToString mapRange m = dropUnset <$> props)
    as Hflat.
  { apply flatten_matching; [|done].
    eapply Forall_impl; [exact Hget|]. by intros p [-> _]. }
  eexists. exists (dropUnset <$> props).
  split; [by apply (readAttempt_read _ _ _ _ _ _ _ _ He Hdt Hn Hv Hi)|].
  unfold readData. simpl. rewrite Hs. simpl. rewrite Hp. simpl. rewrite Hflat.
  split; [done|]. split; [done|]. rewrite <- list_fmap_compose.
  etrans; [|apply list_fmap_id]. apply Forall_fmap_ext.
  eapply Forall_impl; [exact Hget|]. intros p [Hdom _]. by apply asRead_dropUnset.
Qed.

End Read.

(** C7. In the map that [buildSdkDatatableProperties] returns, the entry
    under a name is made of the last element of that name: it has the
    element's type and title and the element's index as display order,
    and its default is the element's default converted by the declared
    type, what [ParseBool] made of it for boolean, [Atoi] for integer,
    [ParseFloat] for number, and the string itself for string; a default
    that is absent or empty is left out of the entry. A map is returned
    with no diagnostics for every list whose elements have a name, a type
    and a default that converts. The loop body converts a non-empty
    default by its declared type and returns with the conversion error.
    And when some element of a list (whose elements all have a name and a
    type) has a non-empty default that does not parse, the function
    returns diagnostics and no map. *)
Theorem default_conversion :
  (forall d props m diags i p name ty,
      d_properties d = Some props ->
      buildSdkDatatableProperties ParseFloat d = Returns (Some m, diags) ->
      props !! i = Some p -> p !! "name" = Some name -> p !! "type" = Some ty ->
      (forall j q, props !! j = Some q -> q !! "name" = Some name -> (j <= i)%nat) ->
      exists defaultVal,
        m !! name
        = Some (mkDatatableproperty (Some ("/properties/" +:+ name)) (Some ty)
                  (p !! "title") defaultVal (Some (Z.of_nat i))) /\
        match p !! "default" with
        | None => defaultVal = None
        | Some def =>
            if decide (def = "") then defaultVal = None
            else
              (ty = "boolean" ->
               exists b, ParseBool def = inl b /\ defaultVal = Some (VBool b)) /\
              (ty = "string" -> defaultVal = Some (VString def)) /\
              (ty = "integer" ->
               exists n, Atoi def = inl n /\ defaultVal = Some (VInt n)) /\
              (ty = "number" ->
               exists f, ParseFloat def = inl f /\ defaultVal = Some (VFloat f))
        end)
  /\ (forall d props,
      d_properties d = Some props ->
      Forall hasNameAndType props -> Forall (defaultConverts ParseFloat) props ->
      exists m, buildSdkDatatableProperties ParseFloat d = Returns (Some m, []))
  /\ (forall i p name ty def,
      p !! "name" = Some name -> p !! "type" = Some ty ->
      p !! "default" = Some def -> def <> "" ->
      (ty = "boolean" ->
       buildSdkDatatableProperty ParseFloat i p
       = Returns (match ParseBool def with
                  | inl b => inl (sdkProperty name ty (p !! "title") (Some (VBool b)) i)
                  | inr err => inr [DiagError err]
                  end))
      /\ (ty = "string" ->
       buildSdkDatatableProperty ParseFloat i p
       = Returns (inl (sdkProperty name ty (p !! "title") (Some (VString def)) i)))
      /\ (ty = "integer" ->
       buildSdkDatatableProperty ParseFloat i p
       = Returns (match Atoi def with
                  | inl n => inl (sdkProperty name ty (p !! "title") (Some (VInt n)) i)
                  | inr err => inr [DiagError err]
                  end))
      /\ (ty = "number" ->
       buildSdkDatatableProperty ParseFloat i p
       = Returns (match ParseFloat def with
                  | inl f => inl (sdkProperty name ty (p !! "title") (Some (VFloat f)) i)
                  | inr err => inr [DiagError err]
                  end)))
  /\ (forall i p name ty,
      p !! "name" = Some name -> p !! "type" = Some ty ->
      p !! "default" = None \/ p !! "default" = Some "" ->
      buildSdkDatatableProperty ParseFloat i p
      = Returns (inl (sdkProperty name ty (p !! "title") None i)))
  /\ (forall d props,
      d_properties d = Some props ->
      Forall hasNameAndType props -> Exists (defaultFails ParseFloat) props ->
      exists diags, diags <> [] /\
        buildSdkDatatableProperties ParseFloat d = Returns (None, diags)).
Proof.
  clear interfaceToString.
  split; [|split; [|split; [|split]]].
  - intros d props m diags i p name ty Hd Hb Hp Hn Ht Hlast.
    unfold buildSdkDatatableProperties in Hb. rewrite Hd in Hb.
    pose proof (buildSdkDatatablePropertiesFrom_elem _ _ _ _ _ _ _ Hb Hp) as He.
    simpl in He.
    apply buildSdkDatatablePropertiesFrom_inv in Hb as (_ & Hwf & ->).
    rewrite (built_lookup_last props i p name Hwf Hp Hn Hlast).
    unfold builtEntry, sdkProperty in *. rewrite Hn, Ht in *. simpl in *.
    eexists. split; [reflexivity|].
    destruct (p !! "default") as [def|] eqn:Hdef; simpl; [|done].
    destruct (decide (def = "")) as [->|Hne]; [done|].
    rewrite (eqb_empty_false _ Hne) in *.
    rewrite (buildSdkDatatableProperty_default _ _ _ _ _ _ Hn Ht Hdef Hne) in He.
    destruct (convertDefault ParseFloat ty def) as [[v|err]|] eqn:Hc; [|done..].
    apply convertDefault_typed in Hc.
    destruct v as [b|s|n|f]; destruct Hc as [-> Hc]; subst;
      (split; [|split; [|split]]); try done; intros _; eauto.
  - intros d props Hd Hwf Hcv. eexists. unfold buildSdkDatatableProperties. rewrite Hd.
    by apply buildSdkDatatablePropertiesFrom_converts.
  - intros i p name ty def Hn Ht Hd Hne.
    pose proof (buildSdkDatatableProperty_default ParseFloat i p name ty def Hn Ht Hd Hne)
      as H.
    repeat split; intros ->; rewrite H; unfold convertDefault; simpl.
    + by destruct (ParseBool def).
    + done.
    + by destruct (Atoi def).
    + by destruct (ParseFloat def).
  - apply buildSdkDatatableProperty_omitted.
  - intros d props Hd Hwf Hex. unfold buildSdkDatatableProperties. rewrite Hd.
    by apply buildSdkDatatablePropertiesFrom_fails.
Qed.

End Configured.

(** ** The round trip as first stated *)

(** C1 as stated, for the lists [d.Get] answers: every list valid under
    the schema, with defaults that parse as their type where they are set,
    is read back entry by entry. *)
Definition roundTripsEveryValidList {float64 : Type}
    (ParseFloat : string -> float64 + error)
    (interfaceToString : GoValue float64 -> string)
    (mapRange : gmap string (Datatableproperty float64)
                -> list (string * Datatableproperty float64)) : Prop :=
  forall d props,
    d_properties d = Some props ->
    Forall asGetReturns props -> Forall (defaultConverts ParseFloat) props ->
    exists m,
      buildSdkDatatableProperties ParseFloat d = Returns (Some m, []) /\
      asRead <$> flattenDatatableProperties interfaceToString mapRange m = props.

Lemma element_asGetReturns (name ty title def : string) :
  ty ∈ propertyTypes -> asGetReturns (element name ty title def).
Proof.
  intros Hty. split; [|by exists ty].
  apply set_eq. intros k. rewrite elem_of_dom, schemaKeys_elem. unfold element. split.
  - intros [x Hx].
    destruct (decide (k = "name")); [tauto|]. destruct (decide (k = "type")); [tauto|].
    destruct (decide (k = "title")); [tauto|]. destruct (decide (k = "default")); [tauto|].
    do 3 (rewrite lookup_insert_ne in Hx by done).
    by rewrite lookup_singleton_ne in Hx.
  - intros [-> | [-> | [-> | ->]]]; by eexists.
Qed.

(** Two properties of the same name are valid under the schema, and the
    map keeps one of them: C1 as stated fails for any conversion, any
    printing and any order of [range]. *)
Lemma round_trip_counterexample :
  ~ exists (float64 : Type) (ParseFloat : string -> float64 + error)
      (interfaceToString : GoValue float64 -> string) mapRange,
      MapRange mapRange /\
      roundTripsEveryValidList ParseFloat interfaceToString mapRange.
Proof.
  intros (float64 & ParseFloat & interfaceToString & mapRange & Hrange & Hclaim).
  set (props := [element "a" "string" "" ""; element "a" "string" "" ""]).
  destruct (Hclaim (mkResourceData "" "t" "" None (Some props)) props eq_refl)
    as (m & Hb & Hf).
  { repeat constructor; apply element_asGetReturns; by right; left. }
  { repeat constructor; intros ty def _ [= <-] Hne; done. }
  apply (f_equal length) in Hf.
  rewrite length_fmap, (flattenDatatableProperties_length _ _ Hrange) in Hf.
  vm_compute in Hb. injection Hb as <-. vm_compute in Hf. done.
Qed.

(** A default is read back as [interfaceToString] prints it, which cannot
    be both spellings of one value: of the two valid defaults [1] and
    [true] of a boolean property, one is not read back. *)
Lemma default_respelled {float64 : Type} (ParseFloat : string -> float64 + error)
    (interfaceToString : GoValue float64 -> string) mapRange :
  MapRange mapRange ->
  exists def,
    let p := element "a" "boolean" "" def in
    asGetReturns p /\ defaultConverts ParseFloat p /\
    exists m,
      buildSdkDatatableProperties ParseFloat (mkResourceData "" "t" "" None (Some [p]))
      = Returns (Some m, []) /\
      asRead <$> flattenDatatableProperties interfaceToString mapRange m <> [p].
Proof.
  intros Hrange.
  assert (forall def, In def ["1"; "true"] ->
    let p := element "a" "boolean" "" def in
    asGetReturns p /\ defaultConverts ParseFloat p /\
    exists m,
      buildSdkDatatableProperties ParseFloat (mkResourceData "" "t" "" None (Some [p]))
      = Returns (Some m, []) /\
      (asRead <$> flattenDatatableProperties interfaceToString mapRange m = [p] ->
       interfaceToString (VBool true) = def)) as Hboth.
  { intros def Hdef p. split; [apply element_asGetReturns; by left|]. split.
    - intros ty def' [= <-] Hd _.
      destruct Hdef as [<-|[<-|[]]]; injection Hd as <-; by eexists.
    - destruct Hdef as [<-|[<-|[]]].
      + eexists. split; [reflexivity|].
        change (<["a" := ?v]> ∅) with ({["a" := v]} : gmap string (Datatableproperty float64)).
        rewrite flattenDatatableProperties_singleton by done.
        intros H. apply (f_equal (fmap (fun pm : propMap => pm !! "default"))) in H.
        vm_compute in H. by injection H.
      + eexists. split; [reflexivity|].
        change (<["a" := ?v]> ∅) with ({["a" := v]} : gmap string (Datatableproperty float64)).
        rewrite flattenDatatableProperties_singleton by done.
        intros H. apply (f_equal (fmap (fun pm : propMap => pm !! "default"))) in H.
        vm_compute in H. by injection H. }
  destruct (String.eqb_spec (interfaceToString (VBool true)) "1") as [H1|H1].
  - exists "true". destruct (Hboth "true") as (Hv & Hc & m & Hb & Hf); [by right; left|].
    split; [exact Hv|]. split; [exact Hc|]. exists m. split; [exact Hb|].
    intros H%Hf. rewrite H1 in H. discriminate.
  - exists "1". destruct (Hboth "1") as (Hv & Hc & m & Hb & Hf); [by left|].
    split; [exact Hv|]. split; [exact Hc|]. exists m. split; [exact Hb|].
    intros H%Hf. done.
Qed.

(** ** The configured list at concrete inputs *)

Definition keyAndFlag : list propMap :=
  [ element "key" "string" "Key" ""; element "on" "boolean" "" "true" ].

Lemma keyAndFlag_asGetReturns : Forall asGetReturns keyAndFlag.
Proof.
  unfold keyAndFlag. constructor; [|constructor; [|constructor]];
    apply element_asGetReturns; [by right; left|by left].
Defined.

Lemma flatten_build_round_trip_witness :
  MapRange (fun m : gmap string (Datatableproperty noFloat) => map_to_list m) /\
  Forall asGetReturns keyAndFlag /\
  Forall (defaultConverts noParseFloat) keyAndFlag /\
  Forall (defaultPrintsBack noParseFloat printValue) keyAndFlag /\
  NoDup ((fun p : propMap => p !! "name") <$> keyAndFlag) /\
  exists m,
    buildSdkDatatableProperties noParseFloat (mkResourceData "" "t" "" None (Some keyAndFlag))
    = Returns (Some m, []) /\
    flattenDatatableProperties printValue map_to_list m
    = [ {["name" := "key"; "type" := "string"; "title" := "Key"]};
        element "on" "boolean" "" "true" ] /\
    asRead <$> flattenDatatableProperties printValue map_to_list m = keyAndFlag.
Proof.
  assert (Forall (defaultConverts noParseFloat) keyAndFlag) as Hc.
  { unfold keyAndFlag. constructor; [|constructor; [|constructor]].
    - intros ty def _ [= <-] Hne. done.
    - intros ty def [= <-] [= <-] _. by eexists. }
  assert (Forall (defaultPrintsBack noParseFloat printValue) keyAndFlag) as Hp.
  { unfold keyAndFlag. constructor; [|constructor; [|constructor]].
    - intros ty def v _ [= <-] Hne. done.
    - intros ty def v [= <-] [= <-] _ [= <-]. reflexivity. }
  assert (NoDup ((fun p : propMap => p !! "name") <$> keyAndFlag)) as Hn.
  { apply (bool_decide_unpack _). by vm_compute. }
  split; [exact map_to_list_MapRange|]. split; [exact keyAndFlag_asGetReturns|].
  split; [exact Hc|]. split; [exact Hp|]. split; [exact Hn|].
  destruct (flatten_build_round_trip noParseFloat printValue map_to_list
              map_to_list_MapRange (mkResourceData "" "t" "" None (Some keyAndFlag))
              keyAndFlag eq_refl keyAndFlag_asGetReturns Hc Hp Hn)
    as (m & Hb & Hf & Hr).
  exists m. split; [exact Hb|]. split; [|exact Hr].
  etrans; [exact Hf|]. apply (bool_decide_unpack _). by vm_compute.
Defined.

Definition keyAndCount : list propMap :=
  [ element "key" "string" "" ""; element "n" "integer" "Count" "42";
    element "on" "boolean" "" "T" ].

Lemma default_conversion_witness :
  exists m : gmap string (Datatableproperty noFloat),
    buildSdkDatatableProperties noParseFloat
      (mkResourceData "" "t" "" None (Some keyAndCount))
    = Returns (Some m, []) /\
    m !! "n" = Some (mkDatatableproperty (Some "/properties/n") (Some "integer")
                       (Some "Count") (Some (VInt 42)) (Some 1)) /\
    m !! "key" = Some (mkDatatableproperty (Some "/properties/key") (Some "string")
                         (Some "") None (Some 0)).
Proof.
  destruct (default_conversion noParseFloat) as (Hentry & _).
  eexists. split; [reflexivity|]. split.
  - destruct (Hentry (mkResourceData "" "t" "" None (Some keyAndCount)) keyAndCount
                _ [] 1%nat (element "n" "integer" "Count" "42") "n" "integer"
                eq_refl eq_refl eq_refl eq_refl eq_refl)
      as (defaultVal & Hm & Hdef).
    { intros [|[|[|j]]] q Hq Hn; [lia|lia| |done].
      injection Hq as <-. by vm_compute in Hn. }
    cbn in Hdef. destruct Hdef as (_ & _ & Hint & _).
    destruct (Hint eq_refl) as (n & Hn & ->).
    vm_compute in Hn. injection Hn as <-. exact Hm.
  - destruct (Hentry (mkResourceData "" "t" "" None (Some keyAndCount)) keyAndCount
                _ [] 0%nat (element "key" "string" "" "") "key" "string"
                eq_refl eq_refl eq_refl eq_refl eq_refl)
      as (defaultVal & Hm & Hdef).
    { intros [|[|[|j]]] q Hq Hn; [lia| | |done];
        injection Hq as <-; by vm_compute in Hn. }
    cbn in Hdef. rewrite Hdef in Hm. exact Hm.
Defined.

(** What the API answers for [keyAndCount]: the integer default comes
    back as a value that is not the builder's but prints the same. *)
Definition keyAndCountStored : gmap string (Datatableproperty noFloat) :=
  {[ "key" := mkDatatableproperty (Some "/properties/key") (Some "string") (Some "")
                None (Some 0);
     "n" := mkDatatableproperty (Some "/properties/n") (Some "integer") (Some "Count")
              (Some (VString "42")) (Some 1);
     "on" := mkDatatableproperty (Some "/properties/on") (Some "boolean") (Some "")
               (Some (VString "T")) (Some 2) ]}.

Definition keyAndCountRead : DatatableResult noFloat :=
  mkDatatableResult
    (Some (mkDatatable (Some "id1") (Some "t") None
             (Some (mkWritabledivision (Some "div1")))
             (Some (mkJsonschemadocument None None None (Some keyAndCountStored) None))))
    (Some (mkAPIResponse 200)) None.

Lemma read_restores_configuration_witness :
  MapRange (fun m : gmap string (Datatableproperty noFloat) => map_to_list m) /\
  Forall asGetReturns keyAndCount /\
  matchesConfiguration printValue keyAndCount keyAndCountStored /\
  exists d' set,
    readAttempt printValue map_to_list tableData keyAndCountRead = Returns (d', None) /\
    d_properties d' = Some set /\
    asRead <$> set = keyAndCount.
Proof.
  assert (Forall asGetReturns keyAndCount) as Hget.
  { unfold keyAndCount. constructor; [|constructor; [|constructor; [|constructor]]];
      apply element_asGetReturns; [by right; left|by right; right; left|by left]. }
  assert (matchesConfiguration printValue keyAndCount keyAndCountStored) as Hm.
  { split.
    - intros [|[|[|i]]] p Hp; [..|done]; injection Hp as <-;
        eexists _, _; (split; [reflexivity|]); (split; [reflexivity|]);
        (split; [reflexivity|]); (split; [reflexivity|]); (split; [reflexivity|]);
        rewrite dropUnset_default; reflexivity.
    - intros k [v Hv]. unfold keyAndCountStored in Hv.
      destruct (decide (k = "key")) as [->|Hk].
      { exists (element "key" "string" "" ""). split; [by left|done]. }
      destruct (decide (k = "n")) as [->|Hn].
      { exists (element "n" "integer" "Count" "42"). split; [by right; left|done]. }
      destruct (decide (k = "on")) as [->|Ho].
      { exists (element "on" "boolean" "" "T"). split; [by right; right; left|done]. }
      do 2 (rewrite lookup_insert_ne in Hv by done).
      by rewrite lookup_singleton_ne in Hv. }
  split; [exact map_to_list_MapRange|]. split; [exact Hget|]. split; [exact Hm|].
  destruct (read_restores_configuration printValue map_to_list map_to_list_MapRange
              tableData keyAndCount keyAndCountRead _ "t" "div1"
              (mkWritabledivision (Some "div1")) _ keyAndCountStored
              Hget eq_refl eq_refl eq_refl eq_refl eq_refl eq_refl eq_refl Hm)
    as (d' & set & Hr & Hs & _ & Hback).
  by exists d', set.
Defined.
